(** * Slide-plan resolver: a shallow embedding of [src/components/slidePlanResolver.ts]

    The development follows the layout of the TypeScript source (its current
    version, the first of the two in the file: lines 1-434):

    - [Js]: the fragment of the JavaScript run-time the resolver relies on
      (strings as sequences of code units, IEEE-754 binary64 numbers,
      [parseFloat], [String(...)], truthiness, own-property access, and the
      [TypeError] raised by a property access on [null]/[undefined]);
    - the template and slide types of [src/types.ts];
    - [SlidePlanResolver]: one definition per method of the class, with the
      same names, inside a section whose variables are the two private
      fields [template] and [formData];
    - [sanitizeColor]: the helper of [src/components/PreviewModal.tsx] that
      turns the colours of a theme into the codes the export of the deck
      needs;
    - the properties of the resolver and of the sanitizer.

    Modelling conventions.
    - A string is a [string] of the Standard Library: each [ascii] is one
      UTF-16 code unit in the range U+0000..U+00FF (Latin-1).  Case folding
      and white space are those of JavaScript restricted to that range.
    - A number is a [spec_float] at precision 53 and maximal exponent 1024,
      i.e. an IEEE-754 binary64 value, with round-to-nearest-even.
    - A data object is the list of its own enumerable string-keyed
      properties, in the order [Object.keys] enumerates them, keys distinct.
    - The model is that of plain data.  A method call such as
      [row.hasOwnProperty(h)] reaches the built-in method, a read of a key
      that is not an own property yields [undefined], and [String(v)]
      returns.  The code differs on a record with an own property
      [hasOwnProperty] or [toString] and on a key that names a member of
      [Object.prototype]: the predicates [plainRecord], [plainRow],
      [printable] and [plainData] exclude these, and a property that says
      that the code returns, or what a read yields, has them as
      hypotheses. *)

From Stdlib Require Import List String Ascii Bool Arith ZArith Lia Permutation.
From Stdlib Require Import Floats.SpecFloat.
Import ListNotations.

(* ===================================================================== *)
(** * The JavaScript run-time fragment *)
(* ===================================================================== *)

Module Js.

Local Open Scope string_scope.
Local Open Scope bool_scope.
Local Open Scope nat_scope.

(** ** Completion records: a value or a thrown [TypeError] *)

Inductive JsError : Type := TypeError.

Inductive Result (A : Type) : Type :=
| Ok (a : A)
| Throw (e : JsError).

Arguments Ok {A} a.
Arguments Throw {A} e.

Definition bind {A B : Type} (c : Result A) (k : A -> Result B) : Result B :=
  match c with
  | Ok a => k a
  | Throw e => Throw e
  end.

Definition isOk {A : Type} (c : Result A) : bool :=
  match c with Ok _ => true | Throw _ => false end.

(** [Array.prototype.map] with a callback that may throw. *)
Fixpoint mapM {A B : Type} (f : A -> Result B) (l : list A) : Result (list B) :=
  match l with
  | [] => Ok []
  | x :: r => bind (f x) (fun y => bind (mapM f r) (fun ys => Ok (y :: ys)))
  end.

(** [Array.prototype.map] with the index passed to the callback. *)
Fixpoint mapiM {A B : Type} (f : A -> nat -> Result B) (i : nat) (l : list A)
  : Result (list B) :=
  match l with
  | [] => Ok []
  | x :: r => bind (f x i) (fun y => bind (mapiM f (S i) r) (fun ys => Ok (y :: ys)))
  end.

(** [Array.prototype.find]: the first element the callback accepts; the
    callback is not run on later elements. *)
Fixpoint findM {A : Type} (f : A -> Result bool) (l : list A) : Result (option A) :=
  match l with
  | [] => Ok None
  | x :: r => bind (f x) (fun b => if b then Ok (Some x) else findM f r)
  end.

(** [Array.prototype.some]. *)
Fixpoint someM {A : Type} (f : A -> Result bool) (l : list A) : Result bool :=
  match l with
  | [] => Ok false
  | x :: r => bind (f x) (fun b => if b then Ok true else someM f r)
  end.

(** [Array.prototype.forEach] whose callback updates an accumulator (the
    array the callback pushes to) and receives the element index. *)
Fixpoint forEachM {St A : Type} (f : St -> A -> nat -> Result St) (i : nat)
  (l : list A) (acc : St) : Result St :=
  match l with
  | [] => Ok acc
  | x :: r => bind (f acc x i) (fun acc' => forEachM f (S i) r acc')
  end.

(** ** Strings *)

Definition code (c : ascii) : nat := nat_of_ascii c.

(** WhiteSpace and LineTerminator code points below U+0100: TAB, LF, VT,
    FF, CR, SP and NBSP.  This is the class [\s] and what [trim] removes. *)
Definition isWhiteSpace (c : ascii) : bool :=
  let n := code c in
  ((9 <=? n) && (n <=? 13)) || (n =? 32) || (n =? 160).

(** LineTerminator code points below U+0100: what [.] does not match. *)
Definition isLineTerminator (c : ascii) : bool :=
  let n := code c in (n =? 10) || (n =? 13).

Definition isDigit (c : ascii) : bool :=
  let n := code c in (48 <=? n) && (n <=? 57).

Definition lowerChar (c : ascii) : ascii :=
  let n := code c in
  if ((65 <=? n) && (n <=? 90))
     || ((192 <=? n) && (n <=? 222) && negb (n =? 215))
  then ascii_of_nat (n + 32) else c.

(** [String.prototype.toLowerCase]. *)
Fixpoint toLowerCase (s : string) : string :=
  match s with
  | EmptyString => EmptyString
  | String c r => String (lowerChar c) (toLowerCase r)
  end.

Fixpoint filterChars (keep : ascii -> bool) (s : string) : string :=
  match s with
  | EmptyString => EmptyString
  | String c r => if keep c then String c (filterChars keep r) else filterChars keep r
  end.

Fixpoint trimStart (s : string) : string :=
  match s with
  | EmptyString => EmptyString
  | String c r => if isWhiteSpace c then trimStart r else s
  end.

(** Removes trailing white space: a character is dropped when everything
    from it to the end is white space. *)
Fixpoint trimEnd (s : string) : string :=
  match s with
  | EmptyString => EmptyString
  | String c r =>
      match trimEnd r with
      | EmptyString => if isWhiteSpace c then EmptyString else String c EmptyString
      | r' => String c r'
      end
  end.

(** [String.prototype.trim]. *)
Definition trim (s : string) : string := trimEnd (trimStart s).

(** [String.prototype.includes]. *)
Fixpoint includes (s sub : string) : bool :=
  String.prefix sub s ||
  match s with
  | EmptyString => false
  | String _ r => includes r sub
  end.

Definition isEmpty (s : string) : bool :=
  match s with EmptyString => true | _ => false end.

(** [Array.prototype.join] on strings. *)
Fixpoint join (sep : string) (l : list string) : string :=
  match l with
  | [] => ""
  | [x] => x
  | x :: r => x ++ sep ++ join sep r
  end.

(** Decimal numeral of a non-negative integer; the number of binary digits
    bounds the number of decimal ones. *)
Fixpoint digitsOfN (fuel : nat) (n : N) (acc : string) : string :=
  let acc' := String (ascii_of_N (48 + n mod 10)) acc in
  match fuel with
  | 0 => acc'
  | S f => if (n / 10 =? 0)%N then acc' else digitsOfN f (n / 10)%N acc'
  end.

Definition nToString (n : N) : string := digitsOfN (N.size_nat n) n "".

(** How a template literal prints an integer-valued index or page number. *)
Definition natToString (n : nat) : string := nToString (N.of_nat n).

(** ** Numbers: IEEE-754 binary64 *)

Definition prec : Z := 53.
Definition emax : Z := 1024.

Definition number : Type := spec_float.

Definition NaN : number := S754_nan.

(** The global [isNaN] on a number. *)
Definition isNaN (x : number) : bool :=
  match x with S754_nan => true | _ => false end.

(** [Math.abs] and unary minus. *)
Definition abs (x : number) : number := SFabs x.
Definition neg (x : number) : number := SFopp x.

(** [x === 0] on numbers: true of both zeros. *)
Definition isZero (x : number) : bool :=
  match x with S754_zero _ => true | _ => false end.

(** The number nearest to [m * 10^e] (ties to even), signed by [sign]:
    the rounding StringToNumber applies to a decimal literal.  Both
    operands of the division are exact, so a single rounding happens. *)
Definition ofDecimal (sign : bool) (m : N) (e : Z) : number :=
  match m with
  | N0 => S754_zero sign
  | Npos p =>
      match e with
      | Zneg q => SFdiv prec emax (S754_finite sign p 0) (S754_finite false (Pos.pow 10 q) 0)
      | Z0 => binary_round prec emax sign p 0
      | Zpos q => binary_round prec emax sign (p * Pos.pow 10 q) 0
      end
  end.

Definition ofNat (n : nat) : number := ofDecimal false (N.of_nat n) 0.

(** Value of a string of decimal digits. *)
Fixpoint digitsValue (s : string) (acc : N) : N :=
  match s with
  | EmptyString => acc
  | String c r => digitsValue r (10 * acc + N.of_nat (code c - 48))%N
  end.

(** Splits off the longest prefix of decimal digits. *)
Fixpoint spanDigits (s : string) : string * string :=
  match s with
  | EmptyString => (EmptyString, EmptyString)
  | String c r =>
      if isDigit c then let '(d, rest) := spanDigits r in (String c d, rest)
      else (EmptyString, s)
  end.

Definition splitSign (s : string) : bool * string :=
  match s with
  | String "-"%char r => (true, r)
  | String "+"%char r => (false, r)
  | _ => (false, s)
  end.

(** The ExponentPart of a decimal literal, when a well-formed one starts
    the string ([e] or [E], an optional sign, at least one digit). *)
Definition exponentPart (s : string) : Z :=
  match s with
  | String c r =>
      if (code c =? 101) || (code c =? 69) then
        let '(sg, r1) := splitSign r in
        let '(d, _) := spanDigits r1 in
        if isEmpty d then 0%Z
        else let v := Z.of_N (digitsValue d 0) in if sg then (- v)%Z else v
      else 0%Z
  | EmptyString => 0%Z
  end.

(** The global [parseFloat] applied to a string: leading white space is
    skipped, the longest prefix that is a StrDecimalLiteral is converted,
    and [NaN] is returned when there is none. *)
Definition parseFloat (s : string) : number :=
  let '(sg, s1) := splitSign (trimStart s) in
  if String.prefix "Infinity" s1 then S754_infinity sg
  else
    let '(ip, s2) := spanDigits s1 in
    let '(fp, s3) :=
      match s2 with
      | String "."%char r => spanDigits r
      | _ => (EmptyString, s2)
      end in
    if isEmpty ip && isEmpty fp then NaN
    else ofDecimal sg (digitsValue (ip ++ fp) 0)
                   (exponentPart s3 - Z.of_nat (String.length fp)).

(** *** Number::toString (radix 10) *)

(** [x / 10^j] for the positive rational [x = num/den], as a fraction. *)
Definition scale10 (num den : positive) (j : Z) : positive * positive :=
  match j with
  | Z0 => (num, den)
  | Zpos q => (num, (den * Pos.pow 10 q)%positive)
  | Zneg q => ((num * Pos.pow 10 q)%positive, den)
  end.

(** The integer [n] with [10^(n-1) <= num/den < 10^n], searched upwards
    from [n]: the candidate grows while [10^n <= num/den]. *)
Fixpoint decimalExponentUp (fuel : nat) (num den : positive) (n : Z) : Z :=
  match fuel with
  | 0 => n
  | S f =>
      let '(a, b) := scale10 num den n in
      if (b <=? a)%positive then decimalExponentUp f num den (n + 1) else n
  end.

(** The same search downwards: the candidate shrinks while
    [num/den < 10^(n-1)]. *)
Fixpoint decimalExponentDown (fuel : nat) (num den : positive) (n : Z) : Z :=
  match fuel with
  | 0 => n
  | S f =>
      let '(a, b) := scale10 num den (n - 1) in
      if (a <? b)%positive then decimalExponentDown f num den (n - 1) else n
  end.

(** A binary64 magnitude lies between [10^-324] and [10^309]. *)
Definition decimalExponent (num den : positive) : Z :=
  if (den <=? num)%positive then decimalExponentUp 400 num den 1
  else decimalExponentDown 400 num den 1.

(** The digits [s] (as an integer of [k] digits) and the exponent [n] of
    the shortest decimal that reads back as the positive number [x]; among
    the two [k]-digit neighbours of [x] the nearer one wins, and the even
    one in a tie.  [n0] is the decimal exponent of [x] and [num/den] its
    exact value.  Seventeen digits always suffice for binary64. *)
Fixpoint shortestDigits (fuel : nat) (x : number) (num den : positive)
  (n0 : Z) (k : positive) : N * positive * Z :=
  let '(a, b) := scale10 num den (n0 - Zpos k) in
  let lo := (Npos a / Npos b)%N in
  let r := (Npos a mod Npos b)%N in
  let hi := (lo + 1)%N in
  let okLo := SFeqb (ofDecimal false lo (n0 - Zpos k)) x in
  let okHi := SFeqb (ofDecimal false hi (n0 - Zpos k)) x in
  let carry (s : N) : N * positive * Z :=
    if (s =? Npos (Pos.pow 10 k))%N then ((Npos (Pos.pow 10 k) / 10)%N, k, (n0 + 1)%Z)
    else (s, k, n0) in
  let preferLo :=
    match (2 * r ?= Npos b)%N with
    | Lt => true
    | Eq => N.even lo
    | Gt => false
    end in
  match fuel with
  | 0 => carry (if preferLo then lo else hi)
  | S f =>
      if okLo && okHi then carry (if preferLo then lo else hi)
      else if okLo then (lo, k, n0)
      else if okHi then carry hi
      else shortestDigits f x num den n0 (k + 1)
  end.

Fixpoint zeros (n : nat) : string :=
  match n with
  | 0 => EmptyString
  | S m => String "0"%char (zeros m)
  end.

(** The decimal numeral of [s], padded on the left to [k] digits. *)
Definition digitString (s : N) (k : nat) : string :=
  let d := nToString s in
  zeros (k - String.length d) ++ d.

(** Steps 6 to 10 of Number::toString: plain notation for
    [-6 < n <= 21], exponential notation otherwise. *)
Definition formatDigits (s : N) (k : positive) (n : Z) : string :=
  let kz := Zpos k in
  let kn := Pos.to_nat k in
  let d := digitString s kn in
  if (kz <=? n)%Z && (n <=? 21)%Z then d ++ zeros (Z.to_nat (n - kz))
  else if (0 <? n)%Z && (n <=? 21)%Z then
    String.substring 0 (Z.to_nat n) d ++ "." ++
    String.substring (Z.to_nat n) (kn - Z.to_nat n) d
  else if (-6 <? n)%Z && (n <=? 0)%Z then "0." ++ zeros (Z.to_nat (- n)) ++ d
  else
    let e := (n - 1)%Z in
    let es := (if (e <? 0)%Z then "-" else "+") ++ natToString (Z.abs_nat e) in
    if (kn =? 1) then d ++ "e" ++ es
    else String.substring 0 1 d ++ "." ++ String.substring 1 (kn - 1) d ++ "e" ++ es.

Definition numberToString (x : number) : string :=
  match x with
  | S754_nan => "NaN"
  | S754_zero _ => "0"
  | S754_infinity sg => if sg then "-Infinity" else "Infinity"
  | S754_finite sg m e =>
      let '(num, den) :=
        match e with
        | Z0 => (m, 1%positive)
        | Zpos q => ((m * Pos.pow 2 q)%positive, 1%positive)
        | Zneg q => (m, Pos.pow 2 q)
        end in
      let n0 := decimalExponent num den in
      let '(s, k, n) := shortestDigits 17 (S754_finite false m e) num den n0 1 in
      (if sg then "-" else "") ++ formatDigits s k n
  end.

(** ** Values *)

(** The values form data is made of.  An array has no holes; an object is
    the list of its own properties in enumeration order. *)
#[warnings="-register-all"]
Inductive JsVal : Type :=
| JUndefined
| JNull
| JBool (b : bool)
| JNum (x : number)
| JStr (s : string)
| JArr (elems : list JsVal)
| JObj (props : list (string * JsVal)).

(** [v == null]. *)
Definition isNullish (v : JsVal) : bool :=
  match v with JUndefined | JNull => true | _ => false end.

(** ToBoolean. *)
Definition truthy (v : JsVal) : bool :=
  match v with
  | JUndefined | JNull => false
  | JBool b => b
  | JNum x => negb (isZero x || isNaN x)
  | JStr s => negb (isEmpty s)
  | JArr _ | JObj _ => true
  end.

(** [a || b] and [a ?? b]. *)
Definition orElse (a b : JsVal) : JsVal := if truthy a then a else b.
Definition coalesce (a b : JsVal) : JsVal := if isNullish a then b else a.

(** [String(v)] and the conversion a template literal applies.  An array
    prints its elements separated by commas, [null] and [undefined]
    elements as nothing. *)
Fixpoint toString (v : JsVal) : string :=
  match v with
  | JUndefined => "undefined"
  | JNull => "null"
  | JBool b => if b then "true" else "false"
  | JNum x => numberToString x
  | JStr s => s
  | JArr l => join "," (map (fun e => if isNullish e then "" else toString e) l)
  | JObj _ => "[object Object]"
  end.

(** ** Own properties *)

Fixpoint lookup (k : string) (props : list (string * JsVal)) : option JsVal :=
  match props with
  | [] => None
  | (k', v) :: r => if String.eqb k' k then Some v else lookup k r
  end.

(** The keys of an array or a string of length [n]: the canonical numeric
    strings of the indices below [n]. *)
Definition indexKeys (n : nat) : list string := map natToString (seq 0 n).

Definition indexOfKey (n : nat) (k : string) : option nat :=
  find (fun i => String.eqb (natToString i) k) (seq 0 n).

(** [Object.keys(v)] for a value that is neither [null] nor [undefined]. *)
Definition keys (v : JsVal) : list string :=
  match v with
  | JObj props => map fst props
  | JArr l => indexKeys (List.length l)
  | JStr s => indexKeys (String.length s)
  | _ => []
  end.

(** The own property [k] of [v], if there is one: also the [length] of an
    array or a string, which [Object.keys] does not enumerate. *)
Definition getOwn (v : JsVal) (k : string) : option JsVal :=
  match v with
  | JObj props => lookup k props
  | JArr l =>
      if String.eqb k "length" then Some (JNum (ofNat (List.length l)))
      else match indexOfKey (List.length l) k with
           | Some i => nth_error l i
           | None => None
           end
  | JStr s =>
      if String.eqb k "length" then Some (JNum (ofNat (String.length s)))
      else match indexOfKey (String.length s) k with
           | Some i => Some (JStr (String.substring i 1 s))
           | None => None
           end
  | _ => None
  end.

(** [v[k]] for a value that is neither [null] nor [undefined]. *)
Definition get (v : JsVal) (k : string) : JsVal :=
  match getOwn v k with
  | Some x => x
  | None => JUndefined
  end.

(** [v.k]: reading a property of [null] or [undefined] throws. *)
Definition getMember (v : JsVal) (k : string) : Result JsVal :=
  if isNullish v then Throw TypeError else Ok (get v k).

(** [v.hasOwnProperty(k)]: the method call throws on [null] and
    [undefined]; an [undefined] argument is the key ["undefined"]. *)
Definition propertyKey (k : option string) : string :=
  match k with Some s => s | None => "undefined" end.

Definition hasOwnProperty (v : JsVal) (k : option string) : Result bool :=
  if isNullish v then Throw TypeError
  else Ok (match getOwn v (propertyKey k) with Some _ => true | None => false end).

(** [h.toLowerCase()] where [h] may be [undefined]: the call throws then. *)
Definition toLowerCaseOf (h : option string) : Result string :=
  match h with
  | Some s => Ok (toLowerCase s)
  | None => Throw TypeError
  end.

(** [a.slice(i, j)] for [0 <= i <= j]. *)
Definition slice {A : Type} (i j : nat) (l : list A) : list A :=
  firstn (j - i) (skipn i l).

(** One level of flattening, as [flatMap] applies to what its callback
    returns. *)
Definition flatten1 (v : JsVal) : list JsVal :=
  match v with JArr l => l | _ => [v] end.

End Js.

Import Js.

Local Open Scope string_scope.
Local Open Scope bool_scope.
Local Open Scope nat_scope.

Notation "x <- c ;; k" := (bind c (fun x => k))
  (at level 61, c at next level, right associativity).

(* ===================================================================== *)
(** * Types ([src/types.ts] and the [ResolvedSlide] interface) *)
(* ===================================================================== *)

Inductive FieldType : Type :=
| TEXT | TEXTAREA | NUMBER | DATE | TABLE | BULLET | SIGNATURE | PHOTOS.

Definition FieldType_eqb (a b : FieldType) : bool :=
  match a, b with
  | TEXT, TEXT | TEXTAREA, TEXTAREA | NUMBER, NUMBER | DATE, DATE
  | TABLE, TABLE | BULLET, BULLET | SIGNATURE, SIGNATURE | PHOTOS, PHOTOS => true
  | _, _ => false
  end.

(** [FormField]: the members the resolver reads.  [columns] is optional. *)
Record FormField : Type := {
  field_id : string;
  field_label : string;
  field_type : FieldType;
  field_columns : option (list string)
}.

Record FormSection : Type := {
  section_id : string;
  section_title : string;
  section_fields : list FormField
}.

Record ReportTemplate : Type := {
  template_key : string;
  template_name : string;
  template_title : string;
  template_sections : list FormSection
}.

(** [SlideLayoutType]. *)
Inductive SlideLayoutType : Type :=
| Layout_title | Layout_sectionHeader | Layout_twoColumn
| Layout_imageLeftTextRight | Layout_summary | Layout_photoGrid
| Layout_chartFull.

Inductive ChartType : Type := pie | bar | line.

Definition chartTypeName (c : ChartType) : string :=
  match c with pie => "pie" | bar => "bar" | line => "line" end.

Record Kpi : Type := { kpi_value : number; kpi_label : string }.

(** The [data] payload of a slide, one shape per object literal of the
    source. *)
Inductive SlideData : Type :=
| TitleData (subtitle author : JsVal)
| TableData (headers : list string) (rows : list (list string))
| ListData (list_items : list JsVal) (image : JsVal)
| ImagesData (images : list JsVal)
| ChartData (chartType : ChartType) (labels : list string) (values : list number)
| KpisData (kpis : list Kpi).

Record SuggestedChart : Type := {
  suggested_chartType : ChartType;
  suggested_dataPath : string
}.

Record OriginalLayout : Type := {
  generativeIconPrompt : option string;
  suggestedChart : option SuggestedChart
}.

Record ResolvedSlide : Type := {
  slide_id : string;
  slide_title : string;
  slide_layout : SlideLayoutType;
  slide_data : SlideData;
  slide_originalLayout : OriginalLayout
}.

(** [a || b] on strings: the empty string is the only falsy one. *)
Definition orString (a b : string) : string := if isEmpty a then b else a.

(* ===================================================================== *)
(** * The resolver ([class SlidePlanResolver]) *)
(* ===================================================================== *)

(** ** [normalizeNumber] (lines 35-50) *)

(** [/^\(.*\)$/.test(str)], by backtracking: after the opening parenthesis,
    [.*] takes characters other than line terminators until what is left
    is exactly the closing parenthesis. *)
Fixpoint dotStarThenClose (s : string) : bool :=
  match s with
  | EmptyString => false
  | String c r =>
      ((code c =? 41) && isEmpty r)
      || (negb (isLineTerminator c) && dotStarThenClose r)
  end.

Definition wrappedInParens (str : string) : bool :=
  match str with
  | String c r => (code c =? 40) && dotStarThenClose r
  | EmptyString => false
  end.

(** [str.replace(/[$,\s]/g, '')]. *)
Definition stripCurrency (str : string) : string :=
  filterChars (fun c => negb ((code c =? 36) || (code c =? 44) || isWhiteSpace c)) str.

(** [str.replace(/[()]/g, '')]. *)
Definition stripParens (str : string) : string :=
  filterChars (fun c => negb ((code c =? 40) || (code c =? 41))) str.

Definition normalizeNumber (value : JsVal) : number :=
  if isNullish value then NaN
  else
    let str := trim (toString value) in
    let isNegative := wrappedInParens str in
    let cleaned := stripParens (stripCurrency str) in
    let num := parseFloat cleaned in
    if isNegative then neg (abs num) else num.

(** ** The column accessors *)

(** [if (matchingKey)]: the result of [find] is used when it is a key and
    not the empty string. *)
Definition truthyKey (k : option string) : option string :=
  match k with
  | Some s => if isEmpty s then None else Some s
  | None => None
  end.

(** [Object.keys(row).filter(k => k !== 'tooltips' && k !== 'photos')]. *)
Definition dataKeysOf (row : JsVal) : list string :=
  filter (fun k => negb (String.eqb k "tooltips") && negb (String.eqb k "photos"))
         (keys row).

(** The closure [getColumnValue] of [createChartFromTable] (lines 262-269)
    and of [createSummarySlide] (lines 348-355): the two are the same text.
    [header] is [None] when the caller passes [headers[i]] for an index
    outside the array. *)
Definition getColumnValue (row : JsVal) (header : option string) (headerIndex : nat)
  : Result JsVal :=
  own <- hasOwnProperty row header ;;
  if own then Ok (get row (propertyKey header))
  else
    lowerHeader <- toLowerCaseOf header ;;
    let matchingKey :=
      find (fun k => String.eqb (toLowerCase k) lowerHeader) (keys row) in
    match truthyKey matchingKey with
    | Some k => Ok (get row k)
    | None =>
        let dataKeys := dataKeysOf row in
        match nth_error dataKeys headerIndex with
        | Some dk => Ok (get row dk)
        | None => Ok JNull
        end
    end.

(** The closure [getColumnValue] of the table slide (lines 124-140): every
    tier converts with [String(... ?? '')], and the last one is ['']. *)
Definition getColumnValueText (row : JsVal) (header : option string) (headerIndex : nat)
  : Result string :=
  own <- hasOwnProperty row header ;;
  if own then Ok (toString (coalesce (get row (propertyKey header)) (JStr "")))
  else
    lowerHeader <- toLowerCaseOf header ;;
    let matchingKey :=
      find (fun k => String.eqb (toLowerCase k) lowerHeader) (keys row) in
    match truthyKey matchingKey with
    | Some k => Ok (toString (coalesce (get row k) (JStr "")))
    | None =>
        let dataKeys := dataKeysOf row in
        match nth_error dataKeys headerIndex with
        | Some dk => Ok (toString (coalesce (get row dk) (JStr "")))
        | None => Ok ""
        end
    end.

(** ** [getIconPromptForSection] (lines 404-425) *)

Definition getIconPromptForSection (section : FormSection) : string :=
  let sectionTitle := toLowerCase (section_title section) in
  if includes sectionTitle "financial" || includes sectionTitle "treasury"
     || includes sectionTitle "receipt" || includes sectionTitle "disbursement"
  then "A clean, modern icon representing financial data and monetary transactions"
  else if includes sectionTitle "membership" || includes sectionTitle "attendance"
  then "A simple icon representing people and community engagement"
  else if includes sectionTitle "program" || includes sectionTitle "activities"
          || includes sectionTitle "ministries"
  then "An icon representing programs, activities, and ministry work"
  else if includes sectionTitle "youth" || includes sectionTitle "children"
  then "A friendly icon representing youth and children programs"
  else if includes sectionTitle "outreach" || includes sectionTitle "mission"
  then "An icon representing community outreach and mission work"
  else "A professional icon representing church ministry and administration".

(** ** Photo pagination (lines 167-181 and 210-224) *)

(** [Math.ceil(n / 4)] and [Math.floor(i / 4)] on array lengths and
    indices, which are exact in binary64. *)
Definition ceilDiv4 (n : nat) : nat := (n + 3) / 4.
Definition floorDiv4 (i : nat) : nat := i / 4.

(** [totalPages > 1 ? ` (${pageNum}/${totalPages})` : ''] *)
Definition pageIndicator (pageNum totalPages : nat) : string :=
  if 1 <? totalPages
  then " (" ++ natToString pageNum ++ "/" ++ natToString totalPages ++ ")"
  else "".

(** The loop [for (let i = 0; i < photos.length; i += 4)], started at [i]
    with the slides pushed so far.  [mkSlide] builds the object literal of
    the loop body from the page, its number and the number of pages.
    [fuel] bounds the number of iterations. *)
Fixpoint photoLoop (fuel : nat)
  (mkSlide : list JsVal -> nat -> nat -> ResolvedSlide)
  (photos : list JsVal) (i : nat) (slides : list ResolvedSlide)
  : list ResolvedSlide :=
  match fuel with
  | 0 => slides
  | S fuel' =>
      if i <? List.length photos then
        let pagePhotos := slice i (i + 4) photos in
        let pageNum := floorDiv4 i + 1 in
        let totalPages := ceilDiv4 (List.length photos) in
        photoLoop fuel' mkSlide photos (i + 4)
                  (slides ++ [mkSlide pagePhotos pageNum totalPages])%list
      else slides
  end.

(** The loop from [i = 0]; it leaves after at most [photos.length]
    iterations, since [i] grows by four each time. *)
Definition paginate (mkSlide : list JsVal -> nat -> nat -> ResolvedSlide)
  (photos : list JsVal) (slides : list ResolvedSlide) : list ResolvedSlide :=
  photoLoop (List.length photos) mkSlide photos 0 slides.

Section SlidePlanResolver.

(** The private fields set by the constructor.  [formData] is declared
    [any]; the caller hands over the form state, an object indexed by
    section id, and it is an object here. *)
Variable template : ReportTemplate.
Variable formData : list (string * JsVal).

(** ** [createTitleSlide] (lines 85-102) *)

Definition createTitleSlide : option ResolvedSlide :=
  let headerData := orElse (get (JObj formData) "header") (JObj []) in
  let quarter :=
    orElse (orElse (get headerData "quarter") (get headerData "reportingQuarter"))
           (JStr "") in
  let preparedBy :=
    orElse (orElse (get headerData "preparedBy") (get headerData "reportingLeader"))
           (JStr "") in
  Some {| slide_id := "title-" ++ template_key template;
          slide_title := template_title template;
          slide_layout := Layout_title;
          slide_data := TitleData quarter preparedBy;
          slide_originalLayout :=
            {| generativeIconPrompt := None; suggestedChart := None |} |}.

(** ** [createChartFromTable] (lines 256-329) *)

(** [val != null && !isNaN(this.normalizeNumber(val))] *)
Definition isNumericCell (val : JsVal) : bool :=
  negb (isNullish val) && negb (isNaN (normalizeNumber val)).

(** The loop [for (let i = 1; i < headers.length; i++)] that looks for the
    value column: [rest] is [headers] from index [i] on. *)
Fixpoint findValueColumn (tableData : list JsVal) (rest : list string) (i : nat)
  : Result (option nat) :=
  match rest with
  | [] => Ok None
  | h :: rest' =>
      hasNumeric <-
        someM (fun row => val <- getColumnValue row (Some h) i ;;
                          Ok (isNumericCell val)) tableData ;;
      if hasNumeric then Ok (Some i) else findValueColumn tableData rest' (S i)
  end.

Record ChartItem : Type := { item_label : string; item_value : number }.

(** The predicate of [.filter(item => ...)] on the chart items. *)
Definition keepChartItem (item : ChartItem) : bool :=
  let label := toLowerCase (item_label item) in
  negb (isEmpty (item_label item))
  && negb (isNaN (item_value item))
  && negb (String.eqb label "total")
  && negb (String.eqb label "net surplus / (deficit)")
  && negb (String.eqb label "grand total").

(** [tableData.map(row => ({label, value})).filter(...)] *)
Definition chartItems (headers : list string) (tableData : list JsVal)
  (labelColIndex valueColIndex : nat) : Result (list ChartItem) :=
  items <-
    mapM (fun row =>
            l <- getColumnValue row (nth_error headers labelColIndex) labelColIndex ;;
            v <- getColumnValue row (nth_error headers valueColIndex) valueColIndex ;;
            Ok {| item_label := toString (coalesce l (JStr ""));
                  item_value := normalizeNumber v |}) tableData ;;
  Ok (filter keepChartItem items).

Definition chartTypeFor (values : list number) : ChartType :=
  if 5 <? List.length values then bar else pie.

Definition chartSlide (field : FormField) (section : FormSection) (fieldIndex : nat)
  (chartData : list ChartItem) : ResolvedSlide :=
  let labels := map item_label chartData in
  let values := map item_value chartData in
  let chartType := chartTypeFor values in
  {| slide_id := section_id section ++ "-chart-" ++ natToString fieldIndex;
     slide_title := orString (field_label field) (section_title section) ++ " - Chart";
     slide_layout := Layout_chartFull;
     slide_data := ChartData chartType labels values;
     slide_originalLayout :=
       {| generativeIconPrompt :=
            Some ("A " ++ chartTypeName chartType
                  ++ " chart icon representing data visualization");
          suggestedChart :=
            Some {| suggested_chartType := chartType;
                    suggested_dataPath :=
                      "$." ++ section_id section ++ "." ++ field_id field |} |} |}.

Definition createChartFromTable (field : FormField) (tableData : list JsVal)
  (section : FormSection) (fieldIndex : nat) : Result (option ResolvedSlide) :=
  match field_columns field with
  | None => Ok None
  | Some headers =>
      if List.length headers <? 2 then Ok None
      else
        let labelColIndex := 0 in
        valueCol <- findValueColumn tableData (skipn 1 headers) 1 ;;
        match valueCol with
        | None => Ok None
        | Some valueColIndex =>
            chartData <- chartItems headers tableData labelColIndex valueColIndex ;;
            if (List.length chartData =? 0)
               || forallb (fun item => isZero (item_value item)) chartData
            then Ok None
            else Ok (Some (chartSlide field section fieldIndex chartData))
        end
  end.

(** ** [createSlidesForSection] (lines 104-254) *)

Definition hasType (t : FieldType) (f : FormField) : bool :=
  FieldType_eqb (field_type f) t.

(** [[TEXT, TEXTAREA, NUMBER, DATE].includes(f.type)] *)
Definition isTextField (f : FormField) : bool :=
  existsb (FieldType_eqb (field_type f)) [TEXT; TEXTAREA; NUMBER; DATE].

(** [field.columns || []] *)
Definition headersOf (field : FormField) : list string :=
  match field_columns field with
  | Some columns => columns
  | None => []
  end.

Definition tableSlide (section : FormSection) (field : FormField) (fieldIndex : nat)
  (headers : list string) (rows : list (list string)) : ResolvedSlide :=
  {| slide_id := section_id section ++ "-table-" ++ natToString fieldIndex;
     slide_title := orString (field_label field) (section_title section);
     slide_layout := Layout_twoColumn;
     slide_data := TableData headers rows;
     slide_originalLayout :=
       {| generativeIconPrompt := Some (getIconPromptForSection section);
          suggestedChart := None |} |}.

Definition tablePhotoSlide (section : FormSection) (field : FormField)
  (fieldIndex : nat) (pagePhotos : list JsVal) (pageNum totalPages : nat)
  : ResolvedSlide :=
  {| slide_id := section_id section ++ "-table-photos-" ++ natToString fieldIndex
                 ++ "-page" ++ natToString pageNum;
     slide_title := orString (field_label field) (section_title section)
                    ++ " - Photos" ++ pageIndicator pageNum totalPages;
     slide_layout := Layout_photoGrid;
     slide_data := ImagesData pagePhotos;
     slide_originalLayout :=
       {| generativeIconPrompt := None; suggestedChart := None |} |}.

(** [tableData.flatMap(row => row.photos || []).filter(Boolean)] *)
Definition tablePhotosOf (tableData : list JsVal) : Result (list JsVal) :=
  perRow <- mapM (fun row => p <- getMember row "photos" ;;
                             Ok (flatten1 (orElse p (JArr [])))) tableData ;;
  Ok (filter truthy (List.concat perRow)).

(** The callback of [tables.forEach]. *)
Definition tableFieldSlides (section : FormSection) (sectionData : JsVal)
  (slides : list ResolvedSlide) (field : FormField) (fieldIndex : nat)
  : Result (list ResolvedSlide) :=
  match get sectionData (field_id field) with
  | JArr [] => Ok slides
  | JArr tableData =>
      let headers := headersOf field in
      rows <- mapM (fun row =>
                      mapiM (fun header idx => getColumnValueText row (Some header) idx)
                            0 headers) tableData ;;
      let slides1 := (slides ++ [tableSlide section field fieldIndex headers rows])%list in
      chart <- createChartFromTable field tableData section fieldIndex ;;
      let slides2 :=
        match chart with
        | Some c => (slides1 ++ [c])%list
        | None => slides1
        end in
      tablePhotos <- tablePhotosOf tableData ;;
      if 0 <? List.length tablePhotos
      then Ok (paginate (tablePhotoSlide section field fieldIndex) tablePhotos slides2)
      else Ok slides2
  | _ => Ok slides
  end.

(** The callback of [bullets.forEach]. *)
Definition bulletFieldSlides (section : FormSection) (sectionData : JsVal)
  (slides : list ResolvedSlide) (field : FormField) (fieldIndex : nat)
  : Result (list ResolvedSlide) :=
  match get sectionData (field_id field) with
  | JArr bulletData =>
      if List.length (filter truthy bulletData) =? 0 then Ok slides
      else Ok (slides ++
               [{| slide_id := section_id section ++ "-bullet-" ++ natToString fieldIndex;
                   slide_title := orString (field_label field) (section_title section);
                   slide_layout := Layout_imageLeftTextRight;
                   slide_data := ListData (filter truthy bulletData) JNull;
                   slide_originalLayout :=
                     {| generativeIconPrompt := Some (getIconPromptForSection section);
                        suggestedChart := None |} |}])%list
  | _ => Ok slides
  end.

Definition photoSlide (section : FormSection) (field : FormField)
  (fieldIndex : nat) (pagePhotos : list JsVal) (pageNum totalPages : nat)
  : ResolvedSlide :=
  {| slide_id := section_id section ++ "-photos-" ++ natToString fieldIndex
                 ++ "-page" ++ natToString pageNum;
     slide_title := orString (field_label field) (section_title section)
                    ++ pageIndicator pageNum totalPages;
     slide_layout := Layout_photoGrid;
     slide_data := ImagesData pagePhotos;
     slide_originalLayout :=
       {| generativeIconPrompt := None; suggestedChart := None |} |}.

(** The callback of [photos.forEach]. *)
Definition photoFieldSlides (section : FormSection) (sectionData : JsVal)
  (slides : list ResolvedSlide) (field : FormField) (fieldIndex : nat)
  : Result (list ResolvedSlide) :=
  match get sectionData (field_id field) with
  | JArr [] => Ok slides
  | JArr photoData => Ok (paginate (photoSlide section field fieldIndex) photoData slides)
  | _ => Ok slides
  end.

(** [textFields.map(f => ...).filter(Boolean)] *)
Definition textListOf (sectionData : JsVal) (textFields : list FormField) : list JsVal :=
  filter truthy
    (map (fun f =>
            let value := get sectionData (field_id f) in
            if negb (truthy value) then JNull
            else JStr (field_label f ++ ": " ++ toString value)) textFields).

Definition textSummarySlides (section : FormSection) (sectionData : JsVal)
  (textFields : list FormField) (slides : list ResolvedSlide) : list ResolvedSlide :=
  if 0 <? List.length textFields then
    let textList := textListOf sectionData textFields in
    if 0 <? List.length textList then
      (slides ++
       [{| slide_id := section_id section ++ "-text-summary";
           slide_title := section_title section;
           slide_layout := Layout_imageLeftTextRight;
           slide_data := ListData textList JNull;
           slide_originalLayout :=
             {| generativeIconPrompt := Some (getIconPromptForSection section);
                suggestedChart := None |} |}])%list
    else slides
  else slides.

Definition createSlidesForSection (section : FormSection) (sectionIndex : nat)
  : Result (list ResolvedSlide) :=
  let sectionData := orElse (get (JObj formData) (section_id section)) (JObj []) in
  let tables := filter (hasType TABLE) (section_fields section) in
  let bullets := filter (hasType BULLET) (section_fields section) in
  let photos := filter (hasType PHOTOS) (section_fields section) in
  let textFields := filter isTextField (section_fields section) in
  slides1 <- forEachM (tableFieldSlides section sectionData) 0 tables [] ;;
  slides2 <- forEachM (bulletFieldSlides section sectionData) 0 bullets slides1 ;;
  slides3 <- forEachM (photoFieldSlides section sectionData) 0 photos slides2 ;;
  Ok (textSummarySlides section sectionData textFields slides3).

(** ** [createSummarySlide] (lines 331-396) *)

(** The predicate of [tableData.find(row => ...)]. *)
Definition isTotalRow (headers : list string) (row : JsVal) : Result bool :=
  v <- getColumnValue row (nth_error headers 0) 0 ;;
  let labelValue := toLowerCase (toString (coalesce v (JStr ""))) in
  Ok (includes labelValue "total" || includes labelValue "surplus"
      || includes labelValue "deficit").

(** The loop [for (let i = 1; i < headers.length; i++)] over the total
    row, which pushes one KPI and breaks: [rest] is [headers] from index
    [i] on. *)
Fixpoint firstNumericKpi (field : FormField) (totalRow : JsVal)
  (rest : list string) (i : nat) (kpis : list Kpi) : Result (list Kpi) :=
  match rest with
  | [] => Ok kpis
  | h :: rest' =>
      value <- getColumnValue totalRow (Some h) i ;;
      let numValue := normalizeNumber value in
      if negb (isNaN numValue)
      then Ok (kpis ++ [{| kpi_value := numValue;
                           kpi_label := orString (field_label field) h |}])%list
      else firstNumericKpi field totalRow rest' (S i) kpis
  end.

(** The callback of [section.fields.forEach]. *)
Definition summaryFieldKpis (sectionData : JsVal) (kpis : list Kpi)
  (field : FormField) (fieldIndex : nat) : Result (list Kpi) :=
  match field_type field, field_columns field with
  | TABLE, Some headers =>
      match get sectionData (field_id field) with
      | JArr tableData =>
          totalRow <- findM (isTotalRow headers) tableData ;;
          match totalRow with
          | Some row =>
              if truthy row
              then firstNumericKpi field row (skipn 1 headers) 1 kpis
              else Ok kpis
          | None => Ok kpis
          end
      | _ => Ok kpis
      end
  | _, _ => Ok kpis
  end.

Definition isReserved (section : FormSection) : bool :=
  String.eqb (section_id section) "header"
  || String.eqb (section_id section) "signatures".

(** The callback of [this.template.sections.forEach]. *)
Definition summarySectionKpis (kpis : list Kpi) (section : FormSection)
  (sectionIndex : nat) : Result (list Kpi) :=
  if isReserved section then Ok kpis
  else
    let sectionData := orElse (get (JObj formData) (section_id section)) (JObj []) in
    forEachM (summaryFieldKpis sectionData) 0 (section_fields section) kpis.

(** The array [kpis] when both loops are done. *)
Definition collectKpis : Result (list Kpi) :=
  forEachM summarySectionKpis 0 (template_sections template) [].

Definition summarySlide (kpis : list Kpi) : ResolvedSlide :=
  {| slide_id := "summary-" ++ template_key template;
     slide_title := "Executive Summary";
     slide_layout := Layout_summary;
     slide_data := KpisData (slice 0 4 kpis);
     slide_originalLayout :=
       {| generativeIconPrompt :=
            Some "A minimalist icon representing key performance metrics and summary statistics";
          suggestedChart := None |} |}.

Definition createSummarySlide : Result (option ResolvedSlide) :=
  kpis <- collectKpis ;;
  if (2 <=? List.length kpis) && (List.length kpis <=? 4)
  then Ok (Some (summarySlide kpis))
  else Ok None.

(** ** [createPhotoGridSlide] (lines 398-402) *)

Definition createPhotoGridSlide : option ResolvedSlide := None.

(** ** [resolve] (lines 55-83) *)

(** [if (s) slides.push(s)] *)
Definition pushIf (slides : list ResolvedSlide) (s : option ResolvedSlide)
  : list ResolvedSlide :=
  match s with
  | Some x => (slides ++ [x])%list
  | None => slides
  end.

(** The callback of [this.template.sections.forEach]. *)
Definition resolveSection (slides : list ResolvedSlide) (section : FormSection)
  (sectionIndex : nat) : Result (list ResolvedSlide) :=
  if String.eqb (section_id section) "header" then Ok slides
  else if String.eqb (section_id section) "signatures" then Ok slides
  else
    sectionSlides <- createSlidesForSection section sectionIndex ;;
    Ok (slides ++ sectionSlides)%list.

Definition resolve : Result (list ResolvedSlide) :=
  let slides0 := pushIf [] createTitleSlide in
  slides1 <- forEachM resolveSection 0 (template_sections template) slides0 ;;
  summary <- createSummarySlide ;;
  let slides2 := pushIf slides1 summary in
  let slides3 := pushIf slides2 createPhotoGridSlide in
  Ok slides3.

End SlidePlanResolver.

(** ** [getResolvedSlides] (lines 431-434) *)


(* ===================================================================== *)
(** * The colour sanitizer of the export ([src/components/PreviewModal.tsx]) *)
(* ===================================================================== *)

(** ** The run-time fragment it relies on *)

(** The upper-case letter of a Latin-1 letter that has one below U+0100;
    [toUpperCase] is applied here to hexadecimal digits only. *)
Definition upperChar (c : ascii) : ascii :=
  let n := code c in
  if ((97 <=? n) && (n <=? 122))
     || ((224 <=? n) && (n <=? 254) && negb (n =? 247))
  then ascii_of_nat (n - 32) else c.

(** [String.prototype.toUpperCase]. *)
Fixpoint toUpperCase (s : string) : string :=
  match s with
  | EmptyString => EmptyString
  | String c r => String (upperChar c) (toUpperCase r)
  end.

Fixpoint allChars (p : ascii -> bool) (s : string) : bool :=
  match s with
  | EmptyString => true
  | String c r => p c && allChars p r
  end.

(** The class [[0-9A-Fa-f]]. *)
Definition isHexDigit (c : ascii) : bool :=
  let n := code c in
  ((48 <=? n) && (n <=? 57)) || ((65 <=? n) && (n <=? 70))
  || ((97 <=? n) && (n <=? 102)).

(** [/^[0-9A-Fa-f]{n}$/.test(s)] *)
Definition isHex (n : nat) (s : string) : bool :=
  (String.length s =? n) && allChars isHexDigit s.

(** [s.substring(1)] *)
Definition substring1 (s : string) : string :=
  match s with
  | EmptyString => EmptyString
  | String _ r => r
  end.

(** [s[i]] for an index inside the string. *)
Definition charAt (i : nat) (s : string) : string := String.substring i 1 s.

(** [s.match(/\d+/g)]: the maximal runs of decimal digits, from left to
    right; [cur] is the run being read.  No run is the result [null]. *)
Fixpoint digitRunsFrom (s : string) (cur : string) : list string :=
  match s with
  | EmptyString => if isEmpty cur then [] else [cur]
  | String c r =>
      if isDigit c then digitRunsFrom r (cur ++ String c EmptyString)
      else ((if isEmpty cur then [] else [cur]) ++ digitRunsFrom r EmptyString)%list
  end.

Definition digitRuns (s : string) : list string := digitRunsFrom s EmptyString.

(** [Math.min(255, Math.max(0, parseInt(run)))] for a run of decimal
    digits.  [parseInt] yields the binary64 number nearest to the integer
    the run denotes; that rounding is monotone and leaves the integers up
    to 255 unchanged, so the clamped value is the one of the integer. *)
Definition clampChannel (run : string) : N :=
  N.min 255 (N.max 0 (digitsValue run 0)).

Definition hexChar (d : N) : ascii :=
  if (d <? 10)%N then ascii_of_N (48 + d) else ascii_of_N (87 + d).

(** [n.toString(16)] for a non-negative integer. *)
Fixpoint hexDigitsOfN (fuel : nat) (n : N) (acc : string) : string :=
  let acc' := String (hexChar (n mod 16)) acc in
  match fuel with
  | 0 => acc'
  | S f => if (n / 16 =? 0)%N then acc' else hexDigitsOfN f (n / 16)%N acc'
  end.

Definition toString16 (n : N) : string := hexDigitsOfN (N.size_nat n) n EmptyString.

(** [s.padStart(n, '0')] *)
Definition padStart0 (n : nat) (s : string) : string :=
  zeros (n - String.length s) ++ s.

(** ** [sanitizeColor] (lines 235-296) *)

(** The own properties of the object literal [colorNames]. *)
Definition colorNames : list (string * string) :=
  [("black", "000000"); ("white", "FFFFFF"); ("red", "FF0000");
   ("green", "008000"); ("blue", "0000FF"); ("yellow", "FFFF00");
   ("orange", "FFA500"); ("purple", "800080"); ("gray", "808080");
   ("grey", "808080")].

Fixpoint lookupName (k : string) (table : list (string * string)) : option string :=
  match table with
  | [] => None
  | (k', v) :: r => if String.eqb k' k then Some v else lookupName k r
  end.

(** The lower-case keys under which an object literal inherits a truthy
    member from [Object.prototype]. *)
Definition inheritedKey (k : string) : bool :=
  String.eqb k "constructor" || String.eqb k "__proto__".

(** What [sanitizeColor] returns: a text, or, when [colorNames[lowerColor]]
    reads a member of [Object.prototype], that member. *)
Inductive Sanitized : Type :=
| ColorText (text : string)
| PrototypeMember (key : string).

(** [(r << 16) | (g << 8) | b] on three channels below 256: the result is
    below [2^24], so the 32-bit operators do not wrap. *)
Definition packRgb (r g b : N) : N :=
  N.lor (N.lor (N.shiftl r 16) (N.shiftl g 8)) b.

(** Every call passes both arguments, so the default of [fallback] is not
    used.  No operation of the body throws: the handler of the [try]
    statement is never entered. *)
Definition sanitizeColor (color : JsVal) (fallback : string) : Sanitized :=
  match color with
  | JStr color =>
      if isEmpty color || isEmpty (trim color) then ColorText fallback
      else
        let cleanColor := trim color in
        if String.prefix "#" cleanColor then
          let hexPart := substring1 cleanColor in
          if isHex 6 hexPart then ColorText (toUpperCase hexPart)
          else if isHex 3 hexPart then
            ColorText (toUpperCase (charAt 0 hexPart ++ charAt 0 hexPart
                                    ++ charAt 1 hexPart ++ charAt 1 hexPart
                                    ++ charAt 2 hexPart ++ charAt 2 hexPart))
          else ColorText fallback
        else if String.prefix "rgb" cleanColor then
          match digitRuns cleanColor with
          | r0 :: g0 :: b0 :: _ =>
              let r := clampChannel r0 in
              let g := clampChannel g0 in
              let b := clampChannel b0 in
              ColorText (toUpperCase (padStart0 6 (toString16 (packRgb r g b))))
          | _ => ColorText fallback
          end
        else if isHex 6 cleanColor then ColorText (toUpperCase cleanColor)
        else
          let lowerColor := toLowerCase cleanColor in
          match lookupName lowerColor colorNames with
          | Some code => ColorText code
          | None =>
              if inheritedKey lowerColor then PrototypeMember lowerColor
              else ColorText fallback
          end
  | _ => ColorText fallback
  end.

(** The fallbacks of the five calls of [generatePptx] (lines 351-355). *)
Definition themeFallbacks : list string :=
  ["FFFFFF"; "000000"; "000080"; "808080"; "FF6600"].

(* ===================================================================== *)
(** * Vocabulary of the properties *)
(* ===================================================================== *)

(** ** The numeric normalizer *)

(** The characters [normalizeNumber] removes before parsing: the dollar
    sign, the comma, the two parentheses and white space. *)
Definition isStripped (c : ascii) : bool :=
  (code c =? 36) || (code c =? 44) || (code c =? 40) || (code c =? 41)
  || isWhiteSpace c.

Definition cleanedOf (str : string) : string :=
  filterChars (fun c => negb (isStripped c)) str.

(** A string none of whose characters is a line terminator. *)
Fixpoint singleLine (s : string) : Prop :=
  match s with
  | EmptyString => True
  | String c r => isLineTerminator c = false /\ singleLine r
  end.

(** A string [s] is wrapped in parentheses around [inner]. *)
Definition wraps (s inner : string) : Prop :=
  s = String "("%char (inner ++ ")").

(** The finite number [x] is exactly the rational [num/den]. *)
Definition exactly (x : number) (num : Z) (den : positive) : Prop :=
  match x with
  | S754_zero _ => num = 0%Z
  | S754_finite sg m e =>
      let sm := if sg then Zneg m else Zpos m in
      match e with
      | Z0 => (sm * Zpos den = num)%Z
      | Zpos q => (sm * Zpos (Pos.pow 2 q) * Zpos den = num)%Z
      | Zneg q => (sm * Zpos den = num * Zpos (Pos.pow 2 q))%Z
      end
  | _ => False
  end.

(** The line feed, U+000A. *)
Definition LF : ascii := ascii_of_nat 10.

(** ** The column accessor *)

(** The reserved keys of a row record. *)
Definition isReservedKey (k : string) : bool :=
  String.eqb k "tooltips" || String.eqb k "photos".

(** [k] is the first element of [ks] that is [h] up to case. *)
Definition firstCaseFold (ks : list string) (h k : string) : Prop :=
  exists pre post,
    ks = (pre ++ k :: post)%list
    /\ toLowerCase k = toLowerCase h
    /\ forall k', In k' pre -> toLowerCase k' <> toLowerCase h.

(** No element of [ks] is [h] up to case. *)
Definition noCaseFold (ks : list string) (h : string) : Prop :=
  forall k, In k ks -> toLowerCase k <> toLowerCase h.

(** The rows of the two examples of the column accessor. *)
Definition rowAmount : JsVal := JObj [("Amount", JNum (ofNat 10))].
Definition rowCols : JsVal := JObj [("col1", JStr "X"); ("col2", JNum (ofNat 5))].

(** ** The shape of the deck *)

(** The data of a section: the stored value when it is truthy, an empty
    record otherwise. *)
Definition sectionDataOf (formData : list (string * JsVal)) (section : FormSection)
  : JsVal :=
  orElse (get (JObj formData) (section_id section)) (JObj []).

(** The data of the [header] section: the stored value when it is truthy,
    an empty record otherwise. *)
Definition headerDataOf (formData : list (string * JsVal)) : JsVal :=
  match lookup "header" formData with
  | Some v => if truthy v then v else JObj []
  | None => JObj []
  end.

(** The first truthy value of a list of candidates, and the empty text
    when there is none. *)
Fixpoint firstTruthy (candidates : list JsVal) : JsVal :=
  match candidates with
  | [] => JStr ""
  | v :: r => if truthy v then v else firstTruthy r
  end.

(** What a section contributes to the deck: nothing when its id is
    [header] or [signatures], its own slides otherwise. *)
Definition sectionContribution (formData : list (string * JsVal))
  (section : FormSection) (sectionIndex : nat)
  : Result (list ResolvedSlide) :=
  if isReserved section then Ok []
  else createSlidesForSection formData section sectionIndex.

Definition optionToList {A : Type} (o : option A) : list A :=
  match o with Some x => [x] | None => [] end.

Definition isSummary (s : ResolvedSlide) : bool :=
  match slide_layout s with Layout_summary => true | _ => false end.

(** No slide of the list has the summary layout. *)
Definition noSummary (slides : list ResolvedSlide) : Prop :=
  Forall (fun s => isSummary s = false) slides.

(** ** Photo pagination *)

(** The page of index [j] (counted from 0) of a photo sequence: the
    images [4j+1] to [min (4j+4) n], numbered [j+1] of [ceil (n/4)]. *)
Definition pageAt (mkSlide : list JsVal -> nat -> nat -> ResolvedSlide)
  (photos : list JsVal) (j : nat) : ResolvedSlide :=
  mkSlide (firstn 4 (skipn (4 * j) photos)) (j + 1) (ceilDiv4 (List.length photos)).

Definition pagesOf (mkSlide : list JsVal -> nat -> nat -> ResolvedSlide)
  (photos : list JsVal) : list ResolvedSlide :=
  map (pageAt mkSlide photos) (seq 0 (ceilDiv4 (List.length photos))).

Definition imagesOf (s : ResolvedSlide) : list JsVal :=
  match slide_data s with
  | ImagesData images => images
  | _ => []
  end.

(** What the photo-collection field of index [fieldIndex] contributes:
    its pages when it stores a non-empty list, nothing otherwise. *)
Definition photoFieldPages (section : FormSection) (sectionData : JsVal)
  (field : FormField) (fieldIndex : nat) : list ResolvedSlide :=
  match get sectionData (field_id field) with
  | JArr [] => []
  | JArr photoData => pagesOf (photoSlide section field fieldIndex) photoData
  | _ => []
  end.

(** The contributions of the photo-collection fields, in declared order,
    the first of them having index [fieldIndex]. *)
Fixpoint photoFieldsPages (section : FormSection) (sectionData : JsVal)
  (fieldIndex : nat) (fields : list FormField) : list ResolvedSlide :=
  match fields with
  | [] => []
  | f :: r =>
      (photoFieldPages section sectionData f fieldIndex
       ++ photoFieldsPages section sectionData (S fieldIndex) r)%list
  end.

(** A template with one photo-collection field, and nine stored images. *)
Definition galleryField : FormField :=
  {| field_id := "pics"; field_label := "Gallery"; field_type := PHOTOS;
     field_columns := None |}.

Definition gallerySection : FormSection :=
  {| section_id := "gallery"; section_title := "Quarter in Pictures";
     section_fields := [galleryField] |}.

Definition galleryTemplate : ReportTemplate :=
  {| template_key := "demo"; template_name := "Demo"; template_title := "Report";
     template_sections := [gallerySection] |}.

Definition ninePhotos : list JsVal :=
  map JStr ["p1"; "p2"; "p3"; "p4"; "p5"; "p6"; "p7"; "p8"; "p9"].

Definition galleryData : list (string * JsVal) :=
  [("gallery", JObj [("pics", JArr ninePhotos)])].

(** ** The summary scan *)

(** The text of the first column of [row], as the summary scan reads it. *)
Definition firstColumnText (headers : list string) (row : JsVal) (text : string) : Prop :=
  exists v,
    getColumnValue row (nth_error headers 0) 0 = Ok v
    /\ text = toString (coalesce v (JStr "")).

(** The text contains "total", "surplus" or "deficit", whatever the case. *)
Definition mentionsTotal (text : string) : bool :=
  includes (toLowerCase text) "total"
  || includes (toLowerCase text) "surplus"
  || includes (toLowerCase text) "deficit".

(** The cell of [row] under the header of index [c] normalizes to [x]. *)
Definition cellNumber (headers : list string) (row : JsVal) (c : nat) (x : number) : Prop :=
  exists h v,
    nth_error headers c = Some h
    /\ getColumnValue row (Some h) c = Ok v
    /\ x = normalizeNumber v.

(** The table fields the summary scan visits. *)
Definition scannedTables (template : ReportTemplate) : list FormField :=
  flat_map (fun section =>
              if isReserved section then []
              else filter (hasType TABLE) (section_fields section))
           (template_sections template).

(** A template whose one section holds five tables, and form data in
    which the first [n] tables each hold a single row labelled "Total". *)
Definition totalsField (id : string) : FormField :=
  {| field_id := id; field_label := id; field_type := TABLE;
     field_columns := Some ["Item"; "Amount"] |}.

Definition totalsTemplate : ReportTemplate :=
  {| template_key := "demo"; template_name := "Demo"; template_title := "Report";
     template_sections :=
       [{| section_id := "finance"; section_title := "Finance";
           section_fields := map totalsField ["t1"; "t2"; "t3"; "t4"; "t5"] |}] |}.

Definition totalRowOf (amount : string) : JsVal :=
  JObj [("Item", JStr "Total"); ("Amount", JStr amount)].

Definition totalsData (n : nat) : list (string * JsVal) :=
  [("finance",
    JObj (firstn n [("t1", JArr [totalRowOf "10"]); ("t2", JArr [totalRowOf "20"]);
                    ("t3", JArr [totalRowOf "30"]); ("t4", JArr [totalRowOf "40"]);
                    ("t5", JArr [totalRowOf "50"])]))].

(** A table with two qualifying rows and two numeric columns. *)
Definition twoTotalsField : FormField :=
  {| field_id := "t"; field_label := ""; field_type := TABLE;
     field_columns := Some ["Item"; "Budget"; "Actual"] |}.

Definition twoTotalsRows : list JsVal :=
  [JObj [("Item", JStr "Tithe"); ("Budget", JStr "5"); ("Actual", JStr "6")];
   JObj [("Item", JStr "Subtotal"); ("Budget", JStr "n/a"); ("Actual", JStr "7")];
   JObj [("Item", JStr "Grand Total"); ("Budget", JStr "8"); ("Actual", JStr "9")]].

(** ** Chart derivation *)

(** Some row of the table has a number in the column of index [c]. *)
Definition numericAt (headers : list string) (tableData : list JsVal) (c : nat) : Prop :=
  exists row x, In row tableData /\ cellNumber headers row c x /\ isNaN x = false.

(** No row of the table has a number in the column of index [c]. *)
Definition nonNumericAt (headers : list string) (tableData : list JsVal) (c : nat) : Prop :=
  forall row, In row tableData -> exists x, cellNumber headers row c x /\ isNaN x = true.

(** A (label, value) pair that is a data point of a chart: its label is
    not empty, its value is a number, and its label is not one of the
    aggregate markers, whatever the case. *)
Definition chartable (p : ChartItem) : Prop :=
  item_label p <> ""
  /\ isNaN (item_value p) = false
  /\ toLowerCase (item_label p) <> "total"
  /\ toLowerCase (item_label p) <> "net surplus / (deficit)"
  /\ toLowerCase (item_label p) <> "grand total".

(** The pair a row gives for the value column [c]. *)
Definition pairOfRow (headers : list string) (c : nat) (row : JsVal) (p : ChartItem) : Prop :=
  firstColumnText headers row (item_label p) /\ cellNumber headers row c (item_value p).

(** A table of five offerings (a pie chart) and of six (a bar chart), and
    a table whose only numeric column holds zeros (no chart). *)
Definition offeringsField : FormField :=
  {| field_id := "offerings"; field_label := "Offerings"; field_type := TABLE;
     field_columns := Some ["Item"; "Amount"] |}.

Definition offeringsSection : FormSection :=
  {| section_id := "finance"; section_title := "Finance";
     section_fields := [offeringsField] |}.

(** The template of that table alone. *)
Definition offeringsTemplate : ReportTemplate :=
  {| template_key := "demo"; template_name := "Demo"; template_title := "Report";
     template_sections := [offeringsSection] |}.

Definition offeringRow (item amount : string) : JsVal :=
  JObj [("Item", JStr item); ("Amount", JStr amount)].

Definition fiveOfferings : list JsVal :=
  [offeringRow "Tithe" "$1,000"; offeringRow "Missions" "250";
   offeringRow "Youth" "(75)"; offeringRow "Building" "0";
   offeringRow "Welfare" "12.5"; offeringRow "Total" "1,187.5"].

Definition sixOfferings : list JsVal :=
  (offeringRow "Camp" "40" :: fiveOfferings)%list.

Definition zeroOfferings : list JsVal :=
  [offeringRow "Tithe" "0"; offeringRow "Missions" "$0.00"; offeringRow "Total" "0"].

Definition chartTypesOf (slides : list ResolvedSlide) : list (option ChartType) :=
  map (fun s => match slide_data s with
                | ChartData chartType _ _ => Some chartType
                | _ => None
                end) slides.

(** ** The end-to-end scenario *)

(** The end-to-end scenario: a [header] section and a [financial] section
    with one table field.  The texts the scenario leaves open (template
    key, name and title, section titles, field id and label, the fields of
    the header section) are parameters. *)
Definition scenarioField (fieldId fieldLabel : string) : FormField :=
  {| field_id := fieldId; field_label := fieldLabel; field_type := TABLE;
     field_columns := Some ["Item"; "Amount"] |}.

Definition scenarioFinancial (finTitle fieldId fieldLabel : string) : FormSection :=
  {| section_id := "financial"; section_title := finTitle;
     section_fields := [scenarioField fieldId fieldLabel] |}.

Definition scenarioTemplate (key name title headerTitle : string)
  (headerFields : list FormField) (finTitle fieldId fieldLabel : string)
  : ReportTemplate :=
  {| template_key := key; template_name := name; template_title := title;
     template_sections :=
       [{| section_id := "header"; section_title := headerTitle;
           section_fields := headerFields |};
        scenarioFinancial finTitle fieldId fieldLabel] |}.

Definition scenarioRows : list JsVal :=
  [offeringRow "Offerings" "$1,200"; offeringRow "Total" "$1,200"].

Definition scenarioData (fieldId : string) : list (string * JsVal) :=
  [("header", JObj [("quarter", JStr "Q1 2025"); ("preparedBy", JStr "Jane Doe")]);
   ("financial", JObj [(fieldId, JArr scenarioRows)])].

Definition scenarioTitleSlide (key title : string) : ResolvedSlide :=
  {| slide_id := "title-" ++ key;
     slide_title := title;
     slide_layout := Layout_title;
     slide_data := TitleData (JStr "Q1 2025") (JStr "Jane Doe");
     slide_originalLayout :=
       {| generativeIconPrompt := None; suggestedChart := None |} |}.

(** ** Inputs that throw, inputs that do not *)

(** A structurally invalid template: a table field whose declared column
    list is empty, with one stored row. *)
Definition emptyColumnsField : FormField :=
  {| field_id := "offerings"; field_label := "Offerings"; field_type := TABLE;
     field_columns := Some [] |}.

Definition emptyColumnsSection : FormSection :=
  {| section_id := "finance"; section_title := "Finance";
     section_fields := [emptyColumnsField] |}.

Definition emptyColumnsTemplate : ReportTemplate :=
  {| template_key := "demo"; template_name := "Demo"; template_title := "Report";
     template_sections := [emptyColumnsSection] |}.

Definition oneRowData : list (string * JsVal) :=
  [("finance", JObj [("offerings", JArr [JObj [("Item", JStr "Tithe")]])])].

(** A stored table whose only row is [null]. *)
Definition nullRowData : list (string * JsVal) :=
  [("finance", JObj [("offerings", JArr [JNull])])].

(** Form data the resolver handles without error: in every section other
    than [header] and [signatures], the rows of a stored table are neither
    [null] nor [undefined], and a table field that stores rows declares at
    least one column or none at all. *)
Definition wellFormed (template : ReportTemplate) (formData : list (string * JsVal))
  : Prop :=
  forall section field tableData,
    In section (template_sections template) ->
    isReserved section = false ->
    In field (section_fields section) ->
    field_type field = TABLE ->
    get (sectionDataOf formData section) (field_id field) = JArr tableData ->
    Forall (fun row => isNullish row = false) tableData
    /\ (tableData <> [] -> field_columns field <> Some []).

(** ** Plain data *)

(** The names of the members of [Object.prototype].  A record read under
    one of them, when it has no own property of that name, yields the
    inherited member and not [undefined]. *)
Definition objectPrototypeKeys : list string :=
  ["constructor"; "__defineGetter__"; "__defineSetter__"; "hasOwnProperty";
   "__lookupGetter__"; "__lookupSetter__"; "isPrototypeOf";
   "propertyIsEnumerable"; "toString"; "valueOf"; "__proto__"; "toLocaleString"].

Definition isObjectPrototypeKey (k : string) : bool :=
  existsb (String.eqb k) objectPrototypeKeys.

(** A value that [String(v)] and a template literal convert to text
    without throwing: not a record with an own property [toString], which
    the values of form data never make callable, nor an array that holds
    one. *)
Fixpoint printable (v : JsVal) : bool :=
  match v with
  | JObj props => negb (existsb (fun kv => String.eqb (fst kv) "toString") props)
  | JArr elems => forallb printable elems
  | _ => true
  end.

(** A record the column accessors read without throwing: it has no own
    property [hasOwnProperty], the method the accessors call on the row,
    and its values are printable. *)
Definition plainRecord (props : list (string * JsVal)) : bool :=
  negb (existsb (fun kv => String.eqb (fst kv) "hasOwnProperty") props)
  && forallb (fun kv => printable (snd kv)) props.

(** A row the resolver reads without throwing: neither [null] nor
    [undefined], and a plain record when it is a record. *)
Definition plainRow (row : JsVal) : bool :=
  match row with
  | JUndefined | JNull => false
  | JObj props => plainRecord props
  | JArr cells => forallb printable cells
  | _ => true
  end.

(** Form data on which the model reads what the code reads: in every
    section other than [header] and [signatures], the section id and the
    field ids name no member of [Object.prototype], what is stored under the
    section id is a record or nothing, the values of the text-like fields
    are printable and the rows of the stored tables are plain. *)
Definition plainData (template : ReportTemplate) (formData : list (string * JsVal))
  : Prop :=
  forall section,
    In section (template_sections template) ->
    isReserved section = false ->
    isObjectPrototypeKey (section_id section) = false
    /\ (exists props, sectionDataOf formData section = JObj props)
    /\ forall field,
         In field (section_fields section) ->
         isObjectPrototypeKey (field_id field) = false
         /\ (isTextField field = true ->
             printable (get (sectionDataOf formData section) (field_id field)) = true)
         /\ (field_type field = TABLE ->
             forall tableData,
               get (sectionDataOf formData section) (field_id field) = JArr tableData ->
               Forall (fun row => plainRow row = true) tableData).

(** ** Data up to enumeration order *)







(** ** Decimal numerals *)

Fixpoint allDigits (s : string) : bool :=
  match s with
  | EmptyString => true
  | String c r => isDigit c && allDigits r
  end.

(** ** Pages and their images *)

(** A page holds between one and four images. *)
Definition pageSized (s : ResolvedSlide) : Prop :=
  1 <= List.length (imagesOf s) <= 4.

(** A table with two rows that carry photos, one of them a falsy entry. *)
Definition photoRows : list JsVal :=
  [JObj [("Item", JStr "Camp"); ("Amount", JStr "40");
         ("photos", JArr (map JStr ["a"; "b"; "c"]))];
   JObj [("Item", JStr "Retreat"); ("Amount", JStr "60")];
   JObj [("Item", JStr "Picnic"); ("Amount", JStr "25");
         ("photos", JArr [JStr "d"; JNull; JStr "e"])]].

(** ** Tables, charts and KPIs *)

(** The labels [createChartFromTable] never plots: the empty one and the
    aggregate markers, whatever the case. *)
Definition plottable (label : string) : Prop :=
  label <> ""
  /\ toLowerCase label <> "total"
  /\ toLowerCase label <> "net surplus / (deficit)"
  /\ toLowerCase label <> "grand total".

Definition isNumber (x : number) : Prop := isNaN x = false.

(** ** The chart and the table it is derived from *)

(** The data point a row of cells of the table slide gives for the value
    column of index [c]: its first cell, and the number its cell of index
    [c] normalizes to. *)
Definition pointOfCells (c : nat) (cells : list string) : ChartItem :=
  {| item_label := nth 0 cells "";
     item_value := normalizeNumber (JStr (nth c cells "")) |}.

(** ** What the deck depends on, and the shape of its slides *)

(** The slides of a deck after its first one. *)
Definition afterTitle (deck : Result (list ResolvedSlide)) : Result (list ResolvedSlide) :=
  slides <- deck ;; Ok (tl slides).

(** The slide carries a prompt for a generated icon: a text that is not
    empty. *)
Definition hasIconPrompt (s : ResolvedSlide) : bool :=
  match generativeIconPrompt (slide_originalLayout s) with
  | Some prompt => negb (isEmpty prompt)
  | None => false
  end.

(** The chart type the slide suggests, if it suggests a chart. *)
Definition suggestedTypeOf (s : ResolvedSlide) : option ChartType :=
  match suggestedChart (slide_originalLayout s) with
  | Some c => Some (suggested_chartType c)
  | None => None
  end.

Definition isNone {A : Type} (o : option A) : bool :=
  match o with None => true | Some _ => false end.

Definition isPieOrBar (c : ChartType) : bool :=
  match c with pie | bar => true | line => false end.

Definition ChartType_eqb (a b : ChartType) : bool :=
  match a, b with
  | pie, pie | bar, bar | line, line => true
  | _, _ => false
  end.

Definition nonEmpty {A : Type} (l : list A) : bool :=
  match l with [] => false | _ => true end.

(** The payload of the slide is the one its layout is rendered from, with
    the bounds the resolver keeps: a title slide has a subtitle and an
    author and no icon prompt; a two-column slide has a table; a chart
    slide has a pie or bar chart and suggests a chart of the same type; an
    image-and-text slide has a non-empty list of truthy entries and no
    image; a photo grid has one to four images and no icon prompt; a
    summary slide has two to four KPIs.  Only chart slides suggest a
    chart, and every slide other than the title and the photo grids has an
    icon prompt. *)
Definition shapeOk (s : ResolvedSlide) : bool :=
  match slide_layout s, slide_data s with
  | Layout_title, TitleData _ _ =>
      negb (hasIconPrompt s) && isNone (suggestedTypeOf s)
  | Layout_twoColumn, TableData _ _ =>
      hasIconPrompt s && isNone (suggestedTypeOf s)
  | Layout_chartFull, ChartData chartType _ _ =>
      hasIconPrompt s && isPieOrBar chartType
      && match suggestedTypeOf s with
         | Some t => ChartType_eqb t chartType
         | None => false
         end
  | Layout_imageLeftTextRight, ListData items image =>
      hasIconPrompt s && isNone (suggestedTypeOf s)
      && nonEmpty items && forallb truthy items
      && match image with JNull => true | _ => false end
  | Layout_photoGrid, ImagesData images =>
      negb (hasIconPrompt s) && isNone (suggestedTypeOf s)
      && (1 <=? List.length images) && (List.length images <=? 4)
  | Layout_summary, KpisData kpis =>
      hasIconPrompt s && isNone (suggestedTypeOf s)
      && (2 <=? List.length kpis) && (List.length kpis <=? 4)
  | _, _ => false
  end.

(** Form data with entries the resolver has no use for: a value under
    [signatures], a value under a key that names no section, and a header. *)
Definition galleryDataPlus : list (string * JsVal) :=
  [("header", JObj [("quarter", JStr "Q3 2025")]);
   ("signatures", JArr [JStr "sig.png"]);
   ("notes", JStr "draft");
   ("gallery", JObj [("pics", JArr ninePhotos)])].

(** ** Slide ids *)

(** What follows the section id in the id of a section slide. *)
Inductive IdKey : Type :=
| KTable (fieldIndex : nat)
| KChart (fieldIndex : nat)
| KTablePhotos (fieldIndex pageNum : nat)
| KBullet (fieldIndex : nat)
| KPhotos (fieldIndex pageNum : nat)
| KText.

Definition suffixOf (k : IdKey) : string :=
  match k with
  | KTable i => "-table-" ++ natToString i
  | KChart i => "-chart-" ++ natToString i
  | KTablePhotos i p => "-table-photos-" ++ natToString i ++ "-page" ++ natToString p
  | KBullet i => "-bullet-" ++ natToString i
  | KPhotos i p => "-photos-" ++ natToString i ++ "-page" ++ natToString p
  | KText => "-text-summary"
  end.

(** The loop that emits the slide and the index of the field in it. *)
Definition slotOf (k : IdKey) : nat * nat :=
  match k with
  | KTable i | KChart i | KTablePhotos i _ => (0, i)
  | KBullet i => (1, i)
  | KPhotos i _ => (2, i)
  | KText => (3, 0)
  end.

Definition slotLt (a b : nat * nat) : Prop :=
  fst a < fst b \/ (fst a = fst b /\ snd a < snd b).

(** The slides have the ids of distinct keys, all of a slot before
    [bound]. *)
Definition keyed (sid : string) (bound : nat * nat) (slides : list ResolvedSlide) : Prop :=
  exists keys,
    map slide_id slides = map (fun k => sid ++ suffixOf k) keys
    /\ NoDup keys
    /\ Forall (fun k => slotLt (slotOf k) bound) keys.

(** The string has no hyphen, U+002D. *)
Fixpoint noHyphen (s : string) : bool :=
  match s with
  | EmptyString => true
  | String c r => negb (code c =? 45) && noHyphen r
  end.

(** The ids of the sections the resolver makes slides for. *)
Definition sectionIdsOf (sections : list FormSection) : list string :=
  map section_id (filter (fun s => negb (isReserved s)) sections).

(** The section ids are pairwise distinct, none has a hyphen, and none is
    the prefix of the id of the title slide or of the summary slide. *)
Definition plainSectionIds (sections : list FormSection) : Prop :=
  NoDup (sectionIdsOf sections)
  /\ Forall (fun sid => noHyphen sid = true /\ sid <> "title" /\ sid <> "summary")
            (sectionIdsOf sections).

(** Two sections whose ids differ by a hyphenated suffix: a table with a
    photo in a row, and a photo collection. *)
Definition clashTemplate : ReportTemplate :=
  {| template_key := "demo"; template_name := "Demo"; template_title := "Report";
     template_sections :=
       [{| section_id := "a"; section_title := "A";
           section_fields :=
             [{| field_id := "t"; field_label := "T"; field_type := TABLE;
                 field_columns := Some ["Item"] |}] |};
        {| section_id := "a-table"; section_title := "B";
           section_fields :=
             [{| field_id := "p"; field_label := "P"; field_type := PHOTOS;
                 field_columns := None |}] |}] |}.

Definition clashData : list (string * JsVal) :=
  [("a", JObj [("t", JArr [JObj [("Item", JStr "x"); ("photos", JArr [JStr "u"])]])]);
   ("a-table", JObj [("p", JArr [JStr "v"])])].

(** ** The text summary of a section *)

(** The text-like fields of the section that store a truthy value. *)
Definition filledTextFields (sectionData : JsVal) (section : FormSection)
  : list FormField :=
  filter (fun f => truthy (get sectionData (field_id f)))
         (filter isTextField (section_fields section)).

(** The line of a field: its label, a colon and the stored value as text. *)
Definition textEntry (sectionData : JsVal) (f : FormField) : JsVal :=
  JStr (field_label f ++ ": " ++ toString (get sectionData (field_id f))).

Definition textSlideOf (section : FormSection) (entries : list JsVal) : ResolvedSlide :=
  {| slide_id := section_id section ++ "-text-summary";
     slide_title := section_title section;
     slide_layout := Layout_imageLeftTextRight;
     slide_data := ListData entries JNull;
     slide_originalLayout :=
       {| generativeIconPrompt := Some (getIconPromptForSection section);
          suggestedChart := None |} |}.

(** A section of text-like fields, two of which store a falsy value: the
    number zero and the empty text. *)
Definition aboutSection : FormSection :=
  {| section_id := "about"; section_title := "About";
     section_fields :=
       [{| field_id := "leader"; field_label := "Leader"; field_type := TEXT;
           field_columns := None |};
        {| field_id := "members"; field_label := "Members"; field_type := NUMBER;
           field_columns := None |};
        {| field_id := "visitors"; field_label := "Visitors"; field_type := NUMBER;
           field_columns := None |};
        {| field_id := "notes"; field_label := "Notes"; field_type := TEXTAREA;
           field_columns := None |};
        {| field_id := "date"; field_label := "Date"; field_type := DATE;
           field_columns := None |}] |}.

Definition aboutData : list (string * JsVal) :=
  [("about", JObj [("leader", JStr "Grace"); ("members", JNum (ofNat 42));
                   ("visitors", JNum (ofNat 0)); ("notes", JStr "");
                   ("date", JStr "2025-03-31")])].

(** ** Colour codes *)

(** A hexadecimal digit that is not a lower-case letter. *)
Definition isUpperHexDigit (c : ascii) : bool :=
  let n := code c in
  ((48 <=? n) && (n <=? 57)) || ((65 <=? n) && (n <=? 70)).

(** A colour code as the presentation library takes it: six hexadecimal
    digits, letters in upper case, no [#]. *)
Definition isColorCode (s : string) : bool :=
  (String.length s =? 6) && allChars isUpperHexDigit s.

(** Strips the characters two strings have in common at their heads,
    and closes the goal when the heads differ. *)
Ltac peel H :=
  repeat (cbn [append] in H;
          match type of H with
          | String ?c _ = String ?c _ => injection H as H
          | String _ _ = String _ _ => discriminate H
          end).

(* ===================================================================== *)
(** * Properties *)
(* ===================================================================== *)

(** ** The numeric normalizer *)

Lemma code_eqb_true (c : ascii) (n : nat) :
  (code c =? n) = true -> c = ascii_of_nat n.
Proof.
  intros H. apply Nat.eqb_eq in H. unfold code in H.
  rewrite <- H. symmetry. apply ascii_nat_embedding.
Qed.

Lemma stripParens_stripCurrency (s : string) :
  stripParens (stripCurrency s) = cleanedOf s.
Proof.
  unfold stripParens, stripCurrency, cleanedOf, isStripped.
  induction s as [|c r IH]; simpl; [reflexivity|].
  destruct (code c =? 36); simpl; [exact IH|].
  destruct (code c =? 44); simpl; [exact IH|].
  destruct (isWhiteSpace c); simpl.
  - rewrite IH. rewrite !orb_true_r. reflexivity.
  - rewrite !orb_false_r.
    destruct (code c =? 40); simpl; [exact IH|].
    destruct (code c =? 41); simpl; [exact IH|].
    now rewrite IH.
Qed.

Lemma cleanedOf_clean (s : string) (c : ascii) :
  In c (list_ascii_of_string (cleanedOf s)) -> isStripped c = false.
Proof.
  unfold cleanedOf. induction s as [|a r IH]; simpl; [tauto|].
  destruct (isStripped a) eqn:E; simpl; [exact IH|].
  intros [<-|H]; [exact E | exact (IH H)].
Qed.

Lemma dotStarThenClose_intro (inner : string) :
  singleLine inner -> dotStarThenClose (inner ++ ")") = true.
Proof.
  induction inner as [|c r IH]; simpl; [reflexivity|].
  intros [Hc Hr]. rewrite Hc, (IH Hr). simpl. apply orb_true_r.
Qed.

Lemma dotStarThenClose_elim (s : string) :
  dotStarThenClose s = true -> exists inner, s = inner ++ ")".
Proof.
  induction s as [|c r IH]; simpl; [discriminate|].
  intros H. apply orb_true_iff in H. destruct H as [H|H].
  - apply andb_true_iff in H. destruct H as [Hc Hr].
    exists EmptyString. destruct r; [|discriminate].
    simpl. now rewrite (code_eqb_true _ _ Hc).
  - apply andb_true_iff in H. destruct H as [_ Hr].
    destruct (IH Hr) as [inner ->]. now exists (String c inner).
Qed.

Lemma wrappedInParens_intro (s inner : string) :
  wraps s inner -> singleLine inner -> wrappedInParens s = true.
Proof.
  unfold wraps. intros -> H. simpl. now apply dotStarThenClose_intro.
Qed.

Lemma wrappedInParens_elim (s : string) :
  wrappedInParens s = true -> exists inner, wraps s inner.
Proof.
  destruct s as [|c r]; simpl; [discriminate|].
  intros H. apply andb_true_iff in H. destruct H as [Hc Hr].
  destruct (dotStarThenClose_elim _ Hr) as [inner ->].
  exists inner. unfold wraps. now rewrite (code_eqb_true _ _ Hc).
Qed.

Lemma isNaN_neg_abs (x : number) : isNaN x = true -> isNaN (neg (abs x)) = true.
Proof. destruct x; simpl; congruence. Qed.

(** What [normalizeNumber] does.  It yields [NaN] on [null] and
    [undefined].  On any other printable value it works on the trimmed text
    of the value: the dollar signs, commas, parentheses and white space are
    removed before parsing; when the text is an opening parenthesis, a
    single line of characters and a closing parenthesis, the result is the
    negated absolute value of the number parsed from the cleaned text,
    whatever sign that text carries; when the text is not wrapped in
    parentheses the result is the parsed number itself; and a cleaned text
    that does not parse yields [NaN].  In particular ["(1,234.50)"] gives
    -1234.5, ["$500"] gives 500, ["(+5)"] gives -5, and both [""] and
    [null] give [NaN]. *)
Lemma normalizeNumber_spec :
  (forall value,
     (isNullish value = true -> normalizeNumber value = NaN) /\
     (isNullish value = false ->
        printable value = true ->
        let str := trim (toString value) in
        let cleaned := cleanedOf str in
        (forall c, In c (list_ascii_of_string cleaned) -> isStripped c = false) /\
        (forall inner, wraps str inner -> singleLine inner ->
           normalizeNumber value = neg (abs (parseFloat cleaned))) /\
        ((forall inner, ~ wraps str inner) ->
           normalizeNumber value = parseFloat cleaned) /\
        (isNaN (parseFloat cleaned) = true ->
           isNaN (normalizeNumber value) = true))) /\
  exactly (normalizeNumber (JStr "(1,234.50)")) (-123450) 100 /\
  exactly (normalizeNumber (JStr "$500")) 500 1 /\
  exactly (normalizeNumber (JStr "(+5)")) (-5) 1 /\
  normalizeNumber (JStr "") = NaN /\
  normalizeNumber JNull = NaN.
Proof.
  split; [| repeat split; vm_compute; reflexivity].
  intros value. split.
  - intros H. unfold normalizeNumber. now rewrite H.
  - intros H _. cbv zeta. unfold normalizeNumber. rewrite H.
    rewrite stripParens_stripCurrency. repeat split.
    + apply cleanedOf_clean.
    + intros inner Hw Hs. now rewrite (wrappedInParens_intro _ _ Hw Hs).
    + intros Hn. destruct (wrappedInParens _) eqn:E; [|reflexivity].
      destruct (wrappedInParens_elim _ E) as [inner Hi]. now destruct (Hn inner).
    + intros Hp. destruct (wrappedInParens _); [now apply isNaN_neg_abs | exact Hp].
Qed.

(** At a concrete value: the accounting negative "(1,234.50)". *)
Lemma normalizeNumber_spec_witness :
  normalizeNumber (JStr "(1,234.50)") = neg (abs (parseFloat "1234.50")).
Proof.
  destruct (proj1 normalizeNumber_spec (JStr "(1,234.50)")) as [_ H].
  destruct (H eq_refl eq_refl) as (_ & Hwrapped & _).
  apply (Hwrapped "1,234.50"); [reflexivity | simpl; tauto].
Defined.

(** C5, the defect.  The text made of "(1", a line feed and "2)" is
    wrapped in parentheses, yet [normalizeNumber] returns 12 and not the
    negated absolute value of the number parsed from the cleaned text,
    which is -12: the test [/^\(.*\)$/] fails on it, its dot matching no
    line terminator, so the sign is not applied, against what the comments
    of the code announce ("Check if wrapped in parentheses", "Apply
    negative sign if parentheses were present").  Without the line feed,
    "(12)" gives -12. *)
Theorem normalizeNumber_multiline :
  let value := JStr (String "("%char (String "1"%char (String LF "2)"))) in
  wraps (trim (toString value)) (String "1"%char (String LF "2")) /\
  exactly (normalizeNumber value) 12 1 /\
  normalizeNumber value
    <> neg (abs (parseFloat (cleanedOf (trim (toString value))))) /\
  exactly (normalizeNumber (JStr "(12)")) (-12) 1.
Proof.
  cbv zeta. split; [reflexivity|]. split; [vm_compute; reflexivity|].
  split; [vm_compute; discriminate | vm_compute; reflexivity].
Qed.

(** ** The column accessor *)

Lemma lookup_None (k : string) (props : list (string * JsVal)) :
  lookup k props = None <-> ~ In k (map fst props).
Proof.
  induction props as [|[k' v] r IH]; simpl; [tauto|].
  destruct (String.eqb_spec k' k) as [->|Hne].
  - split; [discriminate | intros H; exfalso; apply H; now left].
  - rewrite IH. split; [intros H [E|I]; [now apply Hne | now apply H] | tauto].
Qed.

Lemma hasOwnProperty_object (props : list (string * JsVal)) (h : string) :
  (In h (map fst props) -> hasOwnProperty (JObj props) (Some h) = Ok true)
  /\ (~ In h (map fst props) -> hasOwnProperty (JObj props) (Some h) = Ok false).
Proof.
  unfold hasOwnProperty; simpl. split; intros H.
  - destruct (lookup h props) eqn:E; [reflexivity|].
    apply lookup_None in E. contradiction.
  - apply lookup_None in H. now rewrite H.
Qed.

Lemma toLowerCase_empty (k : string) : toLowerCase k = "" -> k = "".
Proof. destruct k; simpl; [reflexivity | discriminate]. Qed.

Lemma find_first (f : string -> bool) (pre post : list string) (k : string) :
  f k = true -> (forall k', In k' pre -> f k' = false) ->
  find f (pre ++ k :: post) = Some k.
Proof.
  intros Hk. induction pre as [|a r IH]; simpl; intros Hpre.
  - now rewrite Hk.
  - rewrite (Hpre a (or_introl eq_refl)). apply IH. intros k' H. apply Hpre. now right.
Qed.

Lemma find_unique (f : string -> bool) (ks : list string) (k : string) :
  In k ks -> f k = true -> (forall k', In k' ks -> f k' = true -> k' = k) ->
  find f ks = Some k.
Proof.
  induction ks as [|a r IH]; simpl; [tauto|]. intros Hin Hk Hu.
  destruct (f a) eqn:E.
  - f_equal. apply Hu; [now left | exact E].
  - destruct Hin as [->|Hin]; [congruence|].
    apply IH; [exact Hin | exact Hk |]. intros k' H1 H2. apply Hu; [now right | exact H2].
Qed.

Lemma find_none (f : string -> bool) (ks : list string) :
  (forall k, In k ks -> f k = false) -> find f ks = None.
Proof.
  induction ks as [|a r IH]; simpl; [reflexivity|]. intros H.
  rewrite (H a (or_introl eq_refl)). apply IH. intros k Hk. apply H. now right.
Qed.

Lemma dataKeysOf_filter (row : JsVal) :
  dataKeysOf row = filter (fun k => negb (isReservedKey k)) (keys row).
Proof.
  unfold dataKeysOf. apply filter_ext. intros k. unfold isReservedKey.
  now rewrite negb_orb.
Qed.

(** The text accessor of the table slide is the raw accessor of the chart
    and summary code followed by [String(... ?? '')]. *)
Lemma getColumnValueText_raw (row : JsVal) (header : option string) (i : nat) :
  getColumnValueText row header i
  = (v <- getColumnValue row header i ;; Ok (toString (coalesce v (JStr "")))).
Proof.
  unfold getColumnValueText, getColumnValue.
  destruct (hasOwnProperty row header) as [[|]|e]; simpl; try reflexivity.
  destruct (toLowerCaseOf header) as [lh|e]; simpl; [|reflexivity].
  destruct (truthyKey _); [reflexivity|].
  destruct (nth_error _ i); reflexivity.
Qed.

(** On a row record, once the header is not an own key, the accessor is
    decided by the first key equal to the header up to case, if any. *)
Lemma getColumnValue_not_own (props : list (string * JsVal)) (h : string) (i : nat) :
  ~ In h (map fst props) ->
  getColumnValue (JObj props) (Some h) i
  = match find (fun k => String.eqb (toLowerCase k) (toLowerCase h)) (map fst props) with
    | Some k => Ok (get (JObj props) k)
    | None =>
        match nth_error (filter (fun k => negb (isReservedKey k)) (map fst props)) i with
        | Some dk => Ok (get (JObj props) dk)
        | None => Ok JNull
        end
    end.
Proof.
  intros Hn. unfold getColumnValue.
  rewrite (proj2 (hasOwnProperty_object props h) Hn). simpl.
  rewrite dataKeysOf_filter. simpl.
  destruct (find _ (map fst props)) as [k|] eqn:E; simpl; [|reflexivity].
  destruct k as [|c r]; simpl; [|reflexivity].
  exfalso. apply find_some in E. destruct E as [Hin Heq].
  apply String.eqb_eq in Heq. simpl in Heq. symmetry in Heq.
  apply toLowerCase_empty in Heq. subst h. contradiction.
Qed.

(** C4.  On every plain row record (a record without an own property
    [hasOwnProperty], the method the accessor calls on the row, and with
    printable values), header and header index the accessor
    returns (1) the value under the key equal to the header when the row
    has it; else (2) the value under the first key, in iteration order,
    equal to the header up to case, which is the only such key when there
    is exactly one; else (3) the value under the key at the header's index
    among the keys other than [photos] and [tooltips], in iteration order;
    else (4) [null].  The accessor of the table slide returns the text of
    that value, and the empty text for [null] and [undefined].  The row
    [{Amount: 10}] with header [amount] gives 10, and the row
    [{col1: "X", col2: 5}] with headers [Label], [Value] gives "X" at
    index 0 and 5 at index 1. *)
Theorem columnAccessor_tiers :
  (forall (props : list (string * JsVal)) (h : string) (i : nat),
     plainRecord props = true ->
     let row := JObj props in
     let ks := keys row in
     let dataKeys := filter (fun k => negb (isReservedKey k)) ks in
     (In h ks -> getColumnValue row (Some h) i = Ok (get row h)) /\
     (~ In h ks -> forall k, firstCaseFold ks h k ->
        getColumnValue row (Some h) i = Ok (get row k)) /\
     (~ In h ks -> forall k, In k ks -> toLowerCase k = toLowerCase h ->
        (forall k', In k' ks -> toLowerCase k' = toLowerCase h -> k' = k) ->
        getColumnValue row (Some h) i = Ok (get row k)) /\
     (~ In h ks -> noCaseFold ks h -> forall dk, nth_error dataKeys i = Some dk ->
        getColumnValue row (Some h) i = Ok (get row dk)) /\
     (~ In h ks -> noCaseFold ks h -> nth_error dataKeys i = None ->
        getColumnValue row (Some h) i = Ok JNull) /\
     getColumnValueText row (Some h) i
     = (v <- getColumnValue row (Some h) i ;; Ok (toString (coalesce v (JStr ""))))) /\
  getColumnValue rowAmount (Some "amount") 0 = Ok (JNum (ofNat 10)) /\
  getColumnValue rowCols (Some "Label") 0 = Ok (JStr "X") /\
  getColumnValue rowCols (Some "Value") 1 = Ok (JNum (ofNat 5)) /\
  getColumnValueText rowAmount (Some "amount") 0 = Ok "10" /\
  getColumnValueText rowCols (Some "Label") 0 = Ok "X" /\
  getColumnValueText rowCols (Some "Value") 1 = Ok "5".
Proof.
  split; [| repeat split; vm_compute; reflexivity].
  intros props h i _. cbv zeta. simpl keys.
  split; [|split; [|split; [|split; [|split]]]].
  - intros Hin. unfold getColumnValue.
    now rewrite (proj1 (hasOwnProperty_object props h) Hin).
  - intros Hn k (pre & post & Hks & Hk & Hpre).
    rewrite (getColumnValue_not_own props h i Hn), Hks.
    rewrite find_first; [reflexivity | now apply String.eqb_eq |].
    intros k' Hk'. apply String.eqb_neq. now apply Hpre.
  - intros Hn k Hin Hk Hu. rewrite (getColumnValue_not_own props h i Hn).
    rewrite (find_unique _ _ _ Hin); [reflexivity | now apply String.eqb_eq |].
    intros k' H1 H2. apply Hu; [exact H1 | now apply String.eqb_eq].
  - intros Hn Hnone dk Hdk. rewrite (getColumnValue_not_own props h i Hn).
    rewrite find_none; [now rewrite Hdk|].
    intros k Hk. apply String.eqb_neq. now apply Hnone.
  - intros Hn Hnone Hdk. rewrite (getColumnValue_not_own props h i Hn).
    rewrite find_none; [now rewrite Hdk|].
    intros k Hk. apply String.eqb_neq. now apply Hnone.
  - apply getColumnValueText_raw.
Qed.

(** C4 at a concrete row: [{Amount: 10}] read under the header [amount]. *)
Lemma columnAccessor_tiers_witness :
  getColumnValue rowAmount (Some "amount") 0 = Ok (get rowAmount "Amount").
Proof.
  apply (proj1 (proj2 (proj1 columnAccessor_tiers
                         [("Amount", JNum (ofNat 10))] "amount" 0 eq_refl))).
  - simpl. intros [H|[]]. discriminate.
  - exists [], []. repeat split. intros k' [].
Defined.

(** ** Photo pagination *)

Lemma ceilDiv4_gt (n j : nat) : 4 * j < n <-> j < ceilDiv4 n.
Proof.
  unfold ceilDiv4. split; intros H.
  - apply (Nat.div_le_lower_bound (n + 3) 4 (S j)); lia.
  - pose proof (Nat.Div0.mul_div_le (n + 3) 4). lia.
Qed.

Lemma ceilDiv4_bounds (n : nat) :
  n <= 4 * ceilDiv4 n /\ (0 < n -> 4 * (ceilDiv4 n - 1) < n).
Proof.
  split.
  - destruct (Nat.le_gt_cases n (4 * ceilDiv4 n)) as [H|H]; [exact H|].
    apply ceilDiv4_gt in H. lia.
  - intros Hn. assert (H0 : 0 < ceilDiv4 n) by (apply ceilDiv4_gt; lia).
    apply ceilDiv4_gt. lia.
Qed.

Lemma floorDiv4_mul (j : nat) : floorDiv4 (4 * j) = j.
Proof. unfold floorDiv4. rewrite Nat.mul_comm. now apply Nat.div_mul. Qed.

Lemma photoLoop_step (mkSlide : list JsVal -> nat -> nat -> ResolvedSlide)
  (photos : list JsVal) (fuel i : nat) (slides : list ResolvedSlide) :
  photoLoop (S fuel) mkSlide photos i slides
  = if i <? List.length photos
    then photoLoop fuel mkSlide photos (i + 4)
           (slides ++ [mkSlide (slice i (i + 4) photos) (floorDiv4 i + 1)
                               (ceilDiv4 (List.length photos))])%list
    else slides.
Proof. reflexivity. Qed.

(** The loop started at the page boundary [4j] pushes the pages from [j]
    on, provided the fuel covers them. *)
Lemma photoLoop_pages (mkSlide : list JsVal -> nat -> nat -> ResolvedSlide)
  (photos : list JsVal) :
  forall fuel j slides,
    ceilDiv4 (List.length photos) <= j + fuel ->
    photoLoop fuel mkSlide photos (4 * j) slides
    = (slides ++ map (pageAt mkSlide photos)
                     (seq j (ceilDiv4 (List.length photos) - j)))%list.
Proof.
  induction fuel as [|fuel IH]; intros j slides Hfuel.
  - replace (ceilDiv4 (List.length photos) - j) with 0 by lia.
    simpl. now rewrite app_nil_r.
  - rewrite photoLoop_step.
    destruct (Nat.ltb_spec (4 * j) (List.length photos)) as [Hlt|Hge].
    + apply ceilDiv4_gt in Hlt.
      replace (4 * j + 4) with (4 * S j) by lia.
      rewrite IH by lia.
      replace (ceilDiv4 (List.length photos) - j)
        with (S (ceilDiv4 (List.length photos) - S j)) by lia.
      rewrite <- cons_seq, map_cons, <- app_assoc.
      f_equal. cbn [app]. f_equal. unfold pageAt, slice.
      rewrite floorDiv4_mul. do 2 f_equal. lia.
    + assert (~ j < ceilDiv4 (List.length photos)) by (rewrite <- ceilDiv4_gt; lia).
      replace (ceilDiv4 (List.length photos) - j) with 0 by lia.
      simpl. now rewrite app_nil_r.
Qed.

Lemma paginate_pages (mkSlide : list JsVal -> nat -> nat -> ResolvedSlide)
  (photos : list JsVal) (slides : list ResolvedSlide) :
  paginate mkSlide photos slides = (slides ++ pagesOf mkSlide photos)%list.
Proof.
  unfold paginate, pagesOf.
  change 0 with (4 * 0) at 1.
  rewrite (photoLoop_pages mkSlide photos (List.length photos) 0 slides).
  - now rewrite Nat.sub_0_r.
  - pose proof (proj2 (ceilDiv4_gt (List.length photos) (List.length photos))). lia.
Qed.

Lemma pageIndicator_cases (pageNum totalPages : nat) :
  pageIndicator pageNum totalPages
  = if totalPages <=? 1 then ""
    else " (" ++ natToString pageNum ++ "/" ++ natToString totalPages ++ ")".
Proof.
  unfold pageIndicator.
  destruct (Nat.ltb_spec 1 totalPages), (Nat.leb_spec totalPages 1); try reflexivity; lia.
Qed.

Lemma photoFieldSlides_pages (section : FormSection) (sectionData : JsVal)
  (slides : list ResolvedSlide) (field : FormField) (fieldIndex : nat) :
  photoFieldSlides section sectionData slides field fieldIndex
  = Ok (slides ++ photoFieldPages section sectionData field fieldIndex)%list.
Proof.
  unfold photoFieldSlides, photoFieldPages.
  destruct (get sectionData (field_id field)) as [| | | | |photoData|];
    try now rewrite app_nil_r.
  destruct photoData; [now rewrite app_nil_r|]. now rewrite paginate_pages.
Qed.

(** The loop over the photo-collection fields never throws and pushes the
    contributions of the fields one after the other. *)
Lemma forEachM_photoFieldSlides (section : FormSection) (sectionData : JsVal) :
  forall fields i slides,
    forEachM (photoFieldSlides section sectionData) i fields slides
    = Ok (slides ++ photoFieldsPages section sectionData i fields)%list.
Proof.
  induction fields as [|f r IH]; intros i slides; simpl.
  - now rewrite app_nil_r.
  - rewrite photoFieldSlides_pages. cbn [bind]. rewrite IH. now rewrite app_assoc.
Qed.

(** C7.  A photo-collection field that stores [n >= 1] images contributes
    exactly [ceil (n/4)] slides, all photo grids, pushed in page order; the
    page of number [k] (from 1) carries the stored images [4(k-1)+1] to
    [min (4k) n] in stored order; its title is the field label (or the
    section title) followed by the indicator [" (k/total)"] when there is
    more than one page and by nothing when there is one.  Nine images
    resolve to three photo grids of 4, 4 and 1 images with the indicators
    (1/3), (2/3) and (3/3).  Within the slides of a section the pages of
    the photo-collection fields stand together, field after field in
    declared order, after the table and bullet slides and before the text
    slide. *)
Theorem photoPagination :
  (forall section sectionData field fieldIndex photoData slides,
     get sectionData (field_id field) = JArr photoData ->
     photoData <> [] ->
     let n := List.length photoData in
     let total := ceilDiv4 n in
     exists pages,
       photoFieldSlides section sectionData slides field fieldIndex
       = Ok (slides ++ pages)%list
       /\ List.length pages = total
       /\ n <= 4 * total /\ 4 * (total - 1) < n
       /\ forall k, 1 <= k <= total ->
            exists page,
              nth_error pages (k - 1) = Some page
              /\ slide_layout page = Layout_photoGrid
              /\ slide_data page = ImagesData (firstn 4 (skipn (4 * (k - 1)) photoData))
              /\ List.length (imagesOf page) = Nat.min (4 * k) n - 4 * (k - 1)
              /\ slide_title page
                 = orString (field_label field) (section_title section)
                   ++ (if total <=? 1 then ""
                       else " (" ++ natToString k ++ "/" ++ natToString total ++ ")")) /\
  (forall formData section sectionIndex out,
     createSlidesForSection formData section sectionIndex = Ok out ->
     exists tableAndBulletSlides textSlides,
       out = (tableAndBulletSlides
              ++ photoFieldsPages section (sectionDataOf formData section) 0
                   (filter (hasType PHOTOS) (section_fields section))
              ++ textSlides)%list) /\
  (exists titleSlide p1 p2 p3,
     resolve galleryTemplate galleryData = Ok [titleSlide; p1; p2; p3]
     /\ slide_layout titleSlide = Layout_title
     /\ map slide_layout [p1; p2; p3]
        = [Layout_photoGrid; Layout_photoGrid; Layout_photoGrid]
     /\ map (fun s => List.length (imagesOf s)) [p1; p2; p3] = [4; 4; 1]
     /\ map slide_title [p1; p2; p3]
        = ["Gallery (1/3)"; "Gallery (2/3)"; "Gallery (3/3)"]).
Proof.
  split; [|split].
  - intros section sectionData field fieldIndex photoData slides Hget Hne. cbv zeta.
    assert (Hn : 0 < List.length photoData)
      by (destruct photoData; [congruence | simpl; lia]).
    exists (pagesOf (photoSlide section field fieldIndex) photoData).
    split; [|split; [|split; [|split]]].
    + unfold photoFieldSlides. rewrite Hget.
      destruct photoData as [|p r]; [congruence|].
      now rewrite paginate_pages.
    + unfold pagesOf. now rewrite length_map, length_seq.
    + apply ceilDiv4_bounds.
    + now apply ceilDiv4_bounds.
    + intros k [Hk1 Hk2].
      exists (pageAt (photoSlide section field fieldIndex) photoData (k - 1)).
      split; [|split; [|split; [|split]]].
      * unfold pagesOf. rewrite nth_error_map.
        rewrite (nth_error_nth' _ 0) by (rewrite length_seq; lia).
        rewrite seq_nth by lia. reflexivity.
      * reflexivity.
      * reflexivity.
      * unfold imagesOf, pageAt, photoSlide. cbn [slide_data].
        rewrite length_firstn, length_skipn. lia.
      * unfold pageAt, photoSlide. cbn [slide_title]. rewrite pageIndicator_cases.
        replace (k - 1 + 1) with k by lia. reflexivity.
  - intros formData section sectionIndex out. unfold createSlidesForSection.
    fold (sectionDataOf formData section).
    destruct (forEachM (tableFieldSlides _ _) 0 _ []) as [s1|e]; simpl; [|discriminate].
    destruct (forEachM (bulletFieldSlides _ _) 0 _ s1) as [s2|e]; simpl; [|discriminate].
    rewrite forEachM_photoFieldSlides. cbn [bind]. intros H. injection H as <-.
    unfold textSummarySlides.
    destruct (0 <? _); [destruct (0 <? _)|].
    + eexists s2, [_]. now rewrite <- app_assoc.
    + exists s2, []. now rewrite app_nil_r.
    + exists s2, []. now rewrite app_nil_r.
  - do 4 eexists. split; [vm_compute; reflexivity|].
    repeat split.
Qed.

(** C7 at a concrete field: nine stored images. *)
Lemma photoPagination_witness :
  exists pages,
    photoFieldSlides gallerySection (JObj [("pics", JArr ninePhotos)]) [] galleryField 0
    = Ok ([] ++ pages)%list
    /\ List.length pages = 3.
Proof.
  destruct (proj1 photoPagination gallerySection (JObj [("pics", JArr ninePhotos)])
                  galleryField 0 ninePhotos [] eq_refl)
    as (pages & H1 & H2 & _).
  - discriminate.
  - exists pages. split; [exact H1 | exact H2].
Defined.

(** ** The shape of the resolved deck *)

Lemma forEachM_resolveSection (formData : list (string * JsVal)) :
  forall sections i acc,
    forEachM (resolveSection formData) i sections acc
    = (perSection <- mapiM (sectionContribution formData) i sections ;;
       Ok (acc ++ List.concat perSection)%list).
Proof.
  induction sections as [|sec r IH]; intros i acc; simpl.
  - now rewrite app_nil_r.
  - unfold resolveSection at 1, sectionContribution at 1, isReserved.
    destruct (String.eqb (section_id sec) "header"); simpl.
    + rewrite IH. now destruct (mapiM _ (S i) r).
    + destruct (String.eqb (section_id sec) "signatures"); simpl.
      * rewrite IH. now destruct (mapiM _ (S i) r).
      * destruct (createSlidesForSection formData sec i) as [ss|e]; simpl; [|reflexivity].
        rewrite IH. destruct (mapiM _ (S i) r) as [rest|e]; simpl; [|reflexivity].
        now rewrite app_assoc.
Qed.

Lemma createTitleSlide_some (template : ReportTemplate)
  (formData : list (string * JsVal)) :
  exists titleSlide,
    createTitleSlide template formData = Some titleSlide
    /\ slide_id titleSlide = "title-" ++ template_key template
    /\ slide_title titleSlide = template_title template
    /\ slide_layout titleSlide = Layout_title
    /\ slide_data titleSlide
       = TitleData
           (firstTruthy [get (headerDataOf formData) "quarter";
                         get (headerDataOf formData) "reportingQuarter"])
           (firstTruthy [get (headerDataOf formData) "preparedBy";
                         get (headerDataOf formData) "reportingLeader"]).
Proof.
  eexists. split; [reflexivity|]. repeat split. simpl.
  assert (Hh : orElse (get (JObj formData) "header") (JObj []) = headerDataOf formData).
  { unfold orElse, get, headerDataOf. simpl.
    destruct (lookup "header" formData); reflexivity. }
  rewrite Hh. unfold orElse. simpl.
  destruct (truthy (get (headerDataOf formData) "quarter")) eqn:E1;
    destruct (truthy (get (headerDataOf formData) "preparedBy")) eqn:E2;
    rewrite ?E1, ?E2;
    destruct (truthy (get (headerDataOf formData) "reportingQuarter")) eqn:E3;
    destruct (truthy (get (headerDataOf formData) "reportingLeader")) eqn:E4;
    rewrite ?E3, ?E4; reflexivity.
Qed.

(** The deck is the title slide, then what the sections contribute in
    declared order, then the summary slide if there is one. *)
Lemma resolve_shape (template : ReportTemplate) (formData : list (string * JsVal)) :
  forall titleSlide,
    createTitleSlide template formData = Some titleSlide ->
    resolve template formData
    = (perSection <- mapiM (sectionContribution formData) 0
                           (template_sections template) ;;
       summary <- createSummarySlide template formData ;;
       Ok (titleSlide :: List.concat perSection ++ optionToList summary)%list).
Proof.
  intros titleSlide Ht. unfold resolve. rewrite Ht. simpl pushIf at 1.
  rewrite forEachM_resolveSection.
  destruct (mapiM _ 0 (template_sections template)) as [ps|e]; simpl; [|reflexivity].
  destruct (createSummarySlide template formData) as [[sm|]|e]; simpl; try reflexivity.
  now rewrite app_nil_r.
Qed.

(** C8.  Whatever the template and the form data, the title slide is
    built without error: its title is the template's title, its subtitle
    is the first non-empty of [header.quarter] and
    [header.reportingQuarter], its author the first non-empty of
    [header.preparedBy] and [header.reportingLeader], and the empty text
    stands for an absent value.  The deck [resolve] computes is that slide
    first, followed by the slides of the sections taken in declared order
    where the sections [header] and [signatures] contribute none, followed
    by the summary slide when there is one; so every deck [resolve]
    returns starts with the title slide. *)
Theorem titleSlideFirst (template : ReportTemplate) (formData : list (string * JsVal)) :
  exists titleSlide,
    slide_layout titleSlide = Layout_title
    /\ slide_title titleSlide = template_title template
    /\ slide_data titleSlide
       = TitleData
           (firstTruthy [get (headerDataOf formData) "quarter";
                         get (headerDataOf formData) "reportingQuarter"])
           (firstTruthy [get (headerDataOf formData) "preparedBy";
                         get (headerDataOf formData) "reportingLeader"])
    /\ (lookup "header" formData = None ->
          slide_data titleSlide = TitleData (JStr "") (JStr ""))
    /\ resolve template formData
       = (perSection <- mapiM (sectionContribution formData) 0
                              (template_sections template) ;;
          summary <- createSummarySlide template formData ;;
          Ok (titleSlide :: List.concat perSection ++ optionToList summary)%list)
    /\ (forall section i,
          section_id section = "header" \/ section_id section = "signatures" ->
          sectionContribution formData section i = Ok [])
    /\ (forall section i,
          section_id section <> "header" -> section_id section <> "signatures" ->
          sectionContribution formData section i
          = createSlidesForSection formData section i)
    /\ (forall slides,
          resolve template formData = Ok slides ->
          exists rest, slides = titleSlide :: rest).
Proof.
  destruct (createTitleSlide_some template formData)
    as (titleSlide & Ht & _ & Htitle & Hlayout & Hdata).
  exists titleSlide. split; [exact Hlayout|]. split; [exact Htitle|].
  split; [exact Hdata|].
  split; [intros Hno; rewrite Hdata; unfold headerDataOf; now rewrite Hno|].
  split; [now apply resolve_shape|].
  split; [|split].
  - intros section i [H|H]; unfold sectionContribution, isReserved; rewrite H.
    + reflexivity.
    + reflexivity.
  - intros section i H1 H2. unfold sectionContribution, isReserved.
    apply String.eqb_neq in H1, H2. now rewrite H1, H2.
  - intros slides Hr. rewrite (resolve_shape template formData titleSlide Ht) in Hr.
    destruct (mapiM _ 0 (template_sections template)) as [ps|e]; simpl in Hr;
      [|discriminate].
    destruct (createSummarySlide template formData) as [sm|e]; simpl in Hr;
      [|discriminate].
    injection Hr as <-. eexists. reflexivity.
Qed.

(** C8 at a concrete input: the deck of the nine-photo gallery. *)
Lemma titleSlideFirst_witness :
  exists titleSlide rest,
    slide_layout titleSlide = Layout_title
    /\ resolve galleryTemplate galleryData = Ok (titleSlide :: rest).
Proof.
  destruct (titleSlideFirst galleryTemplate galleryData)
    as (titleSlide & Hlayout & _ & _ & _ & _ & _ & _ & Hfirst).
  destruct (resolve galleryTemplate galleryData) as [slides|e] eqn:E;
    [|vm_compute in E; discriminate].
  destruct (Hfirst slides eq_refl) as [rest ->].
  now exists titleSlide, rest.
Defined.

(** ** Layouts of the section slides *)

Lemma forEachM_invariant {St A : Type} (P : St -> Prop)
  (f : St -> A -> nat -> Result St) :
  (forall acc x i acc', P acc -> f acc x i = Ok acc' -> P acc') ->
  forall l i acc out, P acc -> forEachM f i l acc = Ok out -> P out.
Proof.
  intros Hf. induction l as [|x r IH]; intros i acc out Hacc H; simpl in H.
  - now injection H as <-.
  - destruct (f acc x i) as [acc'|e] eqn:E; simpl in H; [|discriminate].
    eapply IH; [|exact H]. eapply Hf; eauto.
Qed.

Lemma noSummary_pages (mkSlide : list JsVal -> nat -> nat -> ResolvedSlide)
  (photos : list JsVal) :
  (forall p a b, isSummary (mkSlide p a b) = false) ->
  noSummary (pagesOf mkSlide photos).
Proof.
  intros H. unfold noSummary, pagesOf. apply Forall_forall. intros s Hs.
  apply in_map_iff in Hs. destruct Hs as (j & <- & _). apply H.
Qed.

Lemma createChartFromTable_slide (field : FormField) (tableData : list JsVal)
  (section : FormSection) (fieldIndex : nat) (c : ResolvedSlide) :
  createChartFromTable field tableData section fieldIndex = Ok (Some c) ->
  exists items, c = chartSlide field section fieldIndex items.
Proof.
  unfold createChartFromTable.
  destruct (field_columns field) as [headers|]; [|discriminate].
  destruct (List.length headers <? 2); [discriminate|].
  destruct (findValueColumn _ _ _) as [[v|]|e]; simpl; try discriminate.
  destruct (chartItems _ _ _ _) as [items|e]; simpl; [|discriminate].
  destruct (_ || _); [discriminate|].
  intros H. injection H as <-. now exists items.
Qed.

(** What the callback of [tables.forEach] pushes: nothing, or the table
    slide, then the chart slide if one is derived, then the photo pages of
    the rows. *)
Lemma tableFieldSlides_shape (section : FormSection) (sectionData : JsVal)
  (slides : list ResolvedSlide) (field : FormField) (fieldIndex : nat)
  (out : list ResolvedSlide) :
  tableFieldSlides section sectionData slides field fieldIndex = Ok out ->
  out = slides
  \/ exists tableData rows chart tablePhotos,
       get sectionData (field_id field) = JArr tableData
       /\ tableData <> []
       /\ mapM (fun row =>
                  mapiM (fun header idx => getColumnValueText row (Some header) idx)
                        0 (headersOf field)) tableData = Ok rows
       /\ createChartFromTable field tableData section fieldIndex = Ok chart
       /\ tablePhotosOf tableData = Ok tablePhotos
       /\ out = (slides
                 ++ tableSlide section field fieldIndex (headersOf field) rows
                    :: optionToList chart
                 ++ pagesOf (tablePhotoSlide section field fieldIndex) tablePhotos)%list.
Proof.
  unfold tableFieldSlides.
  destruct (get sectionData (field_id field)) as [| | | | |tableData|] eqn:Hget;
    try (intros H; injection H as <-; now left).
  destruct tableData as [|row0 rest]; [intros H; injection H as <-; now left|].
  destruct (mapM _ (row0 :: rest)) as [rows|e] eqn:Hrows; simpl; [|discriminate].
  destruct (createChartFromTable _ _ _ _) as [chart|e] eqn:Hchart; simpl; [|discriminate].
  destruct (tablePhotosOf _) as [tablePhotos|e] eqn:Hphotos; simpl; [|discriminate].
  intros H. right. exists (row0 :: rest), rows, chart, tablePhotos.
  repeat split; try assumption; try discriminate.
  destruct (Nat.ltb_spec 0 (List.length tablePhotos)) as [Hp|Hp];
    injection H as <-.
  - rewrite paginate_pages. destruct chart; simpl; now rewrite <- ?app_assoc.
  - destruct tablePhotos; [|simpl in Hp; lia].
    unfold pagesOf. simpl. rewrite app_nil_r.
    destruct chart; simpl; now rewrite <- ?app_assoc.
Qed.

Lemma tableFieldSlides_noSummary (section : FormSection) (sectionData : JsVal)
  (slides : list ResolvedSlide) (field : FormField) (fieldIndex : nat)
  (out : list ResolvedSlide) :
  noSummary slides ->
  tableFieldSlides section sectionData slides field fieldIndex = Ok out ->
  noSummary out.
Proof.
  intros Hs H. apply tableFieldSlides_shape in H.
  destruct H as [->|(tableData & rows & chart & photos & _ & _ & _ & Hc & _ & ->)];
    [exact Hs|].
  apply Forall_app. split; [exact Hs|]. constructor; [reflexivity|].
  apply Forall_app. split.
  - destruct chart as [c|]; simpl; [|constructor].
    apply createChartFromTable_slide in Hc. destruct Hc as [items ->].
    constructor; [reflexivity | constructor].
  - now apply noSummary_pages.
Qed.

Lemma bulletFieldSlides_noSummary (section : FormSection) (sectionData : JsVal)
  (slides : list ResolvedSlide) (field : FormField) (fieldIndex : nat)
  (out : list ResolvedSlide) :
  noSummary slides ->
  bulletFieldSlides section sectionData slides field fieldIndex = Ok out ->
  noSummary out.
Proof.
  intros Hs. unfold bulletFieldSlides.
  destruct (get sectionData (field_id field)); try (intros H; now injection H as <-).
  destruct (_ =? 0); intros H; injection H as <-; [exact Hs|].
  apply Forall_app. split; [exact Hs|]. now repeat constructor.
Qed.

Lemma photoFieldSlides_noSummary (section : FormSection) (sectionData : JsVal)
  (slides : list ResolvedSlide) (field : FormField) (fieldIndex : nat)
  (out : list ResolvedSlide) :
  noSummary slides ->
  photoFieldSlides section sectionData slides field fieldIndex = Ok out ->
  noSummary out.
Proof.
  intros Hs. unfold photoFieldSlides.
  destruct (get sectionData (field_id field)) as [| | | | |photoData|];
    try (intros H; now injection H as <-).
  destruct photoData; intros H; injection H as <-; [exact Hs|].
  rewrite paginate_pages. apply Forall_app. split; [exact Hs|].
  now apply noSummary_pages.
Qed.

Lemma createSlidesForSection_noSummary (formData : list (string * JsVal))
  (section : FormSection) (i : nat) (out : list ResolvedSlide) :
  createSlidesForSection formData section i = Ok out -> noSummary out.
Proof.
  unfold createSlidesForSection.
  destruct (forEachM (tableFieldSlides _ _) 0 _ []) as [s1|e] eqn:E1; simpl; [|discriminate].
  destruct (forEachM (bulletFieldSlides _ _) 0 _ s1) as [s2|e] eqn:E2; simpl; [|discriminate].
  destruct (forEachM (photoFieldSlides _ _) 0 _ s2) as [s3|e] eqn:E3; simpl; [|discriminate].
  intros H. injection H as <-.
  assert (H1 : noSummary s1).
  { eapply (forEachM_invariant noSummary); [|constructor|exact E1].
    intros acc x j acc'. apply tableFieldSlides_noSummary. }
  assert (H2 : noSummary s2).
  { eapply (forEachM_invariant noSummary); [|exact H1|exact E2].
    intros acc x j acc'. apply bulletFieldSlides_noSummary. }
  assert (H3 : noSummary s3).
  { eapply (forEachM_invariant noSummary); [|exact H2|exact E3].
    intros acc x j acc'. apply photoFieldSlides_noSummary. }
  unfold textSummarySlides.
  destruct (0 <? _); [|exact H3]. destruct (0 <? _); [|exact H3].
  apply Forall_app. split; [exact H3|]. now repeat constructor.
Qed.

Lemma sectionContributions_noSummary (formData : list (string * JsVal)) :
  forall sections i perSection,
    mapiM (sectionContribution formData) i sections = Ok perSection ->
    noSummary (List.concat perSection).
Proof.
  induction sections as [|sec r IH]; intros i perSection H; simpl in H.
  - injection H as <-. constructor.
  - destruct (sectionContribution formData sec i) as [ss|e] eqn:E;
      simpl in H; [|discriminate].
    destruct (mapiM _ (S i) r) as [rest|e] eqn:Er; simpl in H; [|discriminate].
    injection H as <-. simpl. apply Forall_app. split; [|now apply (IH (S i))].
    unfold sectionContribution in E. destruct (isReserved sec).
    + injection E as <-. constructor.
    + now apply createSlidesForSection_noSummary in E.
Qed.

(** ** The executive summary *)

Lemma slice_all {A : Type} (l : list A) (n : nat) :
  List.length l <= n -> slice 0 n l = l.
Proof.
  intros H. unfold slice. rewrite Nat.sub_0_r. simpl. now apply firstn_all2.
Qed.

(** C1 (as amended).  Let the KPI scan collect [kpis] and let [resolve]
    return [slides].  When there are two, three or four KPIs the last
    slide is the summary slide, it carries exactly those KPIs in discovery
    order, and no other slide is a summary.  When there are fewer than two
    or more than four KPIs, no slide of the deck is a summary: five or
    more KPIs are not truncated to four, the slide is left out. *)
Theorem summaryGating (template : ReportTemplate) (formData : list (string * JsVal))
  (kpis : list Kpi) (slides : list ResolvedSlide) :
  collectKpis template formData = Ok kpis ->
  resolve template formData = Ok slides ->
  (2 <= List.length kpis <= 4 ->
     exists front summary,
       slides = (front ++ [summary])%list
       /\ noSummary front
       /\ slide_layout summary = Layout_summary
       /\ slide_title summary = "Executive Summary"
       /\ slide_data summary = KpisData kpis)
  /\ (List.length kpis < 2 \/ 4 < List.length kpis -> noSummary slides).
Proof.
  intros Hk Hr.
  destruct (createTitleSlide_some template formData)
    as (titleSlide & Ht & _ & _ & Hlayout & _).
  rewrite (resolve_shape template formData titleSlide Ht) in Hr.
  destruct (mapiM _ 0 (template_sections template)) as [ps|e] eqn:Ep; simpl in Hr;
    [|discriminate].
  apply sectionContributions_noSummary in Ep.
  unfold createSummarySlide in Hr. rewrite Hk in Hr. cbn [bind] in Hr.
  assert (Hfront : noSummary (titleSlide :: List.concat ps)).
  { constructor; [|exact Ep]. unfold isSummary. now rewrite Hlayout. }
  split.
  - intros [H2 H4].
    apply Nat.leb_le in H2, H4. rewrite H2, H4 in Hr. cbn [andb bind optionToList] in Hr.
    injection Hr as <-.
    exists (titleSlide :: List.concat ps), (summarySlide template kpis).
    repeat split; try assumption.
    unfold summarySlide. simpl. f_equal. apply slice_all. now apply Nat.leb_le.
  - intros Hout.
    assert (Hg : (2 <=? List.length kpis) && (List.length kpis <=? 4) = false).
    { apply andb_false_iff. destruct Hout as [H|H].
      - left. apply Nat.leb_gt. exact H.
      - right. apply Nat.leb_gt. exact H. }
    rewrite Hg in Hr. cbn [bind optionToList] in Hr. injection Hr as <-.
    now rewrite app_nil_r.
Qed.

(** C1 at a concrete input: two tables with a total row each. *)
Lemma summaryGating_witness :
  exists kpis slides,
    collectKpis totalsTemplate (totalsData 2) = Ok kpis
    /\ resolve totalsTemplate (totalsData 2) = Ok slides
    /\ List.length kpis = 2
    /\ exists front summary,
         slides = (front ++ [summary])%list /\ slide_data summary = KpisData kpis.
Proof.
  destruct (collectKpis totalsTemplate (totalsData 2)) as [kpis|e] eqn:Hk;
    [|vm_compute in Hk; discriminate].
  destruct (resolve totalsTemplate (totalsData 2)) as [slides|e] eqn:Hr;
    [|vm_compute in Hr; discriminate].
  assert (Hlen : List.length kpis = 2)
    by (vm_compute in Hk; injection Hk as <-; reflexivity).
  exists kpis, slides. split; [reflexivity|]. split; [reflexivity|].
  split; [exact Hlen|].
  destruct (summaryGating totalsTemplate (totalsData 2) kpis slides Hk Hr) as [H _].
  destruct H as (front & summary & H1 & _ & _ & _ & H2); [lia|].
  now exists front, summary.
Defined.

(** C1, an input on which the claim as stated fails: the scan collects
    five KPIs and the deck has no summary slide, where the claim announces
    a summary slide with the first four. *)
Lemma summaryGating_counterexample :
  exists kpis slides,
    collectKpis totalsTemplate (totalsData 5) = Ok kpis
    /\ List.length kpis = 5
    /\ resolve totalsTemplate (totalsData 5) = Ok slides
    /\ forallb (fun s => negb (isSummary s)) slides = true.
Proof.
  eexists. eexists. split; [vm_compute; reflexivity|].
  split; [reflexivity|]. split; [vm_compute; reflexivity|]. reflexivity.
Qed.

(** ** One KPI per table *)

Lemma findM_some {A : Type} (f : A -> Result bool) :
  forall l x,
    findM f l = Ok (Some x) ->
    exists before after,
      l = (before ++ x :: after)%list
      /\ f x = Ok true
      /\ forall y, In y before -> f y = Ok false.
Proof.
  induction l as [|a r IH]; intros x H; simpl in H; [discriminate|].
  destruct (f a) as [[|]|e] eqn:E; simpl in H; try discriminate.
  - injection H as <-. exists [], r. repeat split; [exact E | intros y []].
  - destruct (IH x H) as (before & after & -> & Hx & Hb).
    exists (a :: before), after. repeat split; [exact Hx|].
    intros y [<-|Hy]; [exact E | now apply Hb].
Qed.

Lemma isTotalRow_text (headers : list string) (row : JsVal) (b : bool) :
  isTotalRow headers row = Ok b ->
  exists text, firstColumnText headers row text /\ mentionsTotal text = b.
Proof.
  unfold isTotalRow, firstColumnText, mentionsTotal.
  destruct (getColumnValue row (nth_error headers 0) 0) as [v|e]; simpl; [|discriminate].
  intros H. injection H as <-. eexists. split; [exists v; split; reflexivity|reflexivity].
Qed.

(** The loop over the columns of the total row pushes nothing, or one KPI
    read from the first column of [rest] whose cell is numeric. *)
Lemma firstNumericKpi_shape (field : FormField) (totalRow : JsVal) :
  forall rest i kpis out,
    firstNumericKpi field totalRow rest i kpis = Ok out ->
    out = kpis
    \/ exists skipped h later v,
         rest = (skipped ++ h :: later)%list
         /\ getColumnValue totalRow (Some h) (i + List.length skipped) = Ok v
         /\ isNaN (normalizeNumber v) = false
         /\ (forall j h', nth_error skipped j = Some h' ->
               exists v', getColumnValue totalRow (Some h') (i + j) = Ok v'
                          /\ isNaN (normalizeNumber v') = true)
         /\ out = (kpis ++ [{| kpi_value := normalizeNumber v;
                               kpi_label := orString (field_label field) h |}])%list.
Proof.
  induction rest as [|h r IH]; intros i kpis out H; simpl in H.
  - left. now injection H as <-.
  - destruct (getColumnValue totalRow (Some h) i) as [v|e] eqn:Ev; simpl in H;
      [|discriminate].
    destruct (isNaN (normalizeNumber v)) eqn:En; simpl in H.
    + destruct (IH (S i) kpis out H)
        as [->|(skipped & h1 & later & v1 & -> & Hv1 & Hn1 & Hsk & ->)]; [now left|].
      right. exists (h :: skipped), h1, later, v1. repeat split.
      * simpl. now rewrite Nat.add_succ_r.
      * exact Hn1.
      * intros [|j] h' Hj; simpl in Hj.
        -- injection Hj as <-. rewrite Nat.add_0_r. now exists v.
        -- rewrite Nat.add_succ_r. now apply Hsk.
    + injection H as <-. right. exists [], h, r, v. repeat split.
      * simpl. now rewrite Nat.add_0_r.
      * exact En.
      * intros [|j] h' Hj; discriminate.
Qed.

Lemma nth_error_skipn1 {A : Type} (l : list A) (j : nat) :
  nth_error (skipn 1 l) j = nth_error l (1 + j).
Proof. destruct l; [now destruct j | reflexivity]. Qed.

Lemma forEachM_length {St A : Type} (size : St -> nat) (weight : A -> nat)
  (f : St -> A -> nat -> Result St) :
  (forall acc x i acc', f acc x i = Ok acc' -> size acc' <= size acc + weight x) ->
  forall l i acc out,
    forEachM f i l acc = Ok out ->
    size out <= size acc + list_sum (map weight l).
Proof.
  intros Hf. induction l as [|x r IH]; intros i acc out H; simpl in H.
  - injection H as <-. simpl. lia.
  - destruct (f acc x i) as [acc'|e] eqn:E; simpl in H; [|discriminate].
    apply Hf in E. apply IH in H. simpl. lia.
Qed.

Lemma summaryFieldKpis_length (sectionData : JsVal) (kpis : list Kpi)
  (field : FormField) (fieldIndex : nat) (out : list Kpi) :
  summaryFieldKpis sectionData kpis field fieldIndex = Ok out ->
  List.length out <= List.length kpis + (if hasType TABLE field then 1 else 0).
Proof.
  unfold summaryFieldKpis, hasType.
  destruct (field_type field); simpl;
    try (intros H; injection H as <-; lia).
  destruct (field_columns field) as [headers|]; [|intros H; injection H as <-; lia].
  destruct (get sectionData (field_id field)) as [| | | | |tableData|];
    try (intros H; injection H as <-; lia).
  destruct (findM _ tableData) as [[row|]|e]; simpl;
    try discriminate; try (intros H; injection H as <-; lia).
  destruct (truthy row); [|intros H; injection H as <-; lia].
  intros H. apply firstNumericKpi_shape in H.
  destruct H as [->|(? & ? & ? & ? & _ & _ & _ & _ & ->)]; [lia|].
  rewrite length_app. simpl. lia.
Qed.

Lemma list_sum_table_weight (fields : list FormField) :
  list_sum (map (fun f => if hasType TABLE f then 1 else 0) fields)
  = List.length (filter (hasType TABLE) fields).
Proof.
  induction fields as [|f r IH]; simpl; [reflexivity|].
  destruct (hasType TABLE f); simpl; now rewrite IH.
Qed.

Lemma collectKpis_length (template : ReportTemplate) (formData : list (string * JsVal))
  (kpis : list Kpi) :
  collectKpis template formData = Ok kpis ->
  List.length kpis <= List.length (scannedTables template).
Proof.
  unfold collectKpis, scannedTables. intros H.
  apply (forEachM_length (@List.length Kpi)
           (fun section =>
              List.length (if isReserved section then []
                           else filter (hasType TABLE) (section_fields section)))) in H.
  - simpl in H. rewrite flat_map_concat_map, length_concat, map_map. exact H.
  - intros acc sec i acc'. unfold summarySectionKpis.
    destruct (isReserved sec); [intros E; injection E as <-; simpl; lia|].
    intros E.
    apply (forEachM_length (@List.length Kpi)
             (fun f => if hasType TABLE f then 1 else 0)) in E.
    + now rewrite list_sum_table_weight in E.
    + intros a f j a'. apply summaryFieldKpis_length.
Qed.

(** C10.  For one table field the summary scan pushes no KPI or exactly
    one.  When it pushes one, the row it comes from is the first row of
    the stored table whose first-column text mentions "total", "surplus"
    or "deficit" in any case; its value is the number in the first column
    after the first one, in declared order, whose cell normalizes to a
    number, the columns before it not being numeric; its label is the
    field label, or the header of that column when the label is empty.
    Later rows and later columns add nothing, so the whole scan collects
    at most as many KPIs as there are table fields outside the [header]
    and [signatures] sections.  A table with the rows "Subtotal" and
    "Grand Total", both with numeric cells, yields the single KPI of the
    "Subtotal" row. *)
Theorem oneKpiPerTable :
  (forall sectionData kpis field fieldIndex out,
     summaryFieldKpis sectionData kpis field fieldIndex = Ok out ->
     out = kpis
     \/ exists headers tableData before row after c h x,
          field_type field = TABLE
          /\ field_columns field = Some headers
          /\ get sectionData (field_id field) = JArr tableData
          /\ tableData = (before ++ row :: after)%list
          /\ (exists text, firstColumnText headers row text /\ mentionsTotal text = true)
          /\ (forall r, In r before ->
                exists text, firstColumnText headers r text /\ mentionsTotal text = false)
          /\ 1 <= c
          /\ nth_error headers c = Some h
          /\ cellNumber headers row c x
          /\ isNaN x = false
          /\ (forall j, 1 <= j < c ->
                exists y, cellNumber headers row j y /\ isNaN y = true)
          /\ out = (kpis ++ [{| kpi_value := x;
                                kpi_label := orString (field_label field) h |}])%list) /\
  (forall template formData kpis,
     collectKpis template formData = Ok kpis ->
     List.length kpis <= List.length (scannedTables template)) /\
  (exists x,
     summaryFieldKpis (JObj [("t", JArr twoTotalsRows)]) [] twoTotalsField 0
     = Ok [{| kpi_value := x; kpi_label := "Actual" |}]
     /\ exactly x 7 1).
Proof.
  split; [|split; [exact collectKpis_length|]].
  - intros sectionData kpis field fieldIndex out H.
    unfold summaryFieldKpis in H.
    destruct (field_type field) eqn:Ety;
      try (injection H as <-; now left).
    destruct (field_columns field) as [headers|] eqn:Ecol;
      [|injection H as <-; now left].
    destruct (get sectionData (field_id field)) as [| | | | |tableData|] eqn:Eget;
      try (injection H as <-; now left).
    destruct (findM (isTotalRow headers) tableData) as [[row|]|e] eqn:Efind;
      cbn [bind] in H; try discriminate; [|injection H as <-; now left].
    destruct (truthy row); [|injection H as <-; now left].
    apply firstNumericKpi_shape in H.
    destruct H as [->|(skipped & h & later & v & Hrest & Hv & Hn & Hsk & ->)];
      [now left|].
    right. apply findM_some in Efind.
    destruct Efind as (before & after & -> & Hrow & Hbefore).
    assert (Hh : nth_error headers (1 + List.length skipped) = Some h).
    { rewrite <- nth_error_skipn1, Hrest, nth_error_app2 by lia.
      now rewrite Nat.sub_diag. }
    exists headers, (before ++ row :: after)%list, before, row, after,
      (1 + List.length skipped), h, (normalizeNumber v).
    repeat split; try assumption; try reflexivity.
    + now apply isTotalRow_text.
    + intros r Hr. apply isTotalRow_text. now apply Hbefore.
    + lia.
    + exists h, v. repeat split; assumption.
    + intros j [Hj1 Hj2].
      assert (Hj : j - 1 < List.length skipped) by lia.
      destruct (nth_error skipped (j - 1)) as [h'|] eqn:Eh;
        [|apply nth_error_None in Eh; lia].
      destruct (Hsk (j - 1) h' Eh) as (v' & Hv' & Hn').
      replace (1 + (j - 1)) with j in Hv' by lia.
      exists (normalizeNumber v'). split; [|exact Hn'].
      exists h', v'. repeat split; [|exact Hv'].
      replace j with (1 + (j - 1)) by lia.
      rewrite <- nth_error_skipn1, Hrest, nth_error_app1 by lia. exact Eh.
  - eexists. split; [vm_compute; reflexivity | vm_compute; reflexivity].
Qed.

(** C10 at a concrete table: the rows "Subtotal" and "Grand Total". *)
Lemma oneKpiPerTable_witness :
  exists out,
    summaryFieldKpis (JObj [("t", JArr twoTotalsRows)]) [] twoTotalsField 0 = Ok out
    /\ List.length out = 1.
Proof.
  destruct (summaryFieldKpis (JObj [("t", JArr twoTotalsRows)]) [] twoTotalsField 0)
    as [out|e] eqn:E; [|vm_compute in E; discriminate].
  exists out. split; [reflexivity|].
  destruct (proj1 oneKpiPerTable _ _ _ _ _ E)
    as [->|(? & ? & ? & ? & ? & ? & ? & ? & _ & _ & _ & _ & _ & _ & _ & _ & _ & _ & _ & ->)].
  - vm_compute in E. discriminate.
  - reflexivity.
Defined.

(** ** Chart derivation *)

Lemma getColumnValue_total (row : JsVal) (h : string) (i : nat) :
  isNullish row = false -> exists v, getColumnValue row (Some h) i = Ok v.
Proof.
  intros Hn. unfold getColumnValue, hasOwnProperty. rewrite Hn. simpl.
  destruct (getOwn row h); [eexists; reflexivity|].
  destruct (truthyKey _); [eexists; reflexivity|].
  destruct (nth_error _ i); eexists; reflexivity.
Qed.

Lemma getColumnValueText_total (row : JsVal) (h : string) (i : nat) :
  isNullish row = false -> exists v, getColumnValueText row (Some h) i = Ok v.
Proof.
  intros Hn. rewrite getColumnValueText_raw.
  destruct (getColumnValue_total row h i Hn) as [v ->]. eexists. reflexivity.
Qed.

Lemma mapM_total {A B : Type} (f : A -> Result B) (l : list A) :
  (forall x, In x l -> exists y, f x = Ok y) ->
  exists ys, mapM f l = Ok ys /\ Forall2 (fun x y => f x = Ok y) l ys.
Proof.
  induction l as [|a r IH]; intros H; simpl.
  - exists []. split; [reflexivity | constructor].
  - destruct (H a (or_introl eq_refl)) as [y Hy].
    destruct IH as (ys & Hys & HF); [intros x Hx; apply H; now right|].
    exists (y :: ys). rewrite Hy, Hys. split; [reflexivity | now constructor].
Qed.

Lemma mapiM_total {A B : Type} (f : A -> nat -> Result B) (l : list A) :
  (forall x i, exists y, f x i = Ok y) ->
  forall i, exists ys, mapiM f i l = Ok ys.
Proof.
  intros H. induction l as [|a r IH]; intros i; simpl.
  - now exists [].
  - destruct (H a i) as [y ->]. destruct (IH (S i)) as [ys ->].
    eexists. reflexivity.
Qed.

Lemma someM_total {A : Type} (f : A -> Result bool) (l : list A) :
  (forall x, In x l -> exists b, f x = Ok b) ->
  exists b,
    someM f l = Ok b
    /\ (b = true -> exists x, In x l /\ f x = Ok true)
    /\ (b = false -> forall x, In x l -> f x = Ok false).
Proof.
  induction l as [|a r IH]; intros H; simpl.
  - exists false. repeat split; [discriminate | intros _ x []].
  - destruct (H a (or_introl eq_refl)) as [[|] Ha]; rewrite Ha; simpl.
    + exists true. repeat split; [|discriminate].
      intros _. exists a. split; [now left | exact Ha].
    + destruct IH as (b & Hb & Ht & Hf); [intros x Hx; apply H; now right|].
      exists b. split; [exact Hb|]. split.
      * intros E. destruct (Ht E) as (x & Hx & Hfx). exists x. split; [now right|exact Hfx].
      * intros E x [<-|Hx]; [exact Ha | now apply Hf].
Qed.

Lemma isNumericCell_isNaN (v : JsVal) :
  isNumericCell v = negb (isNaN (normalizeNumber v)).
Proof.
  unfold isNumericCell, normalizeNumber. now destruct (isNullish v).
Qed.

(** The search for the value column stops at the first column, from the
    second one on, in which some row holds a number. *)
Lemma findValueColumn_spec (headers : list string) (tableData : list JsVal) :
  Forall (fun row => isNullish row = false) tableData ->
  forall rest i,
    (forall j, nth_error rest j = nth_error headers (i + j)) ->
    exists valueColumn,
      findValueColumn tableData rest i = Ok valueColumn
      /\ match valueColumn with
         | Some c =>
             i <= c < i + List.length rest
             /\ numericAt headers tableData c
             /\ forall j, i <= j < c -> nonNumericAt headers tableData j
         | None =>
             forall j, i <= j < i + List.length rest -> nonNumericAt headers tableData j
         end.
Proof.
  intros Hrows. induction rest as [|h r IH]; intros i Hnth; simpl.
  - exists None. split; [reflexivity|]. intros j Hj. lia.
  - assert (Hh : nth_error headers i = Some h).
    { rewrite <- (Nat.add_0_r i), <- Hnth. reflexivity. }
    destruct (someM_total
                (fun row => v <- getColumnValue row (Some h) i ;; Ok (isNumericCell v))
                tableData) as (b & Hb & Ht & Hf).
    { intros row Hrow. rewrite Forall_forall in Hrows.
      destruct (getColumnValue_total row h i (Hrows row Hrow)) as [v ->].
      eexists. reflexivity. }
    rewrite Hb. simpl. destruct b.
    + exists (Some i). split; [reflexivity|]. split; [lia|]. split; [|intros j Hj; lia].
      destruct (Ht eq_refl) as (row & Hrow & Hv).
      destruct (getColumnValue row (Some h) i) as [v|e] eqn:Ev; simpl in Hv;
        [|discriminate].
      injection Hv as Hv. rewrite isNumericCell_isNaN in Hv.
      exists row, (normalizeNumber v). split; [exact Hrow|]. split.
      * now exists h, v.
      * now destruct (isNaN (normalizeNumber v)).
    + assert (Hi : nonNumericAt headers tableData i).
      { intros row Hrow. specialize (Hf eq_refl row Hrow).
        destruct (getColumnValue row (Some h) i) as [v|e] eqn:Ev; simpl in Hf;
          [|discriminate].
        injection Hf as Hf. rewrite isNumericCell_isNaN in Hf.
        exists (normalizeNumber v). split; [now exists h, v|].
        now destruct (isNaN (normalizeNumber v)). }
      destruct (IH (S i)) as (vc & Hvc & Hspec).
      { intros j. rewrite Nat.add_succ_l, <- Nat.add_succ_r. apply (Hnth (S j)). }
      exists vc. split; [exact Hvc|]. destruct vc as [c|].
      * destruct Hspec as (Hc & Hnum & Hbefore). split; [lia|]. split; [exact Hnum|].
        intros j Hj. destruct (Nat.eq_dec j i) as [->|Hne]; [exact Hi|].
        apply Hbefore. lia.
      * intros j Hj. destruct (Nat.eq_dec j i) as [->|Hne]; [exact Hi|].
        apply Hspec. lia.
Qed.

Lemma keepChartItem_chartable (p : ChartItem) :
  keepChartItem p = true <-> chartable p.
Proof.
  unfold keepChartItem, chartable. rewrite !andb_true_iff, !negb_true_iff.
  rewrite !String.eqb_neq.
  destruct (item_label p) as [|c r]; simpl; intuition congruence.
Qed.

Lemma chartItems_spec (headers : list string) (tableData : list JsVal) (c : nat)
  (h0 hc : string) :
  Forall (fun row => isNullish row = false) tableData ->
  nth_error headers 0 = Some h0 -> nth_error headers c = Some hc ->
  exists raw,
    Forall2 (pairOfRow headers c) tableData raw
    /\ chartItems headers tableData 0 c = Ok (filter keepChartItem raw).
Proof.
  intros Hrows H0 Hc. unfold chartItems. rewrite H0, Hc.
  induction tableData as [|row r IH]; simpl.
  - exists []. split; [constructor | reflexivity].
  - inversion Hrows as [|? ? Hrow Hr]; subst.
    destruct (getColumnValue_total row h0 0 Hrow) as [l Hl].
    destruct (getColumnValue_total row hc c Hrow) as [v Hv].
    destruct (IH Hr) as (raw & HF & Hraw).
    rewrite Hl, Hv. simpl.
    destruct (mapM _ r) as [items|e]; simpl in Hraw |- *; [|discriminate].
    injection Hraw as Hraw.
    exists ({| item_label := toString (coalesce l (JStr ""));
               item_value := normalizeNumber v |} :: raw).
    split.
    + constructor; [|exact HF]. split; simpl.
      * exists l. rewrite H0. now split.
      * now exists hc, v.
    + simpl. destruct (keepChartItem _); now rewrite Hraw.
Qed.

Lemma tablePhotosOf_total (tableData : list JsVal) :
  Forall (fun row => isNullish row = false) tableData ->
  exists photos, tablePhotosOf tableData = Ok photos.
Proof.
  intros Hrows. unfold tablePhotosOf.
  destruct (mapM_total
              (fun row => p <- getMember row "photos" ;; Ok (flatten1 (orElse p (JArr []))))
              tableData) as (perRow & -> & _).
  - intros row Hrow. rewrite Forall_forall in Hrows.
    unfold getMember. rewrite (Hrows row Hrow). eexists. reflexivity.
  - eexists. reflexivity.
Qed.

Lemma tableRows_total (headers : list string) (tableData : list JsVal) :
  Forall (fun row => isNullish row = false) tableData ->
  exists rows,
    mapM (fun row =>
            mapiM (fun header idx => getColumnValueText row (Some header) idx) 0 headers)
         tableData = Ok rows
    /\ Forall2 (fun row cells =>
                  mapiM (fun header idx => getColumnValueText row (Some header) idx)
                        0 headers = Ok cells) tableData rows.
Proof.
  intros Hrows. apply mapM_total.
  intros row Hrow. rewrite Forall_forall in Hrows. apply mapiM_total.
  intros h i. now apply getColumnValueText_total, Hrows.
Qed.

Lemma photoPages_layout (section : FormSection) (field : FormField) (fieldIndex : nat)
  (photos : list JsVal) :
  Forall (fun s => slide_layout s = Layout_photoGrid)
         (pagesOf (tablePhotoSlide section field fieldIndex) photos).
Proof.
  apply Forall_forall. intros s Hs. unfold pagesOf in Hs.
  apply in_map_iff in Hs. now destruct Hs as (j & <- & _).
Qed.

(** The callback of [tables.forEach] on a stored table that is not empty,
    from the results of its three steps. *)
Lemma tableFieldSlides_steps (section : FormSection) (sectionData : JsVal)
  (slides : list ResolvedSlide) (field : FormField) (fieldIndex : nat)
  (tableData : list JsVal) (rows : list (list string))
  (chart : option ResolvedSlide) (tablePhotos : list JsVal) :
  get sectionData (field_id field) = JArr tableData ->
  tableData <> [] ->
  mapM (fun row =>
          mapiM (fun header idx => getColumnValueText row (Some header) idx)
                0 (headersOf field)) tableData = Ok rows ->
  createChartFromTable field tableData section fieldIndex = Ok chart ->
  tablePhotosOf tableData = Ok tablePhotos ->
  tableFieldSlides section sectionData slides field fieldIndex
  = Ok (slides
        ++ tableSlide section field fieldIndex (headersOf field) rows
           :: optionToList chart
        ++ pagesOf (tablePhotoSlide section field fieldIndex) tablePhotos)%list.
Proof.
  intros Hget Hne Hrows Hchart Hphotos. unfold tableFieldSlides. rewrite Hget.
  destruct tableData as [|row0 rest]; [congruence|].
  rewrite Hrows, Hchart, Hphotos. cbn [bind].
  destruct (Nat.ltb_spec 0 (List.length tablePhotos)) as [Hp|Hp].
  - rewrite paginate_pages. destruct chart; simpl; now rewrite <- ?app_assoc.
  - destruct tablePhotos; [|simpl in Hp; lia].
    unfold pagesOf. simpl. rewrite app_nil_r.
    destruct chart; simpl; now rewrite <- ?app_assoc.
Qed.

Lemma cellNumber_functional (headers : list string) (row : JsVal) (c : nat)
  (x y : number) :
  cellNumber headers row c x -> cellNumber headers row c y -> x = y.
Proof.
  intros (h & v & Hh & Hv & ->) (h' & v' & Hh' & Hv' & ->). congruence.
Qed.

Lemma numeric_not_nonNumeric (headers : list string) (tableData : list JsVal) (c : nat) :
  numericAt headers tableData c -> nonNumericAt headers tableData c -> False.
Proof.
  intros (row & x & Hrow & Hx & Hn) Hnon.
  destruct (Hnon row Hrow) as (y & Hy & Hny).
  rewrite (cellNumber_functional _ _ _ _ _ Hx Hy) in Hn. congruence.
Qed.

Lemma createChartFromTable_steps (field : FormField) (tableData : list JsVal)
  (section : FormSection) (fieldIndex : nat) (headers : list string)
  (valueColumn : option nat) :
  field_columns field = Some headers ->
  2 <= List.length headers ->
  findValueColumn tableData (skipn 1 headers) 1 = Ok valueColumn ->
  match valueColumn with
  | None => createChartFromTable field tableData section fieldIndex = Ok None
  | Some c =>
      forall pairs,
        chartItems headers tableData 0 c = Ok pairs ->
        createChartFromTable field tableData section fieldIndex
        = Ok (if (List.length pairs =? 0)
                 || forallb (fun item => isZero (item_value item)) pairs
              then None
              else Some (chartSlide field section fieldIndex pairs))
  end.
Proof.
  intros Hcol Hlen Hvc. unfold createChartFromTable. rewrite Hcol.
  destruct (Nat.ltb_spec (List.length headers) 2) as [H|_]; [lia|].
  rewrite Hvc. cbn [bind]. destruct valueColumn as [c|]; [|reflexivity].
  intros pairs Hp. rewrite Hp. cbn [bind]. now destruct (_ || _).
Qed.

Lemma createChartFromTable_total (field : FormField) (tableData : list JsVal)
  (section : FormSection) (fieldIndex : nat) :
  Forall (fun row => isNullish row = false) tableData ->
  exists chart, createChartFromTable field tableData section fieldIndex = Ok chart.
Proof.
  intros Hrows. unfold createChartFromTable.
  destruct (field_columns field) as [headers|]; [|now exists None].
  destruct (Nat.ltb_spec (List.length headers) 2) as [Hlt|Hge]; [now exists None|].
  destruct (findValueColumn_spec headers tableData Hrows (skipn 1 headers) 1)
    as (vc & -> & Hspec); [intros j; apply nth_error_skipn1|].
  cbn [bind]. destruct vc as [c|]; [|now exists None].
  destruct Hspec as (Hc & _ & _). rewrite length_skipn in Hc.
  destruct (nth_error headers 0) as [h0|] eqn:E0; [|apply nth_error_None in E0; lia].
  destruct (nth_error headers c) as [hc|] eqn:Ec; [|apply nth_error_None in Ec; lia].
  destruct (chartItems_spec headers tableData c h0 hc Hrows E0 Ec) as (raw & _ & ->).
  cbn [bind]. destruct (_ || _); eexists; reflexivity.
Qed.

(** ** The end-to-end scenario *)

Lemma get_singleton (k : string) (v : JsVal) : get (JObj [(k, v)]) k = v.
Proof. unfold get, getOwn, lookup. now rewrite String.eqb_refl. Qed.

Lemma scenario_section (finTitle fieldId fieldLabel : string) (i : nat) :
  createSlidesForSection (scenarioData fieldId)
    (scenarioFinancial finTitle fieldId fieldLabel) i
  = Ok [tableSlide (scenarioFinancial finTitle fieldId fieldLabel)
                   (scenarioField fieldId fieldLabel) 0 ["Item"; "Amount"]
                   [["Offerings"; "$1,200"]; ["Total"; "$1,200"]];
        chartSlide (scenarioField fieldId fieldLabel)
                   (scenarioFinancial finTitle fieldId fieldLabel) 0
                   [{| item_label := "Offerings"; item_value := ofNat 1200 |}]].
Proof.
  unfold createSlidesForSection.
  change (orElse (get (JObj (scenarioData fieldId))
                      (section_id (scenarioFinancial finTitle fieldId fieldLabel)))
                 (JObj []))
    with (JObj [(fieldId, JArr scenarioRows)]).
  change (filter (hasType TABLE)
                 (section_fields (scenarioFinancial finTitle fieldId fieldLabel)))
    with [scenarioField fieldId fieldLabel].
  change (filter (hasType BULLET)
                 (section_fields (scenarioFinancial finTitle fieldId fieldLabel)))
    with (@nil FormField).
  change (filter (hasType PHOTOS)
                 (section_fields (scenarioFinancial finTitle fieldId fieldLabel)))
    with (@nil FormField).
  change (filter isTextField
                 (section_fields (scenarioFinancial finTitle fieldId fieldLabel)))
    with (@nil FormField).
  cbn [forEachM].
  rewrite (tableFieldSlides_steps _ _ [] _ 0 scenarioRows
             [["Offerings"; "$1,200"]; ["Total"; "$1,200"]]
             (Some (chartSlide (scenarioField fieldId fieldLabel)
                        (scenarioFinancial finTitle fieldId fieldLabel) 0
                        [{| item_label := "Offerings"; item_value := ofNat 1200 |}])) []).
  - reflexivity.
  - apply get_singleton.
  - discriminate.
  - vm_compute. reflexivity.
  - vm_compute. reflexivity.
  - vm_compute. reflexivity.
Qed.

Lemma scenario_kpis (key name title headerTitle : string)
  (headerFields : list FormField) (finTitle fieldId fieldLabel : string) :
  collectKpis (scenarioTemplate key name title headerTitle headerFields
                                finTitle fieldId fieldLabel)
              (scenarioData fieldId)
  = Ok [{| kpi_value := ofNat 1200; kpi_label := orString fieldLabel "Amount" |}].
Proof.
  unfold collectKpis.
  cbn [scenarioTemplate template_sections forEachM].
  unfold summarySectionKpis at 1.
  change (isReserved {| section_id := "header"; section_title := headerTitle;
                        section_fields := headerFields |}) with true.
  cbv iota. cbn [bind].
  unfold summarySectionKpis at 1.
  change (isReserved (scenarioFinancial finTitle fieldId fieldLabel)) with false.
  cbv iota.
  change (orElse (get (JObj (scenarioData fieldId))
                      (section_id (scenarioFinancial finTitle fieldId fieldLabel)))
                 (JObj []))
    with (JObj [(fieldId, JArr scenarioRows)]).
  cbn [scenarioFinancial section_fields forEachM].
  unfold summaryFieldKpis.
  cbn [scenarioField field_type field_columns field_id].
  rewrite get_singleton.
  vm_compute. reflexivity.
Qed.

(** C3 (as amended).  In the scenario (a [header] section with quarter
    "Q1 2025" and preparer "Jane Doe", a [financial] section with one
    table field of headers Item and Amount and the rows Offerings $1,200
    and Total $1,200), whatever the titles, key, field id and label,
    [resolve] returns exactly three slides: the title slide (template
    title, subtitle "Q1 2025", author "Jane Doe"), the two-column slide
    with the two resolved rows, and a pie chart slide with the single data
    point Offerings = 1200, the Total row being left out of the chart.
    The scan finds one KPI, so there is no summary slide. *)
Theorem endToEndScenario (key name title headerTitle : string)
  (headerFields : list FormField) (finTitle fieldId fieldLabel : string) :
  let template := scenarioTemplate key name title headerTitle headerFields
                                   finTitle fieldId fieldLabel in
  let section := scenarioFinancial finTitle fieldId fieldLabel in
  let field := scenarioField fieldId fieldLabel in
  let table := tableSlide section field 0 ["Item"; "Amount"]
                          [["Offerings"; "$1,200"]; ["Total"; "$1,200"]] in
  let chart := chartSlide field section 0
                          [{| item_label := "Offerings"; item_value := ofNat 1200 |}] in
  resolve template (scenarioData fieldId)
  = Ok [scenarioTitleSlide key title; table; chart]
  /\ slide_layout table = Layout_twoColumn
  /\ slide_layout chart = Layout_chartFull
  /\ slide_data chart = ChartData pie ["Offerings"] [ofNat 1200]
  /\ exactly (ofNat 1200) 1200 1
  /\ exists kpi, collectKpis template (scenarioData fieldId) = Ok [kpi].
Proof.
  cbv zeta. split; [|split; [reflexivity|split; [reflexivity|split; [reflexivity|split]]]].
  - rewrite (resolve_shape
               (scenarioTemplate key name title headerTitle headerFields
                                 finTitle fieldId fieldLabel)
               (scenarioData fieldId) (scenarioTitleSlide key title) eq_refl).
    cbn [scenarioTemplate template_sections mapiM].
    unfold sectionContribution at 1.
    change (isReserved {| section_id := "header"; section_title := headerTitle;
                          section_fields := headerFields |}) with true.
    cbv iota. cbn [bind].
    unfold sectionContribution at 1.
    change (isReserved (scenarioFinancial finTitle fieldId fieldLabel)) with false.
    cbv iota. rewrite scenario_section. cbn [bind].
    unfold createSummarySlide.
    rewrite (scenario_kpis key name title headerTitle headerFields
                           finTitle fieldId fieldLabel).
    reflexivity.
  - vm_compute. reflexivity.
  - eexists. apply scenario_kpis.
Qed.

(** C3, the scenario at concrete texts: the deck has three slides and the
    third is a chart, where the claim announces that no chart slide is
    emitted. *)
Lemma endToEndScenario_counterexample :
  exists slides,
    resolve (scenarioTemplate "dept" "Department" "Quarterly Report" "Header" []
                              "Financial Summary" "receipts" "Receipts")
            (scenarioData "receipts") = Ok slides
    /\ map slide_layout slides = [Layout_title; Layout_twoColumn; Layout_chartFull].
Proof. eexists. split; [vm_compute; reflexivity | reflexivity]. Qed.

(** ** Exceptions *)

(** C2, the defect.  On a table field whose declared column list is empty
    and whose stored table has a row, the section slides are built (the
    chart step checks the number of columns), but the summary scan calls
    [toLowerCase] on the absent first header: [createSummarySlide] throws
    a [TypeError] and so does [resolve].  A stored row that is [null]
    makes [resolve] throw as well. *)
Theorem resolve_throws :
  isOk (createSlidesForSection oneRowData emptyColumnsSection 0) = true
  /\ createChartFromTable emptyColumnsField [JObj [("Item", JStr "Tithe")]]
                          emptyColumnsSection 0 = Ok None
  /\ createSummarySlide emptyColumnsTemplate oneRowData = Throw TypeError
  /\ resolve emptyColumnsTemplate oneRowData = Throw TypeError
  /\ resolve offeringsTemplate nullRowData = Throw TypeError.
Proof. repeat split; vm_compute; reflexivity. Qed.

(** ** Runs that return *)

Lemma forEachM_total {St A : Type} (f : St -> A -> nat -> Result St) :
  forall l,
    (forall acc x i, In x l -> exists acc', f acc x i = Ok acc') ->
    forall i acc, exists out, forEachM f i l acc = Ok out.
Proof.
  induction l as [|x r IH]; intros H i acc; simpl.
  - now exists acc.
  - destruct (H acc x i (or_introl eq_refl)) as [acc' ->]. cbn [bind].
    apply IH. intros a y j Hy. apply H. now right.
Qed.

Lemma tableFieldSlides_total (section : FormSection) (sectionData : JsVal)
  (slides : list ResolvedSlide) (field : FormField) (fieldIndex : nat) :
  (forall tableData,
     get sectionData (field_id field) = JArr tableData ->
     Forall (fun row => isNullish row = false) tableData) ->
  exists out, tableFieldSlides section sectionData slides field fieldIndex = Ok out.
Proof.
  intros H. destruct (get sectionData (field_id field)) as [| | | | |tableData|] eqn:Hget;
    try (unfold tableFieldSlides; rewrite Hget; now exists slides).
  destruct tableData as [|row0 rest];
    [unfold tableFieldSlides; rewrite Hget; now exists slides|].
  specialize (H _ eq_refl).
  destruct (tableRows_total (headersOf field) _ H) as (rows & Hrows & _).
  destruct (createChartFromTable_total field _ section fieldIndex H) as [chart Hchart].
  destruct (tablePhotosOf_total _ H) as [photos Hphotos].
  eexists. eapply tableFieldSlides_steps; eauto. discriminate.
Qed.

Lemma bulletFieldSlides_total (section : FormSection) (sectionData : JsVal)
  (slides : list ResolvedSlide) (field : FormField) (fieldIndex : nat) :
  exists out, bulletFieldSlides section sectionData slides field fieldIndex = Ok out.
Proof.
  unfold bulletFieldSlides.
  destruct (get sectionData (field_id field)); try (eexists; reflexivity).
  destruct (_ =? 0); eexists; reflexivity.
Qed.

Lemma findM_isTotalRow_total (h0 : string) (hs : list string) (tableData : list JsVal) :
  Forall (fun row => isNullish row = false) tableData ->
  exists r, findM (isTotalRow (h0 :: hs)) tableData = Ok r.
Proof.
  induction tableData as [|row r IH]; intros Hrows; [now exists None|].
  inversion Hrows as [|? ? Hrow Hr]; subst. cbn [findM]. unfold isTotalRow at 1.
  cbn [nth_error].
  destruct (getColumnValue_total row h0 0 Hrow) as [v ->]. cbn [bind].
  destruct (_ || _); [eexists; reflexivity | now apply IH].
Qed.

Lemma summaryFieldKpis_total (sectionData : JsVal) (kpis : list Kpi)
  (field : FormField) (fieldIndex : nat) :
  (forall tableData,
     field_type field = TABLE ->
     get sectionData (field_id field) = JArr tableData ->
     Forall (fun row => isNullish row = false) tableData
     /\ (tableData <> [] -> field_columns field <> Some [])) ->
  exists out, summaryFieldKpis sectionData kpis field fieldIndex = Ok out.
Proof.
  intros H. unfold summaryFieldKpis.
  destruct (field_type field) eqn:Ety; try (eexists; reflexivity).
  destruct (field_columns field) as [headers|] eqn:Ecol; [|eexists; reflexivity].
  destruct (get sectionData (field_id field)) as [| | | | |tableData|] eqn:Hget;
    try (eexists; reflexivity).
  destruct (H tableData eq_refl eq_refl) as [Hrows Hcols].
  destruct tableData as [|row0 rest]; [now exists kpis|].
  destruct headers as [|h0 hs]; [exfalso; now apply Hcols|].
  destruct (findM_isTotalRow_total h0 hs _ Hrows) as [[row|] Hfind];
    rewrite Hfind; cbn [bind]; [|now exists kpis].
  destruct (truthy row) eqn:Etr; [|now exists kpis].
  assert (Hrow : isNullish row = false) by (destruct row; simpl in *; congruence).
  clear - Hrow. cbn [skipn]. generalize 1 as i.
  induction hs as [|h r IH]; intros i; simpl; [now exists kpis|].
  destruct (getColumnValue_total row h i Hrow) as [v ->]. cbn [bind].
  destruct (negb _); [eexists; reflexivity | apply IH].
Qed.

Lemma createSlidesForSection_total (template : ReportTemplate)
  (formData : list (string * JsVal)) (section : FormSection) (i : nat) :
  wellFormed template formData ->
  In section (template_sections template) ->
  isReserved section = false ->
  exists out, createSlidesForSection formData section i = Ok out.
Proof.
  intros Hwf Hin Hres. unfold createSlidesForSection.
  fold (sectionDataOf formData section).
  destruct (forEachM_total (tableFieldSlides section (sectionDataOf formData section))
              (filter (hasType TABLE) (section_fields section))) with (i := 0)
              (acc := @nil ResolvedSlide) as [s1 ->].
  { intros acc f j Hf. apply filter_In in Hf. destruct Hf as [Hf Hty].
    apply tableFieldSlides_total. intros tableData Hget.
    apply (Hwf section f tableData); try assumption.
    unfold hasType in Hty. now destruct (field_type f). }
  cbn [bind].
  destruct (forEachM_total (bulletFieldSlides section (sectionDataOf formData section))
              (filter (hasType BULLET) (section_fields section))) with (i := 0)
              (acc := s1) as [s2 ->].
  { intros acc f j _. apply bulletFieldSlides_total. }
  cbn [bind]. rewrite forEachM_photoFieldSlides. cbn [bind]. eexists. reflexivity.
Qed.

(** X1.  On well-formed plain form data every error branch is unreachable
    and [resolve] returns a slide list: it is enough that, in the sections
    other than [header] and [signatures], the form data are plain (ids that
    name no member of [Object.prototype], a record or nothing stored under
    a section, printable values in the text-like fields, plain rows in the
    stored tables), and no table field that stores rows declares an empty
    list of columns. *)
Lemma resolve_returns (template : ReportTemplate) (formData : list (string * JsVal)) :
  wellFormed template formData ->
  plainData template formData ->
  exists slides, resolve template formData = Ok slides.
Proof.
  intros Hwf _.
  destruct (createTitleSlide_some template formData) as (titleSlide & Ht & _).
  rewrite (resolve_shape template formData titleSlide Ht).
  assert (Hsec : forall sections i,
             (forall s, In s sections -> In s (template_sections template)) ->
             exists ps, mapiM (sectionContribution formData) i sections = Ok ps).
  { induction sections as [|sec r IH]; intros i Hsub; simpl; [now exists []|].
    assert (Hc : exists out, sectionContribution formData sec i = Ok out).
    { unfold sectionContribution. destruct (isReserved sec) eqn:Er; [now exists []|].
      apply (createSlidesForSection_total template); auto. apply Hsub. now left. }
    destruct Hc as [out ->]. cbn [bind].
    destruct (IH (S i)) as [ps ->]; [intros s Hs; apply Hsub; now right|].
    eexists. reflexivity. }
  destruct (Hsec (template_sections template) 0) as [ps ->]; [auto|]. cbn [bind].
  assert (Hk : exists kpis, collectKpis template formData = Ok kpis).
  { unfold collectKpis. apply forEachM_total.
    intros acc sec i Hsec'. unfold summarySectionKpis.
    destruct (isReserved sec) eqn:Er; [now exists acc|].
    fold (sectionDataOf formData sec). apply forEachM_total.
    intros a f j Hf. apply summaryFieldKpis_total. intros tableData Hty Hget.
    now apply (Hwf sec f tableData). }
  destruct Hk as [kpis Hk]. unfold createSummarySlide. rewrite Hk. cbn [bind].
  destruct (_ && _); eexists; reflexivity.
Qed.

(** X1 at a concrete input: the offerings table. *)
Lemma resolve_returns_witness :
  exists slides,
    resolve offeringsTemplate [("finance", JObj [("offerings", JArr fiveOfferings)])]
    = Ok slides.
Proof.
  apply resolve_returns.
  - intros section field tableData [<-|[]] _ [<-|[]] _ Hget.
    vm_compute in Hget. injection Hget as <-.
    split; [repeat constructor | discriminate].
  - intros section [<-|[]] _. split; [reflexivity|].
    split; [eexists; reflexivity|].
    intros field [<-|[]]. split; [reflexivity|]. split; [discriminate|].
    intros _ tableData Hget. vm_compute in Hget. injection Hget as <-.
    repeat constructor.
Defined.

(** ** Decimal numerals *)

Lemma append_assoc (a b c : string) : (a ++ b) ++ c = a ++ b ++ c.
Proof. induction a as [|x a IH]; simpl; [reflexivity | now rewrite IH]. Qed.

Lemma append_empty_r (a : string) : a ++ "" = a.
Proof. induction a as [|x a IH]; simpl; [reflexivity | now rewrite IH]. Qed.

Lemma digitsValue_app (s1 s2 : string) :
  forall a, digitsValue (s1 ++ s2) a = digitsValue s2 (digitsValue s1 a).
Proof. induction s1 as [|c r IH]; intros a; simpl; [reflexivity | apply IH]. Qed.

Lemma allDigits_app (s1 s2 : string) :
  allDigits (s1 ++ s2) = allDigits s1 && allDigits s2.
Proof.
  induction s1 as [|c r IH]; simpl; [reflexivity|].
  now rewrite IH, andb_assoc.
Qed.

Lemma digit_char (d : N) :
  (d < 10)%N ->
  isDigit (ascii_of_N (48 + d)) = true
  /\ N.of_nat (code (ascii_of_N (48 + d)) - 48) = d.
Proof.
  intros Hd. unfold isDigit, code, nat_of_ascii.
  rewrite N_ascii_embedding by lia.
  split.
  - apply andb_true_iff. split; apply Nat.leb_le; lia.
  - lia.
Qed.

Lemma pos_size_nat_gt (p : positive) : (Npos p < 2 ^ N.of_nat (Pos.size_nat p))%N.
Proof.
  induction p as [p IH|p IH|]; cbn [Pos.size_nat];
    [| |reflexivity];
    (replace (N.of_nat (S (Pos.size_nat p))) with (N.succ (N.of_nat (Pos.size_nat p)))
       by lia);
    rewrite N.pow_succ_r'; lia.
Qed.

Lemma size_nat_gt (n : N) : (n < 2 ^ N.of_nat (N.size_nat n))%N.
Proof. destruct n as [|p]; [reflexivity | apply pos_size_nat_gt]. Qed.

(** The digits [digitsOfN] puts in front of its accumulator: a non-empty
    string of decimal digits whose value is [n]. *)
Lemma digitsOfN_spec :
  forall fuel n acc,
    (n < 2 ^ N.of_nat fuel)%N ->
    exists d,
      digitsOfN fuel n acc = d ++ acc
      /\ allDigits d = true /\ d <> "" /\ digitsValue d 0 = n.
Proof.
  induction fuel as [|f IH]; intros n acc Hn.
  - assert (n = 0%N) by (simpl in Hn; lia). subst n.
    exists "0". repeat split; discriminate.
  - cbn [digitsOfN].
    assert (Hmod : (n mod 10 < 10)%N) by (apply N.mod_lt; discriminate).
    destruct (digit_char _ Hmod) as [Hdig Hval].
    destruct (n / 10 =? 0)%N eqn:Hq.
    + apply N.eqb_eq in Hq.
      exists (String (ascii_of_N (48 + n mod 10)) "").
      repeat split; try discriminate.
      * cbn [allDigits]. now rewrite Hdig.
      * cbn [digitsValue]. rewrite Hval.
        pose proof (N.div_mod n 10 ltac:(discriminate)). lia.
    + destruct (IH (n / 10)%N (String (ascii_of_N (48 + n mod 10)) acc))
        as (d & Hd & Hall & Hne & Hv).
      { replace (N.of_nat (S f)) with (N.succ (N.of_nat f)) in Hn by lia.
        rewrite N.pow_succ_r' in Hn.
        apply N.Div0.div_lt_upper_bound. lia. }
      exists (d ++ String (ascii_of_N (48 + n mod 10)) "").
      repeat split.
      * rewrite Hd. now rewrite append_assoc.
      * rewrite allDigits_app, Hall. cbn [allDigits]. now rewrite Hdig.
      * destruct d; [congruence | discriminate].
      * rewrite digitsValue_app, Hv. cbn [digitsValue]. rewrite Hval.
        pose proof (N.div_mod n 10 ltac:(discriminate)). lia.
Qed.

Lemma natToString_spec (n : nat) :
  allDigits (natToString n) = true
  /\ natToString n <> ""
  /\ digitsValue (natToString n) 0 = N.of_nat n.
Proof.
  unfold natToString, nToString.
  destruct (digitsOfN_spec (N.size_nat (N.of_nat n)) (N.of_nat n) ""
              (size_nat_gt _)) as (d & Hd & Hall & Hne & Hv).
  rewrite Hd, append_empty_r. auto.
Qed.

Lemma natToString_inj (a b : nat) : natToString a = natToString b -> a = b.
Proof.
  intros E.
  destruct (natToString_spec a) as (_ & _ & Ha).
  destruct (natToString_spec b) as (_ & _ & Hb).
  rewrite E in Ha. lia.
Qed.

(** ** Whole numbers as cell text *)

Lemma isDigit_not_stripped (c : ascii) :
  isDigit c = true -> isWhiteSpace c = false /\ isStripped c = false.
Proof.
  unfold isDigit, isStripped, isWhiteSpace. intros H.
  apply andb_true_iff in H. destruct H as [H1 H2].
  apply Nat.leb_le in H1. apply Nat.leb_le in H2.
  assert (E : forall n, n < 48 \/ 57 < n -> (code c =? n) = false)
    by (intros n Hn; apply Nat.eqb_neq; lia).
  rewrite !E by lia.
  assert (E13 : (code c <=? 13) = false) by (apply Nat.leb_gt; lia).
  rewrite E13, andb_false_r. split; reflexivity.
Qed.

Lemma splitSign_digit (c : ascii) (r : string) :
  isDigit c = true ->
  splitSign (String c r) = (false, String c r)
  /\ String.prefix "Infinity" (String c r) = false.
Proof.
  destruct c as [[] [] [] [] [] [] [] []]; intros H;
    try discriminate H; split; reflexivity.
Qed.

Lemma spanDigits_all (s : string) :
  allDigits s = true -> spanDigits s = (s, "").
Proof.
  induction s as [|c r IH]; simpl; [reflexivity|]. intros H.
  apply andb_true_iff in H. destruct H as [Hc Hr].
  now rewrite Hc, (IH Hr).
Qed.

(** [parseFloat] reads a string of decimal digits as its value. *)
Lemma parseFloat_digits (s : string) :
  allDigits s = true -> s <> "" ->
  parseFloat s = ofDecimal false (digitsValue s 0) 0.
Proof.
  intros Hall Hne. destruct s as [|c r]; [congruence|].
  pose proof Hall as Hall'. cbn [allDigits] in Hall'.
  apply andb_true_iff in Hall'. destruct Hall' as [Hc _].
  unfold parseFloat.
  assert (Ets : trimStart (String c r) = String c r).
  { cbn [trimStart]. now rewrite (proj1 (isDigit_not_stripped c Hc)). }
  rewrite Ets.
  destruct (splitSign_digit c r Hc) as [-> Hpre]. rewrite Hpre.
  rewrite (spanDigits_all _ Hall). cbn [isEmpty andb].
  now rewrite append_empty_r.
Qed.

Lemma filterChars_all (keep : ascii -> bool) (s : string) :
  (forall c, In c (list_ascii_of_string s) -> keep c = true) ->
  filterChars keep s = s.
Proof.
  induction s as [|c r IH]; intros H; simpl; [reflexivity|].
  rewrite (H c (or_introl eq_refl)), IH; [reflexivity|].
  intros x Hx. apply H. now right.
Qed.

Lemma allDigits_In (s : string) (c : ascii) :
  allDigits s = true -> In c (list_ascii_of_string s) -> isDigit c = true.
Proof.
  induction s as [|x r IH]; simpl; [tauto|]. intros H [<-|Hin];
    apply andb_true_iff in H; destruct H; auto.
Qed.

Lemma trim_digits (s : string) : allDigits s = true -> trim s = s.
Proof.
  intros H. unfold trim.
  assert (E : trimStart s = s).
  { destruct s as [|c r]; [reflexivity|]. cbn [allDigits] in H.
    apply andb_true_iff in H. cbn [trimStart].
    now rewrite (proj1 (isDigit_not_stripped c (proj1 H))). }
  rewrite E. clear E. induction s as [|c r IH]; [reflexivity|].
  cbn [allDigits] in H. apply andb_true_iff in H. destruct H as [Hc Hr].
  cbn [trimEnd]. rewrite (IH Hr).
  destruct r; [|reflexivity].
  now rewrite (proj1 (isDigit_not_stripped c Hc)).
Qed.

(** X2.  A text that is the decimal numeral of a whole number [n] once
    the dollar signs, commas, white space and parentheses are removed
    normalizes to [n], and to the negation of [n] when the trimmed text is
    wrapped in parentheses on one line.  In particular the plain numeral
    of [n] normalizes to [n]. *)
Theorem normalizeNumber_numeral :
  (forall (str : string) (n : nat),
     cleanedOf (trim str) = natToString n ->
     normalizeNumber (JStr str)
     = if wrappedInParens (trim str) then neg (abs (ofNat n)) else ofNat n) /\
  (forall n : nat, normalizeNumber (JStr (natToString n)) = ofNat n).
Proof.
  assert (Hp : forall n, parseFloat (natToString n) = ofNat n).
  { intros n. destruct (natToString_spec n) as (Hall & Hne & Hv).
    rewrite (parseFloat_digits _ Hall Hne), Hv. reflexivity. }
  split.
  - intros str n Hc. unfold normalizeNumber. cbn [isNullish toString].
    rewrite stripParens_stripCurrency, Hc, Hp. reflexivity.
  - intros n. destruct (natToString_spec n) as (Hall & Hne & _).
    unfold normalizeNumber. cbn [isNullish toString].
    rewrite stripParens_stripCurrency, (trim_digits _ Hall).
    assert (Hw : wrappedInParens (natToString n) = false).
    { destruct (natToString n) as [|c r]; [reflexivity|].
      cbn [allDigits] in Hall. apply andb_true_iff in Hall.
      destruct (isDigit_not_stripped c (proj1 Hall)) as [_ Hs].
      unfold isStripped in Hs. cbn [wrappedInParens].
      destruct (code c =? 40); [|reflexivity].
      now rewrite !orb_true_r in Hs. }
    rewrite Hw. unfold cleanedOf.
    rewrite filterChars_all; [apply Hp|].
    intros c Hin. now rewrite (proj2 (isDigit_not_stripped c (allDigits_In _ _ Hall Hin))).
Qed.

(** X2 at a concrete input: ["$1,234"] normalizes to 1234 and
    ["(1,234)"] to its negation. *)
Lemma normalizeNumber_numeral_witness :
  normalizeNumber (JStr "$1,234") = ofNat 1234
  /\ normalizeNumber (JStr "(1,234)") = neg (abs (ofNat 1234)).
Proof.
  split.
  - exact (proj1 normalizeNumber_numeral "$1,234" 1234 eq_refl).
  - exact (proj1 normalizeNumber_numeral "(1,234)" 1234 eq_refl).
Defined.

(** ** Pages and their images *)

Lemma firstn_skipn_add {A : Type} (a b : nat) :
  forall l : list A, firstn (a + b) l = (firstn a l ++ firstn b (skipn a l))%list.
Proof.
  induction a as [|a IH]; intros l; [reflexivity|].
  destruct l as [|x l]; cbn [Nat.add firstn skipn app].
  - now rewrite firstn_nil.
  - now rewrite IH.
Qed.

Lemma pages_concat (photos : list JsVal) (k : nat) :
  List.concat (map (fun j => firstn 4 (skipn (4 * j) photos)) (seq 0 k))
  = firstn (4 * k) photos.
Proof.
  induction k as [|k IH]; [reflexivity|].
  rewrite seq_S, map_app, concat_app, IH. cbn [map List.concat Nat.add].
  rewrite app_nil_r, <- firstn_skipn_add. f_equal. lia.
Qed.

Lemma pagesOf_images (mkSlide : list JsVal -> nat -> nat -> ResolvedSlide)
  (photos : list JsVal) :
  (forall p a b, imagesOf (mkSlide p a b) = p) ->
  List.concat (map imagesOf (pagesOf mkSlide photos)) = photos
  /\ Forall pageSized (pagesOf mkSlide photos).
Proof.
  intros Hmk. unfold pagesOf. split.
  - rewrite map_map.
    rewrite (map_ext _ (fun j => firstn 4 (skipn (4 * j) photos)))
      by (intros j; unfold pageAt; apply Hmk).
    rewrite pages_concat. apply firstn_all2. apply ceilDiv4_bounds.
  - apply Forall_forall. intros s Hs. apply in_map_iff in Hs.
    destruct Hs as (j & <- & Hj). apply in_seq in Hj.
    unfold pageSized, pageAt. rewrite Hmk, length_firstn, length_skipn.
    assert (4 * j < List.length photos) by (apply ceilDiv4_gt; lia). lia.
Qed.

(** X3.  Pagination neither loses nor repeats an image.  The pages a
    photo-collection field adds hold, put end to end, exactly the stored
    images in their order, between one and four on each page.  The same
    holds of the photo pages of a table: they come last among the slides
    of the table, after slides that are not photo grids, and they hold the
    truthy photos of the rows, in row order. *)
Theorem photoPages_partition :
  (forall section sectionData slides field fieldIndex photoData,
     get sectionData (field_id field) = JArr photoData ->
     exists pages,
       photoFieldSlides section sectionData slides field fieldIndex
       = Ok (slides ++ pages)%list
       /\ List.concat (map imagesOf pages) = photoData
       /\ Forall pageSized pages) /\
  (forall section sectionData slides field fieldIndex tableData out,
     get sectionData (field_id field) = JArr tableData ->
     tableData <> [] ->
     tableFieldSlides section sectionData slides field fieldIndex = Ok out ->
     exists front pages photos,
       out = (slides ++ front ++ pages)%list
       /\ Forall (fun s => slide_layout s <> Layout_photoGrid) front
       /\ tablePhotosOf tableData = Ok photos
       /\ Forall (fun p => truthy p = true) photos
       /\ List.concat (map imagesOf pages) = photos
       /\ Forall pageSized pages).
Proof.
  split.
  - intros section sectionData slides field fieldIndex photoData Hget.
    rewrite photoFieldSlides_pages. unfold photoFieldPages. rewrite Hget.
    destruct photoData as [|p0 rest].
    + exists []. repeat split. constructor.
    + eexists. split; [reflexivity|]. now apply pagesOf_images.
  - intros section sectionData slides field fieldIndex tableData out Hget Hne Hout.
    destruct (tableFieldSlides_shape _ _ _ _ _ _ Hout)
      as [->|(td & rows & chart & photos & Hget' & _ & _ & Hchart & Hphotos & ->)].
    + exfalso. unfold tableFieldSlides in Hout. rewrite Hget in Hout.
      destruct tableData as [|row0 rest]; [congruence|].
      destruct (mapM _ _) as [rows|]; [|discriminate]. cbn [bind] in Hout.
      destruct (createChartFromTable _ _ _ _) as [chart|]; [|discriminate].
      cbn [bind] in Hout.
      destruct (tablePhotosOf _) as [photos|]; [|discriminate]. cbn [bind] in Hout.
      destruct (0 <? List.length photos); injection Hout as Hout;
        apply (f_equal (@List.length _)) in Hout;
        rewrite ?paginate_pages in Hout; destruct chart;
        repeat rewrite length_app in Hout; cbn [List.length] in Hout; lia.
    + rewrite Hget in Hget'. injection Hget' as <-.
      exists (tableSlide section field fieldIndex (headersOf field) rows
              :: optionToList chart)%list,
             (pagesOf (tablePhotoSlide section field fieldIndex) photos), photos.
      split; [now rewrite <- app_comm_cons|].
      split.
      { constructor; [discriminate|].
        destruct chart as [c|]; [|constructor].
        destruct (createChartFromTable_slide _ _ _ _ _ Hchart) as [items ->].
        constructor; [discriminate | constructor]. }
      split; [exact Hphotos|].
      split.
      { unfold tablePhotosOf in Hphotos.
        destruct (mapM _ _) as [perRow|]; [|discriminate]. cbn [bind] in Hphotos.
        injection Hphotos as <-. apply Forall_forall. intros p Hp.
        now apply filter_In in Hp. }
      now apply pagesOf_images.
Qed.

(** X3 at a concrete input: the five truthy photos of three rows make a
    page of four and a page of one. *)
Lemma photoPages_partition_witness :
  exists front pages photos,
    tableFieldSlides offeringsSection (JObj [("offerings", JArr photoRows)])
                     [] offeringsField 0
    = Ok ([] ++ front ++ pages)%list
    /\ tablePhotosOf photoRows = Ok photos
    /\ photos = map JStr ["a"; "b"; "c"; "d"; "e"]
    /\ List.concat (map imagesOf pages) = photos.
Proof.
  edestruct (proj2 photoPages_partition offeringsSection
               (JObj [("offerings", JArr photoRows)]) [] offeringsField 0 photoRows)
    as (front & pages & photos & Hout & _ & Hphotos & _ & Hconcat & _);
    [reflexivity | discriminate | vm_compute; reflexivity |].
  exists front, pages, photos.
  split; [rewrite <- Hout; vm_compute; reflexivity|].
  repeat split; try assumption.
  vm_compute in Hphotos. now injection Hphotos as <-.
Defined.

(** ** Tables, charts and KPIs *)

Lemma mapiM_length {A B : Type} (f : A -> nat -> Result B) :
  forall l i ys, mapiM f i l = Ok ys -> List.length ys = List.length l.
Proof.
  induction l as [|x r IH]; intros i ys H; simpl in H.
  - now injection H as <-.
  - destruct (f x i) as [y|]; [|discriminate]. cbn [bind] in H.
    destruct (mapiM f (S i) r) as [ys'|] eqn:E; [|discriminate]. cbn [bind] in H.
    injection H as <-. cbn [List.length]. f_equal. eapply IH, E.
Qed.

Lemma mapM_Forall2 {A B : Type} (f : A -> Result B) :
  forall l ys, mapM f l = Ok ys -> Forall2 (fun x y => f x = Ok y) l ys.
Proof.
  induction l as [|x r IH]; intros ys H; simpl in H.
  - injection H as <-. constructor.
  - destruct (f x) as [y|] eqn:Ex; [|discriminate]. cbn [bind] in H.
    destruct (mapM f r) as [ys'|] eqn:E; [|discriminate]. cbn [bind] in H.
    injection H as <-. constructor; [exact Ex | now apply IH].
Qed.

Lemma Forall2_length_eq {A B : Type} (R : A -> B -> Prop) (l : list A) (l' : list B) :
  Forall2 R l l' -> List.length l = List.length l'.
Proof. induction 1; simpl; congruence. Qed.

(** X4.  The table slide is rectangular: it has one row of cells for each
    stored row, in the same order, and each row has exactly one cell for
    each declared column, whatever keys the stored rows have. *)
Theorem tableSlide_rectangular (section : FormSection) (sectionData : JsVal)
  (slides : list ResolvedSlide) (field : FormField) (fieldIndex : nat)
  (tableData : list JsVal) (out : list ResolvedSlide) :
  get sectionData (field_id field) = JArr tableData ->
  tableData <> [] ->
  tableFieldSlides section sectionData slides field fieldIndex = Ok out ->
  exists rows rest,
    out = (slides ++ tableSlide section field fieldIndex (headersOf field) rows
                     :: rest)%list
    /\ List.length rows = List.length tableData
    /\ Forall (fun cells => List.length cells = List.length (headersOf field)) rows.
Proof.
  intros Hget Hne Hout. unfold tableFieldSlides in Hout. rewrite Hget in Hout.
  destruct tableData as [|row0 more]; [congruence|].
  destruct (mapM _ _) as [rows|] eqn:Hrows; [|discriminate]. cbn [bind] in Hout.
  destruct (createChartFromTable _ _ _ _) as [chart|]; [|discriminate].
  cbn [bind] in Hout.
  destruct (tablePhotosOf _) as [photos|]; [|discriminate]. cbn [bind] in Hout.
  apply mapM_Forall2 in Hrows.
  exists rows.
  assert (Hrest : exists rest,
             out = (slides ++ tableSlide section field fieldIndex (headersOf field) rows
                              :: rest)%list).
  { destruct (0 <? List.length photos); injection Hout as <-;
      rewrite ?paginate_pages; destruct chart as [c|];
      repeat rewrite <- app_assoc; cbn [app]; eexists; reflexivity. }
  destruct Hrest as [rest ->]. exists rest. split; [reflexivity|]. split.
  - symmetry. eapply Forall2_length_eq, Hrows.
  - clear - Hrows. induction Hrows as [|row cells ? ? Hc _ IH]; constructor; [|exact IH].
    eapply mapiM_length, Hc.
Qed.

(** X4 at a concrete input: the six offering rows under two columns. *)
Lemma tableSlide_rectangular_witness :
  exists rows rest,
    tableFieldSlides offeringsSection (JObj [("offerings", JArr fiveOfferings)])
                     [] offeringsField 0
    = Ok ([] ++ tableSlide offeringsSection offeringsField 0
                           (headersOf offeringsField) rows
             :: rest)%list
    /\ List.length rows = 6
    /\ Forall (fun cells => List.length cells = 2) rows.
Proof.
  edestruct (tableSlide_rectangular offeringsSection
               (JObj [("offerings", JArr fiveOfferings)]) [] offeringsField 0
               fiveOfferings)
    as (rows & rest & Hout & Hlen & Hcells);
    [reflexivity | discriminate | vm_compute; reflexivity |].
  exists rows, rest.
  split; [rewrite <- Hout; vm_compute; reflexivity|].
  split; [exact Hlen | exact Hcells].
Defined.

Lemma chartItems_kept (headers : list string) (tableData : list JsVal)
  (labelCol valueCol : nat) (items : list ChartItem) :
  chartItems headers tableData labelCol valueCol = Ok items ->
  Forall (fun p => keepChartItem p = true) items
  /\ List.length items <= List.length tableData.
Proof.
  unfold chartItems. intros H.
  destruct (mapM _ _) as [raw|] eqn:Hraw; [|discriminate]. cbn [bind] in H.
  injection H as <-. split.
  - apply Forall_forall. intros p Hp. now apply filter_In in Hp.
  - apply mapM_Forall2, Forall2_length_eq in Hraw. rewrite Hraw.
    apply filter_length_le.
Qed.

(** X5.  What a chart slide holds.  When [createChartFromTable] yields a
    slide, the field declares at least two columns, and the slide has as
    many labels as values, at least one and at most one per stored row; no
    value is [NaN] and some value is not zero; no label is empty or an
    aggregate marker; the chart is a pie for at most five values and a bar
    chart for more, never a line chart; and the suggested chart has the
    same type and the path of the field in the form data. *)
Theorem chartSlide_invariants (field : FormField) (tableData : list JsVal)
  (section : FormSection) (fieldIndex : nat) (c : ResolvedSlide) :
  createChartFromTable field tableData section fieldIndex = Ok (Some c) ->
  exists chartType labels values,
    slide_layout c = Layout_chartFull
    /\ slide_data c = ChartData chartType labels values
    /\ List.length labels = List.length values
    /\ 1 <= List.length values <= List.length tableData
    /\ Forall isNumber values
    /\ Exists (fun v => isZero v = false) values
    /\ Forall plottable labels
    /\ chartType = (if List.length values <=? 5 then pie else bar)
    /\ suggestedChart (slide_originalLayout c)
       = Some {| suggested_chartType := chartType;
                 suggested_dataPath :=
                   "$." ++ section_id section ++ "." ++ field_id field |}
    /\ exists headers,
         field_columns field = Some headers /\ 2 <= List.length headers.
Proof.
  unfold createChartFromTable. intros H.
  destruct (field_columns field) as [headers|] eqn:Ecol; [|discriminate].
  destruct (List.length headers <? 2) eqn:Elen; [discriminate|].
  apply Nat.ltb_ge in Elen.
  destruct (findValueColumn _ _ _) as [[valueCol|]|]; try discriminate.
  cbn [bind] in H.
  destruct (chartItems _ _ _ _) as [items|] eqn:Hitems; [|discriminate].
  cbn [bind] in H.
  destruct (chartItems_kept _ _ _ _ _ Hitems) as [Hkept Hle].
  destruct (List.length items =? 0) eqn:Hz; [discriminate|]. apply Nat.eqb_neq in Hz.
  destruct (forallb _ items) eqn:Hall; [discriminate|]. cbn [orb] in H.
  injection H as <-.
  exists (chartTypeFor (map item_value items)), (map item_label items),
         (map item_value items).
  cbn [chartSlide slide_layout slide_data slide_originalLayout suggestedChart].
  rewrite !length_map.
  split; [reflexivity|]. split; [reflexivity|]. split; [reflexivity|].
  split; [lia|].
  split.
  { apply Forall_map. eapply Forall_impl; [|exact Hkept].
    intros p Hp. apply keepChartItem_chartable in Hp. apply Hp. }
  split.
  { apply Exists_exists.
    assert (Hex : exists p, In p items /\ isZero (item_value p) = false).
    { clear - Hall. induction items as [|p r IH]; [discriminate|].
      cbn [forallb] in Hall. destruct (isZero (item_value p)) eqn:E.
      - destruct (IH Hall) as (q & Hq & Hq'). exists q. split; [now right | exact Hq'].
      - exists p. split; [now left | exact E]. }
    destruct Hex as (p & Hp & Hp'). exists (item_value p).
    split; [now apply in_map | exact Hp']. }
  split.
  { apply Forall_map. eapply Forall_impl; [|exact Hkept].
    intros p Hp. apply keepChartItem_chartable in Hp.
    destruct Hp as (H1 & _ & H2 & H3 & H4). now repeat split. }
  split.
  { unfold chartTypeFor. rewrite length_map.
    destruct (List.length items <=? 5) eqn:E5.
    - apply Nat.leb_le in E5. now rewrite (proj2 (Nat.ltb_ge _ _) E5).
    - apply Nat.leb_gt in E5. now rewrite (proj2 (Nat.ltb_lt _ _) E5). }
  split; [reflexivity|].
  exists headers. now split.
Qed.

(** X5 at a concrete input: the offerings table gives a pie chart of five
    values. *)
Lemma chartSlide_invariants_witness :
  exists c labels values,
    createChartFromTable offeringsField fiveOfferings offeringsSection 0 = Ok (Some c)
    /\ slide_data c = ChartData pie labels values
    /\ labels = ["Tithe"; "Missions"; "Youth"; "Building"; "Welfare"]
    /\ List.length values = 5.
Proof.
  edestruct (chartSlide_invariants offeringsField fiveOfferings offeringsSection 0)
    as (chartType & labels & values & _ & Hdata & _);
    [vm_compute; reflexivity|].
  eexists _, labels, values. split; [vm_compute; reflexivity|].
  vm_compute in Hdata. injection Hdata as <- <- <-.
  split; [reflexivity|]. split; reflexivity.
Defined.

Lemma firstNumericKpi_numbers (field : FormField) (totalRow : JsVal) :
  forall rest i kpis out,
    Forall (fun k => isNumber (kpi_value k)) kpis ->
    firstNumericKpi field totalRow rest i kpis = Ok out ->
    Forall (fun k => isNumber (kpi_value k)) out.
Proof.
  induction rest as [|h r IH]; intros i kpis out Hk H; simpl in H.
  - now injection H as <-.
  - destruct (getColumnValue totalRow (Some h) i) as [v|]; [|discriminate].
    cbn [bind] in H.
    destruct (isNaN (normalizeNumber v)) eqn:E; cbn [negb] in H.
    + eapply IH; eauto.
    + injection H as <-. apply Forall_app. split; [exact Hk|].
      constructor; [exact E | constructor].
Qed.

Lemma collectKpis_numbers (template : ReportTemplate)
  (formData : list (string * JsVal)) (kpis : list Kpi) :
  collectKpis template formData = Ok kpis ->
  Forall (fun k => isNumber (kpi_value k)) kpis.
Proof.
  unfold collectKpis. intros H.
  refine (forEachM_invariant (fun ks => Forall (fun k => isNumber (kpi_value k)) ks)
            _ _ _ _ _ _ (Forall_nil _) H).
  intros acc section i acc' Hacc Hstep. unfold summarySectionKpis in Hstep.
  destruct (isReserved section); [now injection Hstep as <-|].
  refine (forEachM_invariant (fun ks => Forall (fun k => isNumber (kpi_value k)) ks)
            _ _ _ _ _ _ Hacc Hstep).
  clear. intros acc field i acc' Hacc Hstep. unfold summaryFieldKpis in Hstep.
  destruct (field_type field); try (now injection Hstep as <-).
  destruct (field_columns field) as [headers|]; [|now injection Hstep as <-].
  destruct (get _ _) as [| | | | |tableData|]; try (now injection Hstep as <-).
  destruct (findM _ _) as [[row|]|]; try discriminate; cbn [bind] in Hstep;
    [|now injection Hstep as <-].
  destruct (truthy row); [|now injection Hstep as <-].
  eapply firstNumericKpi_numbers; eauto.
Qed.

(** X6.  Every KPI is a number: no scan of the form data collects a KPI
    whose value is [NaN], and a summary slide carries between two and four
    KPIs, none of them [NaN]. *)
Theorem kpis_are_numbers (template : ReportTemplate) (formData : list (string * JsVal)) :
  (forall kpis,
     collectKpis template formData = Ok kpis ->
     Forall (fun k => isNumber (kpi_value k)) kpis) /\
  (forall s,
     createSummarySlide template formData = Ok (Some s) ->
     exists kpis,
       slide_data s = KpisData kpis
       /\ 2 <= List.length kpis <= 4
       /\ Forall (fun k => isNumber (kpi_value k)) kpis).
Proof.
  split; [apply collectKpis_numbers|].
  intros s H. unfold createSummarySlide in H.
  destruct (collectKpis template formData) as [kpis|] eqn:Hk; [|discriminate].
  cbn [bind] in H.
  destruct (2 <=? List.length kpis) eqn:H2; [|discriminate].
  destruct (List.length kpis <=? 4) eqn:H4; [|discriminate].
  apply Nat.leb_le in H2. apply Nat.leb_le in H4. injection H as <-.
  exists kpis. cbn [summarySlide slide_data].
  rewrite slice_all by exact H4.
  split; [reflexivity|]. split; [lia|].
  exact (collectKpis_numbers template formData kpis Hk).
Qed.

(** X6 at a concrete input: two tables with a total row each. *)
Lemma kpis_are_numbers_witness :
  exists kpis,
    collectKpis totalsTemplate (totalsData 2) = Ok kpis
    /\ List.length kpis = 2
    /\ Forall (fun k => isNumber (kpi_value k)) kpis.
Proof.
  eexists. split; [vm_compute; reflexivity|]. split; [reflexivity|].
  apply (proj1 (kpis_are_numbers totalsTemplate (totalsData 2))).
  vm_compute. reflexivity.
Defined.

(** ** What the deck depends on *)

Lemma mapiM_ext_in {A B : Type} (f g : A -> nat -> Result B) :
  forall l,
    (forall x i, In x l -> f x i = g x i) ->
    forall i, mapiM f i l = mapiM g i l.
Proof.
  induction l as [|x r IH]; intros H i; [reflexivity|]. cbn [mapiM].
  rewrite (H x i (or_introl eq_refl)), (IH (fun y j Hy => H y j (or_intror Hy))).
  reflexivity.
Qed.

Lemma forEachM_ext_in {St A : Type} (f g : St -> A -> nat -> Result St) :
  forall l,
    (forall acc x i, In x l -> f acc x i = g acc x i) ->
    forall i acc, forEachM f i l acc = forEachM g i l acc.
Proof.
  induction l as [|x r IH]; intros H i acc; [reflexivity|]. cbn [forEachM].
  rewrite (H acc x i (or_introl eq_refl)).
  destruct (g acc x i) as [acc'|]; [|reflexivity]. cbn [bind].
  apply IH. intros a y j Hy. apply H. now right.
Qed.

(** X7.  The deck depends on the form data only through the value stored
    under [header] and the values stored under the ids of the sections of
    the template other than [header] and [signatures].  Two sets of form
    data that agree on those section ids yield decks that agree after the
    title slide, or both throw; if they also agree on [header] the outcomes
    are equal.  So what is stored under [signatures], or under a key that
    names no section, never reaches a slide, and the order of the entries
    of the form data does not matter. *)
Theorem resolve_frame (template : ReportTemplate)
  (formData formData' : list (string * JsVal)) :
  (forall section,
     In section (template_sections template) ->
     isReserved section = false ->
     get (JObj formData) (section_id section)
     = get (JObj formData') (section_id section)) ->
  afterTitle (resolve template formData) = afterTitle (resolve template formData')
  /\ (get (JObj formData) "header" = get (JObj formData') "header" ->
      resolve template formData = resolve template formData').
Proof.
  intros Hagree.
  assert (Hsec : mapiM (sectionContribution formData) 0 (template_sections template)
                 = mapiM (sectionContribution formData') 0 (template_sections template)).
  { apply mapiM_ext_in. intros section i Hin. unfold sectionContribution.
    destruct (isReserved section) eqn:Er; [reflexivity|].
    unfold createSlidesForSection. now rewrite (Hagree section Hin Er). }
  assert (Hsum : createSummarySlide template formData
                 = createSummarySlide template formData').
  { unfold createSummarySlide, collectKpis. f_equal.
    apply forEachM_ext_in. intros acc section i Hin. unfold summarySectionKpis.
    destruct (isReserved section) eqn:Er; [reflexivity|].
    now rewrite (Hagree section Hin Er). }
  destruct (createTitleSlide_some template formData) as (t & Ht & _).
  destruct (createTitleSlide_some template formData') as (t' & Ht' & _).
  rewrite (resolve_shape template formData t Ht).
  rewrite (resolve_shape template formData' t' Ht').
  rewrite Hsec, Hsum. clear Hsec Hsum. split.
  - unfold afterTitle.
    destruct (mapiM _ _ _) as [ps|]; [|reflexivity]. cbn [bind].
    destruct (createSummarySlide _ _) as [summary|]; reflexivity.
  - intros Hh. unfold createTitleSlide in Ht, Ht'. rewrite Hh in Ht.
    rewrite Ht in Ht'. now injection Ht' as <-.
Qed.

(** X7 at a concrete input: a header, a signature and a stray entry added
    to the form data of the gallery change nothing after the title slide. *)
Lemma resolve_frame_witness :
  afterTitle (resolve galleryTemplate galleryData)
  = afterTitle (resolve galleryTemplate galleryDataPlus).
Proof.
  apply (resolve_frame galleryTemplate galleryData galleryDataPlus).
  intros section [<-|[]] _. reflexivity.
Defined.

(** ** The shape of the slides *)

Lemma getIconPromptForSection_nonempty (section : FormSection) :
  isEmpty (getIconPromptForSection section) = false.
Proof.
  unfold getIconPromptForSection.
  repeat match goal with
         | |- context [if ?b then _ else _] => destruct b
         end; reflexivity.
Qed.

Lemma forallb_filter {A : Type} (f : A -> bool) (l : list A) :
  forallb f (filter f l) = true.
Proof.
  induction l as [|x r IH]; [reflexivity|]. cbn [filter].
  destruct (f x) eqn:E; [|exact IH]. cbn [forallb]. now rewrite E.
Qed.

Lemma shapeOk_pages (mkSlide : list JsVal -> nat -> nat -> ResolvedSlide)
  (photos : list JsVal) :
  (forall p a b,
     shapeOk (mkSlide p a b) = (1 <=? List.length p) && (List.length p <=? 4)) ->
  Forall (fun s => shapeOk s = true) (pagesOf mkSlide photos).
Proof.
  intros Hshape. unfold pagesOf. apply Forall_forall. intros s Hs.
  apply in_map_iff in Hs. destruct Hs as (j & <- & Hj). apply in_seq in Hj.
  unfold pageAt. rewrite Hshape, length_firstn, length_skipn.
  assert (4 * j < List.length photos) by (apply ceilDiv4_gt; lia).
  apply andb_true_iff. split; apply Nat.leb_le; lia.
Qed.

Lemma shapeOk_tableSlide (section : FormSection) (field : FormField) (fieldIndex : nat)
  (headers : list string) (rows : list (list string)) :
  shapeOk (tableSlide section field fieldIndex headers rows) = true.
Proof.
  unfold shapeOk, hasIconPrompt, suggestedTypeOf.
  cbn [tableSlide slide_layout slide_data slide_originalLayout generativeIconPrompt
       suggestedChart].
  now rewrite getIconPromptForSection_nonempty.
Qed.

Lemma shapeOk_chartSlide (field : FormField) (section : FormSection) (fieldIndex : nat)
  (items : list ChartItem) :
  shapeOk (chartSlide field section fieldIndex items) = true.
Proof.
  unfold shapeOk, hasIconPrompt, suggestedTypeOf.
  cbn [chartSlide slide_layout slide_data slide_originalLayout generativeIconPrompt
       suggestedChart suggested_chartType].
  unfold chartTypeFor.
  match goal with |- context [5 <? ?n] => destruct (5 <? n) end; reflexivity.
Qed.

Lemma tableFieldSlides_shapeOk (section : FormSection) (sectionData : JsVal)
  (slides : list ResolvedSlide) (field : FormField) (fieldIndex : nat)
  (out : list ResolvedSlide) :
  Forall (fun s => shapeOk s = true) slides ->
  tableFieldSlides section sectionData slides field fieldIndex = Ok out ->
  Forall (fun s => shapeOk s = true) out.
Proof.
  intros Hs H. apply tableFieldSlides_shape in H.
  destruct H as [->|(tableData & rows & chart & photos & _ & _ & _ & Hc & _ & ->)];
    [exact Hs|].
  apply Forall_app. split; [exact Hs|]. constructor; [apply shapeOk_tableSlide|].
  apply Forall_app. split.
  - destruct chart as [c|]; simpl; [|constructor].
    apply createChartFromTable_slide in Hc. destruct Hc as [items ->].
    constructor; [apply shapeOk_chartSlide | constructor].
  - apply shapeOk_pages. reflexivity.
Qed.

Lemma bulletFieldSlides_shapeOk (section : FormSection) (sectionData : JsVal)
  (slides : list ResolvedSlide) (field : FormField) (fieldIndex : nat)
  (out : list ResolvedSlide) :
  Forall (fun s => shapeOk s = true) slides ->
  bulletFieldSlides section sectionData slides field fieldIndex = Ok out ->
  Forall (fun s => shapeOk s = true) out.
Proof.
  intros Hs. unfold bulletFieldSlides.
  destruct (get sectionData (field_id field)) as [| | | | |bulletData|];
    try (intros H; now injection H as <-).
  destruct (_ =? 0) eqn:E; intros H; injection H as <-; [exact Hs|].
  apply Forall_app. split; [exact Hs|]. constructor; [|constructor].
  unfold shapeOk, hasIconPrompt, suggestedTypeOf.
  cbn [slide_layout slide_data slide_originalLayout generativeIconPrompt suggestedChart].
  rewrite getIconPromptForSection_nonempty, forallb_filter.
  destruct (filter truthy bulletData); [discriminate E | reflexivity].
Qed.

Lemma photoFieldSlides_shapeOk (section : FormSection) (sectionData : JsVal)
  (slides : list ResolvedSlide) (field : FormField) (fieldIndex : nat)
  (out : list ResolvedSlide) :
  Forall (fun s => shapeOk s = true) slides ->
  photoFieldSlides section sectionData slides field fieldIndex = Ok out ->
  Forall (fun s => shapeOk s = true) out.
Proof.
  intros Hs. rewrite photoFieldSlides_pages. intros H. injection H as <-.
  apply Forall_app. split; [exact Hs|]. unfold photoFieldPages.
  destruct (get sectionData (field_id field)) as [| | | | |photoData|];
    try constructor.
  destruct photoData; [constructor|]. apply shapeOk_pages. reflexivity.
Qed.

Lemma createSlidesForSection_shapeOk (formData : list (string * JsVal))
  (section : FormSection) (i : nat) (out : list ResolvedSlide) :
  createSlidesForSection formData section i = Ok out ->
  Forall (fun s => shapeOk s = true) out.
Proof.
  unfold createSlidesForSection.
  destruct (forEachM (tableFieldSlides _ _) 0 _ []) as [s1|e] eqn:E1; simpl; [|discriminate].
  destruct (forEachM (bulletFieldSlides _ _) 0 _ s1) as [s2|e] eqn:E2; simpl; [|discriminate].
  destruct (forEachM (photoFieldSlides _ _) 0 _ s2) as [s3|e] eqn:E3; simpl; [|discriminate].
  intros H. injection H as <-.
  assert (H1 : Forall (fun s => shapeOk s = true) s1).
  { eapply (forEachM_invariant (Forall (fun s => shapeOk s = true)));
      [|constructor|exact E1].
    intros acc x j acc'. apply tableFieldSlides_shapeOk. }
  assert (H2 : Forall (fun s => shapeOk s = true) s2).
  { eapply (forEachM_invariant (Forall (fun s => shapeOk s = true)));
      [|exact H1|exact E2].
    intros acc x j acc'. apply bulletFieldSlides_shapeOk. }
  assert (H3 : Forall (fun s => shapeOk s = true) s3).
  { eapply (forEachM_invariant (Forall (fun s => shapeOk s = true)));
      [|exact H2|exact E3].
    intros acc x j acc'. apply photoFieldSlides_shapeOk. }
  unfold textSummarySlides.
  destruct (0 <? _); [|exact H3]. destruct (0 <? _) eqn:E; [|exact H3].
  apply Forall_app. split; [exact H3|]. constructor; [|constructor].
  unfold shapeOk, hasIconPrompt, suggestedTypeOf.
  cbn [slide_layout slide_data slide_originalLayout generativeIconPrompt suggestedChart].
  unfold textListOf in *.
  rewrite getIconPromptForSection_nonempty, forallb_filter.
  destruct (filter truthy _); [discriminate E | reflexivity].
Qed.

(** X8.  Every slide of a resolved deck has the payload its layout is
    rendered from, within the bounds the resolver keeps: see [shapeOk].
    In particular no slide has the section-header layout, no chart is a
    line chart, no list or photo grid is empty, and the slides that ask for
    a generated icon are exactly those other than the title slide and the
    photo grids. *)
Theorem deck_shape (template : ReportTemplate) (formData : list (string * JsVal))
  (slides : list ResolvedSlide) :
  resolve template formData = Ok slides ->
  Forall (fun s => shapeOk s = true) slides.
Proof.
  destruct (createTitleSlide_some template formData) as (t & Ht & _).
  rewrite (resolve_shape template formData t Ht).
  destruct (mapiM _ _ _) as [ps|] eqn:Eps; [|discriminate]. cbn [bind].
  destruct (createSummarySlide template formData) as [summary|] eqn:Es; [|discriminate].
  cbn [bind]. intros H. injection H as <-.
  constructor.
  { unfold createTitleSlide in Ht. injection Ht as <-. reflexivity. }
  apply Forall_app. split.
  - clear - Eps. revert Eps. generalize 0 as i. revert ps.
    induction (template_sections template) as [|sec r IH]; intros ps i H; simpl in H.
    + injection H as <-. constructor.
    + destruct (sectionContribution formData sec i) as [ss|] eqn:E;
        simpl in H; [|discriminate].
      destruct (mapiM _ (S i) r) as [rest|] eqn:Er; simpl in H; [|discriminate].
      injection H as <-. simpl. apply Forall_app. split; [|now apply (IH _ (S i))].
      unfold sectionContribution in E. destruct (isReserved sec).
      * injection E as <-. constructor.
      * now apply createSlidesForSection_shapeOk in E.
  - unfold createSummarySlide in Es.
    destruct (collectKpis template formData) as [kpis|]; [|discriminate].
    cbn [bind] in Es.
    destruct (2 <=? List.length kpis) eqn:H2; [|injection Es as <-; constructor].
    destruct (List.length kpis <=? 4) eqn:H4; [|injection Es as <-; constructor].
    injection Es as <-. constructor; [|constructor].
    unfold shapeOk, hasIconPrompt, suggestedTypeOf.
    cbn [summarySlide slide_layout slide_data slide_originalLayout generativeIconPrompt
         suggestedChart].
    rewrite slice_all by (now apply Nat.leb_le). now rewrite H2, H4.
Qed.

(** X8 at a concrete input: the deck of the offerings table. *)
Lemma deck_shape_witness :
  exists slides,
    resolve offeringsTemplate [("finance", JObj [("offerings", JArr fiveOfferings)])]
    = Ok slides
    /\ map slide_layout slides = [Layout_title; Layout_twoColumn; Layout_chartFull]
    /\ Forall (fun s => shapeOk s = true) slides.
Proof.
  eexists. split; [vm_compute; reflexivity|]. split; [reflexivity|].
  apply (deck_shape offeringsTemplate
           [("finance", JObj [("offerings", JArr fiveOfferings)])]).
  vm_compute. reflexivity.
Defined.

(** ** Slide ids *)

Lemma allDigits_noHyphen (s : string) : allDigits s = true -> noHyphen s = true.
Proof.
  induction s as [|c r IH]; [reflexivity|]. cbn [allDigits noHyphen]. intros H.
  apply andb_true_iff in H. destruct H as [Hc Hr]. rewrite (IH Hr), andb_true_r.
  unfold isDigit in Hc. apply andb_true_iff in Hc. destruct Hc as [Hc _].
  apply Nat.leb_le in Hc. apply negb_true_iff, Nat.eqb_neq. lia.
Qed.

(** A string is cut in one way only at its first hyphen. *)
Lemma split_at_hyphen :
  forall a b x y,
    noHyphen a = true -> noHyphen b = true ->
    a ++ String "-" x = b ++ String "-" y -> a = b /\ x = y.
Proof.
  induction a as [|c a IH]; intros [|d b] x y Ha Hb H; cbn [append] in H.
  - injection H as <-. now split.
  - injection H as <- _. discriminate Hb.
  - injection H as -> _. discriminate Ha.
  - injection H as <- H. cbn [noHyphen] in Ha, Hb.
    apply andb_true_iff in Ha. apply andb_true_iff in Hb.
    destruct (IH b x y (proj2 Ha) (proj2 Hb) H) as [-> ->]. now split.
Qed.

Lemma append_inv_head (a x y : string) : a ++ x = a ++ y -> x = y.
Proof. induction a as [|c a IH]; cbn [append]; intros H; [exact H|]. injection H as H. auto. Qed.

Lemma natToString_head (n : nat) (c : ascii) (r : string) :
  natToString n = String c r -> isDigit c = true.
Proof.
  intros E. destruct (natToString_spec n) as (Hall & _). rewrite E in Hall.
  cbn [allDigits] in Hall. now apply andb_true_iff in Hall.
Qed.

Lemma natToString_pair (i p i' p' : nat) :
  natToString i ++ "-page" ++ natToString p
  = natToString i' ++ "-page" ++ natToString p' ->
  i = i' /\ p = p'.
Proof.
  intros H. cbn [append] in H.
  apply split_at_hyphen in H;
    try (apply allDigits_noHyphen; apply natToString_spec).
  destruct H as [Hi Hp]. injection Hp as Hp.
  split; now apply natToString_inj.
Qed.

Lemma suffixOf_inj (a b : IdKey) : suffixOf a = suffixOf b -> a = b.
Proof.
  intros H.
  destruct a as [i|i|i p|i|i p|], b as [i'|i'|i' p'|i'|i' p'|];
    cbn [suffixOf] in H; peel H; try discriminate H;
    try (apply natToString_inj in H; now subst);
    try (apply natToString_pair in H; destruct H; now subst);
    try reflexivity.
  - apply natToString_head in H. discriminate H.
  - symmetry in H. apply natToString_head in H. discriminate H.
Qed.

Lemma slideId_inj (sid : string) (a b : IdKey) :
  sid ++ suffixOf a = sid ++ suffixOf b -> a = b.
Proof. intros H. now apply append_inv_head, suffixOf_inj in H. Qed.

Lemma NoDup_map_inj {A B : Type} (f : A -> B) (l : list A) :
  (forall x y, f x = f y -> x = y) -> NoDup l -> NoDup (map f l).
Proof.
  intros Hf. induction 1 as [|x l Hx _ IH]; cbn [map]; constructor; [|exact IH].
  intros Hin. apply in_map_iff in Hin. destruct Hin as (y & Hy & Hin).
  apply Hf in Hy. now subst.
Qed.

Lemma keyed_NoDup (sid : string) (bound : nat * nat) (slides : list ResolvedSlide) :
  keyed sid bound slides -> NoDup (map slide_id slides).
Proof.
  intros (keys & -> & Hnd & _). apply NoDup_map_inj; [apply slideId_inj | exact Hnd].
Qed.

Lemma keyed_weaken (sid : string) (bound bound' : nat * nat)
  (slides : list ResolvedSlide) :
  keyed sid bound slides ->
  slotLt bound bound' \/ bound = bound' ->
  keyed sid bound' slides.
Proof.
  intros (keys & Hids & Hnd & Hlt) Hb. exists keys. repeat split; try assumption.
  eapply Forall_impl; [|exact Hlt]. intros k Hk. unfold slotLt in *.
  destruct Hb as [Hb| <-]; [lia | exact Hk].
Qed.

(** The slides one field adds have keys of its slot. *)
Lemma keyed_extend (sid : string) (phase i : nat) (slides new : list ResolvedSlide)
  (newKeys : list IdKey) :
  keyed sid (phase, i) slides ->
  map slide_id new = map (fun k => sid ++ suffixOf k) newKeys ->
  NoDup newKeys ->
  Forall (fun k => slotOf k = (phase, i)) newKeys ->
  keyed sid (phase, S i) (slides ++ new).
Proof.
  intros (keys & Hids & Hnd & Hlt) Hnew Hnd' Hslot.
  rewrite Forall_forall in Hlt, Hslot.
  exists (keys ++ newKeys)%list. split; [|split].
  - now rewrite !map_app, Hids, Hnew.
  - apply NoDup_app; try assumption. intros k Hk Hk'.
    specialize (Hlt k Hk). rewrite (Hslot k Hk') in Hlt.
    unfold slotLt in Hlt. cbn [fst snd] in Hlt. lia.
  - apply Forall_forall. intros k Hk. apply in_app_iff in Hk. unfold slotLt.
    destruct Hk as [Hk|Hk].
    + specialize (Hlt k Hk). unfold slotLt in Hlt. cbn [fst snd] in *. lia.
    + rewrite (Hslot k Hk). cbn [fst snd]. lia.
Qed.

Lemma forEachM_invariant_indexed {St A : Type} (P : nat -> St -> Prop)
  (f : St -> A -> nat -> Result St) :
  (forall acc x i acc', P i acc -> f acc x i = Ok acc' -> P (S i) acc') ->
  forall l i acc out,
    P i acc -> forEachM f i l acc = Ok out -> P (i + List.length l) out.
Proof.
  intros Hf. induction l as [|x r IH]; intros i acc out Hacc H; simpl in H.
  - injection H as <-. cbn [List.length]. now rewrite Nat.add_0_r.
  - destruct (f acc x i) as [acc'|e] eqn:E; simpl in H; [|discriminate].
    cbn [List.length]. rewrite Nat.add_succ_r.
    apply (IH (S i) acc' out); [|exact H]. eapply Hf; eauto.
Qed.

Lemma pageKeys_NoDup (K : nat -> IdKey) (n : nat) :
  (forall p q, K p = K q -> p = q) ->
  NoDup (map (fun j => K (j + 1)) (seq 0 n)).
Proof.
  intros HK. apply NoDup_map_inj; [|apply seq_NoDup].
  intros x y H. apply HK in H. lia.
Qed.

Lemma tableFieldSlides_keyed (section : FormSection) (sectionData : JsVal)
  (slides : list ResolvedSlide) (field : FormField) (i : nat)
  (out : list ResolvedSlide) :
  keyed (section_id section) (0, i) slides ->
  tableFieldSlides section sectionData slides field i = Ok out ->
  keyed (section_id section) (0, S i) out.
Proof.
  intros Hs H. apply tableFieldSlides_shape in H.
  destruct H as [->|(tableData & rows & chart & photos & _ & _ & _ & Hc & _ & ->)].
  { eapply keyed_weaken; [exact Hs|]. left. unfold slotLt. cbn [fst snd]. lia. }
  apply (keyed_extend _ _ _ _ _
           (KTable i
            :: match chart with Some _ => [KChart i] | None => [] end
            ++ map (fun j => KTablePhotos i (j + 1))
                   (seq 0 (ceilDiv4 (List.length photos))))%list Hs).
  - cbn [map]. f_equal. rewrite !map_app. f_equal.
    + destruct chart as [c|]; [|reflexivity].
      apply createChartFromTable_slide in Hc. destruct Hc as [items ->]. reflexivity.
    + unfold pagesOf. rewrite !map_map. apply map_ext. intros j. reflexivity.
  - constructor.
    + intros Hin. apply in_app_iff in Hin. destruct Hin as [Hin|Hin].
      * destruct chart; [destruct Hin as [Hin|[]]; discriminate Hin | destruct Hin].
      * apply in_map_iff in Hin. destruct Hin as (j & Hj & _). discriminate Hj.
    + apply NoDup_app.
      * destruct chart; [constructor; [intros []|constructor] | constructor].
      * apply pageKeys_NoDup. intros p q Hpq. now injection Hpq.
      * intros k Hk Hk'. apply in_map_iff in Hk'. destruct Hk' as (j & <- & _).
        destruct chart; [destruct Hk as [Hk|[]]; discriminate Hk | destruct Hk].
  - constructor; [reflexivity|]. apply Forall_app. split.
    + destruct chart; repeat constructor.
    + apply Forall_forall. intros k Hk. apply in_map_iff in Hk.
      now destruct Hk as (j & <- & _).
Qed.

Lemma bulletFieldSlides_keyed (section : FormSection) (sectionData : JsVal)
  (slides : list ResolvedSlide) (field : FormField) (i : nat)
  (out : list ResolvedSlide) :
  keyed (section_id section) (1, i) slides ->
  bulletFieldSlides section sectionData slides field i = Ok out ->
  keyed (section_id section) (1, S i) out.
Proof.
  intros Hs H.
  assert (Hw : keyed (section_id section) (1, S i) slides).
  { eapply keyed_weaken; [exact Hs|]. left. unfold slotLt. cbn [fst snd]. lia. }
  unfold bulletFieldSlides in H.
  destruct (get sectionData (field_id field)) as [| | | | |bulletData|];
    try (now injection H as <-).
  destruct (_ =? 0); injection H as <-; [exact Hw|].
  apply (keyed_extend _ _ _ _ _ [KBullet i] Hs); [reflexivity | |].
  - constructor; [intros [] | constructor].
  - repeat constructor.
Qed.

Lemma photoFieldSlides_keyed (section : FormSection) (sectionData : JsVal)
  (slides : list ResolvedSlide) (field : FormField) (i : nat)
  (out : list ResolvedSlide) :
  keyed (section_id section) (2, i) slides ->
  photoFieldSlides section sectionData slides field i = Ok out ->
  keyed (section_id section) (2, S i) out.
Proof.
  intros Hs. rewrite photoFieldSlides_pages. intros H. injection H as <-.
  assert (Hw : keyed (section_id section) (2, S i) (slides ++ [])).
  { rewrite app_nil_r. eapply keyed_weaken; [exact Hs|].
    left. unfold slotLt. cbn [fst snd]. lia. }
  unfold photoFieldPages.
  destruct (get sectionData (field_id field)) as [| | | | |photoData|]; try exact Hw.
  destruct photoData as [|p0 rest]; [exact Hw|].
  apply (keyed_extend _ _ _ _ _
           (map (fun j => KPhotos i (j + 1))
                (seq 0 (ceilDiv4 (List.length (p0 :: rest))))) Hs).
  - unfold pagesOf. rewrite !map_map. apply map_ext. intros j. reflexivity.
  - apply pageKeys_NoDup. intros p q Hpq. now injection Hpq.
  - apply Forall_forall. intros k Hk. apply in_map_iff in Hk.
    now destruct Hk as (j & <- & _).
Qed.

(** The slides a section has before its text summary. *)
Lemma createSlidesForSection_front (formData : list (string * JsVal))
  (section : FormSection) (i : nat) (out : list ResolvedSlide) :
  createSlidesForSection formData section i = Ok out ->
  exists front,
    keyed (section_id section) (3, 0) front
    /\ out = textSummarySlides section (sectionDataOf formData section)
                               (filter isTextField (section_fields section)) front.
Proof.
  unfold createSlidesForSection. fold (sectionDataOf formData section).
  destruct (forEachM (tableFieldSlides _ _) 0 _ []) as [s1|e] eqn:E1; simpl; [|discriminate].
  destruct (forEachM (bulletFieldSlides _ _) 0 _ s1) as [s2|e] eqn:E2; simpl; [|discriminate].
  destruct (forEachM (photoFieldSlides _ _) 0 _ s2) as [s3|e] eqn:E3; simpl; [|discriminate].
  intros H. injection H as <-.
  assert (Hup : forall a b c d l,
             keyed (section_id section) (a, b) l -> a < c ->
             keyed (section_id section) (c, d) l).
  { intros a b c d l Hl Hac. eapply keyed_weaken; [exact Hl|].
    left. unfold slotLt. cbn [fst snd]. lia. }
  assert (H0 : keyed (section_id section) (0, 0) []).
  { exists []. repeat split; constructor. }
  pose proof (forEachM_invariant_indexed
                (fun j acc => keyed (section_id section) (0, j) acc) _
                (fun acc x j acc' => tableFieldSlides_keyed section _ acc x j acc')
                _ _ _ _ H0 E1) as H1.
  pose proof (forEachM_invariant_indexed
                (fun j acc => keyed (section_id section) (1, j) acc) _
                (fun acc x j acc' => bulletFieldSlides_keyed section _ acc x j acc')
                _ _ _ _ (Hup _ _ 1 0 _ H1 ltac:(lia)) E2) as H2.
  pose proof (forEachM_invariant_indexed
                (fun j acc => keyed (section_id section) (2, j) acc) _
                (fun acc x j acc' => photoFieldSlides_keyed section _ acc x j acc')
                _ _ _ _ (Hup _ _ 2 0 _ H2 ltac:(lia)) E3) as H3.
  exists s3. split; [|reflexivity]. apply (Hup _ _ 3 0 _ H3). lia.
Qed.

Lemma createSlidesForSection_keyed (formData : list (string * JsVal))
  (section : FormSection) (i : nat) (out : list ResolvedSlide) :
  createSlidesForSection formData section i = Ok out ->
  keyed (section_id section) (4, 0) out.
Proof.
  intros H. apply createSlidesForSection_front in H.
  destruct H as (front & Hfront & ->).
  assert (Hw : keyed (section_id section) (4, 0) front).
  { eapply keyed_weaken; [exact Hfront|]. left. unfold slotLt. cbn [fst snd]. lia. }
  unfold textSummarySlides.
  destruct (0 <? _); [|exact Hw]. destruct (0 <? _); [|exact Hw].
  eapply keyed_weaken;
    [|left; unfold slotLt; cbn [fst snd];
      instantiate (1 := (3, 1)); cbn [fst snd]; lia].
  apply (keyed_extend _ _ _ _ _ [KText] Hfront); [reflexivity | |].
  - constructor; [intros [] | constructor].
  - repeat constructor.
Qed.

Lemma keyed_prefix (sid : string) (bound : nat * nat) (slides : list ResolvedSlide) :
  keyed sid bound slides ->
  Forall (fun s => exists tail, slide_id s = sid ++ String "-" tail) slides.
Proof.
  intros (keys & Hids & _). revert keys Hids.
  induction slides as [|s r IH]; intros [|k keys] Hids; try discriminate Hids;
    constructor.
  - cbn [map] in Hids. injection Hids as -> _.
    destruct k; eexists; reflexivity.
  - cbn [map] in Hids. injection Hids as _ Hids. eapply IH, Hids.
Qed.

Lemma sectionContributions_ids (formData : list (string * JsVal)) :
  forall sections i perSection,
    plainSectionIds sections ->
    mapiM (sectionContribution formData) i sections = Ok perSection ->
    NoDup (map slide_id (List.concat perSection))
    /\ Forall (fun s => exists sid tail,
                 In sid (sectionIdsOf sections)
                 /\ slide_id s = sid ++ String "-" tail)
              (List.concat perSection).
Proof.
  induction sections as [|sec r IH]; intros i perSection Hplain H; simpl in H.
  - injection H as <-. split; constructor.
  - destruct (sectionContribution formData sec i) as [ss|e] eqn:E;
      simpl in H; [|discriminate].
    destruct (mapiM _ (S i) r) as [rest|e] eqn:Er; simpl in H; [|discriminate].
    injection H as <-. cbn [List.concat].
    unfold sectionContribution in E. unfold plainSectionIds, sectionIdsOf in *.
    cbn [filter] in *.
    destruct (isReserved sec); cbn [negb map] in *.
    + injection E as <-. cbn [app]. now apply (IH (S i)).
    + destruct Hplain as [Hnd Hall].
      inversion Hnd as [|? ? Hnotin Hnd']; subst.
      inversion Hall as [|? ? (Hhy & _ & _) Hall']; subst.
      destruct (IH (S i) rest (conj Hnd' Hall') Er) as [IHnd IHpre].
      apply createSlidesForSection_keyed in E.
      pose proof (keyed_NoDup _ _ _ E) as Hss.
      pose proof (keyed_prefix _ _ _ E) as Hpre.
      rewrite Forall_forall in Hpre, IHpre, Hall'. split.
      * rewrite map_app. apply NoDup_app; try assumption.
        intros id Hid Hid'. apply in_map_iff in Hid, Hid'.
        destruct Hid as (s & <- & Hs). destruct Hid' as (s' & Heq & Hs').
        destruct (Hpre s Hs) as [tail Htail].
        destruct (IHpre s' Hs') as (sid' & tail' & Hin' & Htail').
        rewrite Htail, Htail' in Heq.
        apply split_at_hyphen in Heq;
          [|apply (Hall' sid' Hin') | exact Hhy].
        destruct Heq as [-> _]. contradiction.
      * apply Forall_app. split; apply Forall_forall.
        -- intros s Hs. destruct (Hpre s Hs) as [tail Htail].
           exists (section_id sec), tail. split; [now left | exact Htail].
        -- intros s Hs. destruct (IHpre s Hs) as (sid' & tail' & Hin' & Htail').
           exists sid', tail'. split; [now right | exact Htail'].
Qed.

(** X9.  Slide ids are distinct.  The slides of one section have pairwise
    distinct ids, whatever the template and the form data.  So have the
    slides of a whole deck when the ids of the sections other than [header]
    and [signatures] are pairwise distinct, contain no hyphen and are
    neither [title] nor [summary].  The condition on hyphens matters: with
    a section [a] and a section [a-table], the photo page of a table of the
    first and the photo page of a photo collection of the second get the
    same id. *)
Theorem slideIds_distinct :
  (forall formData section sectionIndex out,
     createSlidesForSection formData section sectionIndex = Ok out ->
     NoDup (map slide_id out)) /\
  (forall template formData slides,
     plainSectionIds (template_sections template) ->
     resolve template formData = Ok slides ->
     NoDup (map slide_id slides)) /\
  (exists slides,
     resolve clashTemplate clashData = Ok slides
     /\ map slide_id slides
        = ["title-demo"; "a-table-0"; "a-table-photos-0-page1";
           "a-table-photos-0-page1"]).
Proof.
  split; [|split].
  - intros formData section i out H.
    eapply keyed_NoDup, createSlidesForSection_keyed, H.
  - intros template formData slides Hplain.
    destruct (createTitleSlide_some template formData) as (t & Ht & Htid & _).
    rewrite (resolve_shape template formData t Ht).
    destruct (mapiM _ _ _) as [ps|] eqn:Eps; [|discriminate]. cbn [bind].
    destruct (createSummarySlide template formData) as [summary|] eqn:Es;
      [|discriminate].
    cbn [bind]. intros H. injection H as <-.
    destruct (sectionContributions_ids formData _ _ _ Hplain Eps) as [Hnd Hpre].
    destruct Hplain as [_ Hall]. rewrite Forall_forall in Hpre, Hall.
    assert (Hsum : forall s, summary = Some s ->
                             slide_id s = "summary" ++ String "-" (template_key template)).
    { intros s ->. unfold createSummarySlide in Es.
      destruct (collectKpis template formData); [|discriminate]. cbn [bind] in Es.
      destruct (_ && _); [|discriminate]. now injection Es as <-. }
    assert (Hfresh : forall pre tail s,
               noHyphen pre = true ->
               (forall sid, In sid (sectionIdsOf (template_sections template)) ->
                            sid <> pre) ->
               In s (List.concat ps) -> slide_id s <> pre ++ String "-" tail).
    { intros pre tail s Hpre' Hne Hs Heq.
      destruct (Hpre s Hs) as (sid & tail' & Hin & Hid). rewrite Hid in Heq.
      apply split_at_hyphen in Heq; [|apply (Hall sid Hin) | exact Hpre'].
      destruct Heq as [Heq _]. exact (Hne sid Hin Heq). }
    cbn [map]. rewrite map_app. constructor.
    + rewrite Htid. intros Hin. apply in_app_iff in Hin. destruct Hin as [Hin|Hin].
      * apply in_map_iff in Hin. destruct Hin as (s & Hs & Hin).
        apply (Hfresh "title" (template_key template) s eq_refl); try assumption.
        intros sid Hsid. apply (Hall sid Hsid).
      * destruct summary as [s|]; [|destruct Hin].
        destruct Hin as [Hin|[]]. rewrite (Hsum s eq_refl) in Hin. discriminate Hin.
    + apply NoDup_app; [exact Hnd | |].
      * destruct summary; repeat constructor. intros [].
      * intros id Hid Hid'. destruct summary as [s|]; [|destruct Hid'].
        destruct Hid' as [<-|[]]. apply in_map_iff in Hid.
        destruct Hid as (s' & Heq & Hs').
        apply (Hfresh "summary" (template_key template) s' eq_refl); try assumption.
        -- intros sid Hsid. apply (Hall sid Hsid).
        -- now rewrite Heq, (Hsum s eq_refl).
  - eexists. split; [vm_compute; reflexivity | reflexivity].
Qed.

(** X9 at a concrete input: the deck of the offerings table. *)
Lemma slideIds_distinct_witness :
  exists slides,
    resolve offeringsTemplate [("finance", JObj [("offerings", JArr fiveOfferings)])]
    = Ok slides
    /\ map slide_id slides = ["title-demo"; "finance-table-0"; "finance-chart-0"]
    /\ NoDup (map slide_id slides).
Proof.
  eexists. split; [vm_compute; reflexivity|]. split; [reflexivity|].
  apply (proj1 (proj2 slideIds_distinct) offeringsTemplate
           [("finance", JObj [("offerings", JArr fiveOfferings)])]).
  - split.
    + repeat constructor. intros [].
    + repeat constructor; discriminate.
  - vm_compute. reflexivity.
Defined.

(** ** The text summary of a section *)

Lemma textListOf_entries (sectionData : JsVal) (fields : list FormField) :
  textListOf sectionData fields
  = map (textEntry sectionData)
        (filter (fun f => truthy (get sectionData (field_id f))) fields).
Proof.
  unfold textListOf. induction fields as [|f r IH]; [reflexivity|].
  cbn [map filter]. destruct (truthy (get sectionData (field_id f))) eqn:E;
    cbn [negb truthy].
  - assert (Hne : isEmpty (field_label f ++ ": " ++ toString (get sectionData (field_id f)))
                  = false) by (destruct (field_label f); reflexivity).
    rewrite Hne. cbn [negb map]. now rewrite IH.
  - exact IH.
Qed.

Lemma keyed_elim (sid : string) (bound : nat * nat) (slides : list ResolvedSlide) :
  keyed sid bound slides ->
  Forall (fun s => exists k, slide_id s = sid ++ suffixOf k
                             /\ slotLt (slotOf k) bound) slides.
Proof.
  intros (keys & Hids & _ & Hlt). revert keys Hids Hlt.
  induction slides as [|s r IH]; intros [|k keys] Hids Hlt; try discriminate Hids;
    constructor.
  - cbn [map] in Hids. injection Hids as -> _. exists k. split; [reflexivity|].
    now inversion Hlt.
  - cbn [map] in Hids. injection Hids as _ Hids. inversion Hlt; subst.
    eapply IH; eauto.
Qed.

(** X10.  The text summary of a section.  The slides of a section end with
    one text-summary slide when some text, textarea, number or date field
    of the section stores a truthy value, and with none otherwise; no
    earlier slide of the section has its id.  The slide lists, in the order
    the fields are declared, one line for each such field, made of the
    label, a colon and the stored value as text; a field that stores a
    falsy value, such as the number zero or the empty text, has no line.
    This holds of a section whose id and whose text-like field ids name no
    member of [Object.prototype], with a record or nothing stored under its
    id: a read then yields what is stored and nothing inherited. *)
Theorem textSummary_entries (formData : list (string * JsVal))
  (section : FormSection) (sectionIndex : nat) (out : list ResolvedSlide) :
  isObjectPrototypeKey (section_id section) = false ->
  (exists props, sectionDataOf formData section = JObj props) ->
  Forall (fun f => isObjectPrototypeKey (field_id f) = false)
         (filter isTextField (section_fields section)) ->
  createSlidesForSection formData section sectionIndex = Ok out ->
  let sectionData := sectionDataOf formData section in
  let filled := filledTextFields sectionData section in
  exists front,
    out = (front
           ++ match filled with
              | [] => []
              | _ => [textSlideOf section (map (textEntry sectionData) filled)]
              end)%list
    /\ Forall (fun s => slide_id s <> section_id section ++ "-text-summary") front.
Proof.
  intros _ _ _ H sectionData filled. apply createSlidesForSection_front in H.
  destruct H as (front & Hfront & ->). exists front. split.
  - unfold textSummarySlides. fold sectionData.
    rewrite textListOf_entries. fold (filledTextFields sectionData section).
    fold filled. rewrite length_map.
    destruct (filter isTextField (section_fields section)) as [|f0 fs] eqn:Ef.
    + unfold filled, filledTextFields. rewrite Ef. cbn. now rewrite app_nil_r.
    + cbn [List.length Nat.ltb Nat.leb].
      destruct filled; cbn; [now rewrite app_nil_r | reflexivity].
  - apply keyed_elim in Hfront. eapply Forall_impl; [|exact Hfront].
    intros s (k & Hid & Hlt) Heq. rewrite Hid in Heq.
    apply (slideId_inj _ k KText) in Heq. subst k.
    unfold slotLt in Hlt. cbn in Hlt. lia.
Qed.

(** X10 at a concrete input: five text-like fields, of which the one that
    stores zero and the one that stores the empty text have no line. *)
Lemma textSummary_entries_witness :
  exists front,
    createSlidesForSection aboutData aboutSection 0
    = Ok (front
          ++ [textSlideOf aboutSection
                [JStr "Leader: Grace"; JStr "Members: 42"; JStr "Date: 2025-03-31"]])%list.
Proof.
  destruct (textSummary_entries aboutData aboutSection 0 _ eq_refl
              (ex_intro _ _ eq_refl) ltac:(repeat constructor) eq_refl)
    as (front & Hout & _).
  exists front. vm_compute in Hout |- *. now rewrite <- Hout.
Defined.

(** ** The colour sanitizer *)

Lemma upperChar_hex (c : ascii) :
  isHexDigit c = true -> isUpperHexDigit (upperChar c) = true.
Proof.
  destruct c as [[] [] [] [] [] [] [] []]; intros H;
    try discriminate H; reflexivity.
Qed.

Lemma upperChar_upperHex (c : ascii) :
  isUpperHexDigit c = true ->
  upperChar c = c /\ isHexDigit c = true /\ isWhiteSpace c = false
  /\ c <> "#"%char /\ c <> "r"%char.
Proof.
  destruct c as [[] [] [] [] [] [] [] []]; intros H;
    try discriminate H; repeat split; discriminate.
Qed.

Lemma toUpperCase_hex (s : string) :
  allChars isHexDigit s = true ->
  allChars isUpperHexDigit (toUpperCase s) = true
  /\ String.length (toUpperCase s) = String.length s.
Proof.
  induction s as [|c r IH]; [now split|]. cbn [allChars toUpperCase String.length].
  intros H. apply andb_true_iff in H. destruct H as [Hc Hr].
  destruct (IH Hr) as [IH1 IH2]. now rewrite (upperChar_hex c Hc), IH1, IH2.
Qed.

Lemma isHex_code (n : nat) (s : string) :
  isHex n s = true ->
  allChars isUpperHexDigit (toUpperCase s) = true
  /\ String.length (toUpperCase s) = n.
Proof.
  unfold isHex. intros H. apply andb_true_iff in H. destruct H as [Hl Hh].
  apply Nat.eqb_eq in Hl. destruct (toUpperCase_hex s Hh) as [H1 H2].
  split; [exact H1 | congruence].
Qed.

Lemma isColorCode_intro (s : string) :
  allChars isUpperHexDigit s = true -> String.length s = 6 -> isColorCode s = true.
Proof. intros H1 H2. unfold isColorCode. now rewrite H1, H2. Qed.

Lemma allChars_app (p : ascii -> bool) (a b : string) :
  allChars p (a ++ b) = allChars p a && allChars p b.
Proof.
  induction a as [|c a IH]; [reflexivity|]. cbn [append allChars].
  now rewrite IH, andb_assoc.
Qed.

Lemma length_append (a b : string) :
  String.length (a ++ b) = String.length a + String.length b.
Proof. induction a as [|c a IH]; [reflexivity|]. cbn [append String.length]. now rewrite IH. Qed.

Lemma hexChar_hex (d : N) : (d < 16)%N -> isHexDigit (hexChar d) = true.
Proof.
  intros H. unfold hexChar, isHexDigit, code, nat_of_ascii.
  destruct (d <? 10)%N eqn:E.
  - apply N.ltb_lt in E. rewrite N_ascii_embedding by lia.
    assert (E1 : (48 <=? N.to_nat (48 + d)) = true) by (apply Nat.leb_le; lia).
    assert (E2 : (N.to_nat (48 + d) <=? 57) = true) by (apply Nat.leb_le; lia).
    now rewrite E1, E2.
  - apply N.ltb_ge in E. rewrite N_ascii_embedding by lia.
    assert (E1 : (97 <=? N.to_nat (87 + d)) = true) by (apply Nat.leb_le; lia).
    assert (E2 : (N.to_nat (87 + d) <=? 102) = true) by (apply Nat.leb_le; lia).
    now rewrite E1, E2, !orb_true_r.
Qed.

(** The hexadecimal numeral of a number below [16^(k+1)] has at most
    [k+1] digits. *)
Lemma hexDigitsOfN_spec :
  forall fuel k n acc,
    (n < 16 ^ N.of_nat (S k))%N ->
    exists d,
      hexDigitsOfN fuel n acc = d ++ acc
      /\ allChars isHexDigit d = true
      /\ String.length d <= S k.
Proof.
  induction fuel as [|f IH]; intros k n acc Hn; cbn [hexDigitsOfN];
    assert (Hmod : (n mod 16 < 16)%N) by (apply N.mod_lt; discriminate).
  - exists (String (hexChar (n mod 16)) ""). cbn [append allChars String.length].
    rewrite (hexChar_hex _ Hmod). repeat split. lia.
  - destruct (n / 16 =? 0)%N eqn:Hq.
    + exists (String (hexChar (n mod 16)) ""). cbn [append allChars String.length].
      rewrite (hexChar_hex _ Hmod). repeat split. lia.
    + apply N.eqb_neq in Hq.
      destruct k as [|k].
      { exfalso. apply Hq. apply N.div_small. exact Hn. }
      destruct (IH k (n / 16)%N (String (hexChar (n mod 16)) acc))
        as (d & Hd & Hall & Hlen).
      { replace (N.of_nat (S (S k))) with (N.succ (N.of_nat (S k))) in Hn by lia.
        rewrite N.pow_succ_r' in Hn. apply N.Div0.div_lt_upper_bound. lia. }
      exists (d ++ String (hexChar (n mod 16)) "").
      split; [rewrite Hd; now rewrite append_assoc|]. split.
      * rewrite allChars_app, Hall. cbn [allChars]. now rewrite (hexChar_hex _ Hmod).
      * rewrite length_append. cbn [String.length]. lia.
Qed.

Lemma clampChannel_le (run : string) : (clampChannel run <= 255)%N.
Proof. unfold clampChannel. lia. Qed.

Lemma packRgb_lt (r g b : N) :
  (r <= 255)%N -> (g <= 255)%N -> (b <= 255)%N -> (packRgb r g b < 16 ^ 6)%N.
Proof.
  intros Hr Hg Hb. unfold packRgb.
  assert (Hlt : forall x y, (x < 2 ^ 24)%N -> (y < 2 ^ 24)%N -> (N.lor x y < 2 ^ 24)%N).
  { intros x y Hx Hy.
    destruct (N.eq_dec (N.lor x y) 0) as [->|Hz]; [reflexivity|].
    apply N.log2_lt_pow2; [lia|]. rewrite N.log2_lor.
    destruct (N.eq_dec x 0) as [->|Hx0]; destruct (N.eq_dec y 0) as [->|Hy0].
    - reflexivity.
    - rewrite N.max_r by apply N.le_0_l. apply N.log2_lt_pow2; lia.
    - rewrite N.max_l by apply N.le_0_l. apply N.log2_lt_pow2; lia.
    - apply N.max_lub_lt; apply N.log2_lt_pow2; lia. }
  change (16 ^ 6)%N with (2 ^ 24)%N.
  rewrite !N.shiftl_mul_pow2.
  apply Hlt; [apply Hlt|]; cbn; lia.
Qed.

Lemma zeros_hex (n : nat) :
  allChars isHexDigit (zeros n) = true /\ String.length (zeros n) = n.
Proof.
  induction n as [|n [IH1 IH2]]; [now split|]. cbn [zeros allChars String.length].
  rewrite IH1, IH2. now split.
Qed.

Lemma rgb_code (r g b : N) :
  (r <= 255)%N -> (g <= 255)%N -> (b <= 255)%N ->
  isColorCode (toUpperCase (padStart0 6 (toString16 (packRgb r g b)))) = true.
Proof.
  intros Hr Hg Hb. pose proof (packRgb_lt r g b Hr Hg Hb) as Hlt.
  unfold toString16.
  destruct (hexDigitsOfN_spec (N.size_nat (packRgb r g b)) 5 (packRgb r g b) "" Hlt)
    as (d & Hd & Hall & Hlen).
  rewrite Hd, append_empty_r. unfold padStart0.
  destruct (zeros_hex (6 - String.length d)) as [Hz1 Hz2].
  assert (Hhex : isHex 6 (zeros (6 - String.length d) ++ d) = true).
  { unfold isHex. rewrite allChars_app, Hz1, Hall, length_append, Hz2.
    cbn [andb]. rewrite andb_true_r. apply Nat.eqb_eq. lia. }
  destruct (isHex_code _ _ Hhex). now apply isColorCode_intro.
Qed.

Lemma colorNames_codes (k code : string) :
  lookupName k colorNames = Some code -> isColorCode code = true.
Proof.
  unfold colorNames. cbn [lookupName].
  repeat match goal with
         | |- context [if ?b then _ else _] => destruct b
         end;
    intros H; try discriminate H; injection H as <-; reflexivity.
Qed.

(** The result is a colour code whenever the fallback is one, unless the
    name lookup reads a member of [Object.prototype]. *)
Lemma sanitizeColor_code (color : JsVal) (fallback : string) :
  isColorCode fallback = true ->
  match sanitizeColor color fallback with
  | ColorText text => isColorCode text = true
  | PrototypeMember key =>
      exists text,
        color = JStr text /\ key = toLowerCase (trim text) /\ inheritedKey key = true
  end.
Proof.
  intros Hfb. unfold sanitizeColor.
  destruct color as [| | | |text| |]; try exact Hfb.
  destruct (isEmpty text || isEmpty (trim text)); [exact Hfb|].
  destruct (String.prefix "#" (trim text)).
  { destruct (isHex 6 (substring1 (trim text))) eqn:H6.
    - destruct (isHex_code _ _ H6). now apply isColorCode_intro.
    - destruct (isHex 3 (substring1 (trim text))) eqn:H3; [|exact Hfb].
      destruct (substring1 (trim text)) as [|a [|b [|c [|? ?]]]]; try discriminate H3.
      unfold isHex in H3. cbn [String.length Nat.eqb allChars andb] in H3.
      apply andb_true_iff in H3. destruct H3 as [Ha H3].
      apply andb_true_iff in H3. destruct H3 as [Hb H3].
      apply andb_true_iff in H3. destruct H3 as [Hc _].
      unfold isColorCode. cbn.
      now rewrite !(upperChar_hex _ Ha), !(upperChar_hex _ Hb), !(upperChar_hex _ Hc). }
  destruct (String.prefix "rgb" (trim text)).
  { destruct (digitRuns (trim text)) as [|r0 [|g0 [|b0 rest]]]; try exact Hfb.
    apply rgb_code; apply clampChannel_le. }
  destruct (isHex 6 (trim text)) eqn:H6.
  { destruct (isHex_code _ _ H6). now apply isColorCode_intro. }
  destruct (lookupName _ colorNames) as [code|] eqn:Hn.
  { eapply colorNames_codes, Hn. }
  destruct (inheritedKey _) eqn:Hi; [|exact Hfb].
  exists text. now repeat split.
Qed.

(** X11.  [sanitizeColor] yields a colour code.  With a fallback that is a
    colour code (six hexadecimal digits, letters in upper case), as in the
    five calls of the export, the result is a colour code for every input
    value, except for a text that is, trimmed and in lower case,
    [constructor] or [__proto__]: for these the name lookup returns the
    member of [Object.prototype] of that name, which is not a text.
    Channels of an [rgb] text above 255 are clamped. *)
Theorem sanitizeColor_valid :
  Forall (fun fallback => isColorCode fallback = true) themeFallbacks /\
  (forall color fallback,
     isColorCode fallback = true ->
     match sanitizeColor color fallback with
     | ColorText text => isColorCode text = true
     | PrototypeMember key =>
         exists text,
           color = JStr text /\ key = toLowerCase (trim text)
           /\ inheritedKey key = true
     end) /\
  sanitizeColor (JStr " Constructor ") "FFFFFF" = PrototypeMember "constructor" /\
  sanitizeColor (JStr "rgb(300, 16, 0)") "FFFFFF" = ColorText "FF1000".
Proof.
  split; [repeat constructor|]. split; [exact sanitizeColor_code|].
  split; reflexivity.
Qed.

(** X11 at a concrete input: a three-digit colour. *)
Lemma sanitizeColor_valid_witness :
  sanitizeColor (JStr "#abc") "000080" = ColorText "AABBCC"
  /\ isColorCode "AABBCC" = true.
Proof.
  split; [reflexivity|].
  exact (proj1 (proj2 sanitizeColor_valid) (JStr "#abc") "000080" eq_refl).
Defined.

Lemma trim_plain (s : string) :
  allChars (fun c => negb (isWhiteSpace c)) s = true -> trim s = s.
Proof.
  intros H. unfold trim.
  assert (E : trimStart s = s).
  { destruct s as [|c r]; [reflexivity|]. cbn [allChars] in H.
    apply andb_true_iff in H. destruct H as [Hc _]. apply negb_true_iff in Hc.
    cbn [trimStart]. now rewrite Hc. }
  rewrite E. clear E. induction s as [|c r IH]; [reflexivity|].
  cbn [allChars] in H. apply andb_true_iff in H. destruct H as [Hc Hr].
  apply negb_true_iff in Hc. cbn [trimEnd]. rewrite (IH Hr).
  destruct r; [now rewrite Hc | reflexivity].
Qed.

Lemma colorCode_facts (s : string) :
  isColorCode s = true ->
  exists c r,
    s = String c r
    /\ c <> "#"%char /\ c <> "r"%char
    /\ allChars (fun c => negb (isWhiteSpace c)) s = true
    /\ isHex 6 s = true
    /\ toUpperCase s = s.
Proof.
  unfold isColorCode, isHex. intros H. apply andb_true_iff in H.
  destruct H as [Hl Hu]. rewrite Hl. cbn [andb].
  assert (Hall : allChars (fun c => negb (isWhiteSpace c)) s = true
                 /\ allChars isHexDigit s = true /\ toUpperCase s = s).
  { clear Hl. induction s as [|c r IH]; [now repeat split|].
    cbn [allChars toUpperCase] in *. apply andb_true_iff in Hu.
    destruct Hu as [Hc Hr]. destruct (IH Hr) as (I1 & I2 & I3).
    destruct (upperChar_upperHex c Hc) as (U1 & U2 & U3 & _).
    now rewrite U1, U2, U3, I1, I2, I3. }
  destruct Hall as (H1 & H2 & H3).
  destruct s as [|c r]; [discriminate Hl|].
  cbn [allChars] in Hu. apply andb_true_iff in Hu. destruct Hu as [Hc _].
  destruct (upperChar_upperHex c Hc) as (_ & _ & _ & U4 & U5).
  exists c, r. now repeat split.
Qed.

(** X12.  Colour codes are fixed points.  A colour code, with or without
    a leading [#], is returned as it is, whatever the fallback; so
    sanitizing a text result again changes nothing.  A text of six
    hexadecimal digits is returned in upper case. *)
Theorem sanitizeColor_fixpoint :
  (forall code fallback,
     isColorCode code = true ->
     sanitizeColor (JStr code) fallback = ColorText code
     /\ sanitizeColor (JStr (String "#" code)) fallback = ColorText code) /\
  (forall color fallback fallback' text,
     isColorCode fallback = true ->
     sanitizeColor color fallback = ColorText text ->
     sanitizeColor (JStr text) fallback' = ColorText text) /\
  (forall text fallback,
     isHex 6 text = true ->
     sanitizeColor (JStr text) fallback = ColorText (toUpperCase text)).
Proof.
  assert (Hfix : forall code fallback,
             isColorCode code = true ->
             sanitizeColor (JStr code) fallback = ColorText code
             /\ sanitizeColor (JStr (String "#" code)) fallback = ColorText code).
  { intros code fallback Hc.
    destruct (colorCode_facts code Hc) as (c & r & -> & Hh & Hr & Hws & Hhex & Hup).
    split.
    - unfold sanitizeColor. rewrite (trim_plain _ Hws). cbn [isEmpty orb].
      assert (E1 : String.prefix "#" (String c r) = false).
      { cbn [String.prefix]. destruct (ascii_dec "#" c); [congruence | reflexivity]. }
      assert (E2 : String.prefix "rgb" (String c r) = false).
      { cbn [String.prefix]. destruct (ascii_dec "r" c); [congruence | reflexivity]. }
      now rewrite E1, E2, Hhex, Hup.
    - unfold sanitizeColor.
      assert (Hws' : allChars (fun c => negb (isWhiteSpace c)) (String "#" (String c r))
                     = true) by (cbn [allChars] in *; now rewrite Hws).
      rewrite (trim_plain _ Hws'). cbn [isEmpty orb String.prefix substring1].
      destruct (ascii_dec "#" "#"); [|congruence].
      now rewrite Hhex, Hup. }
  split; [exact Hfix|]. split.
  - intros color fallback fallback' text Hfb H.
    pose proof (sanitizeColor_code color fallback Hfb) as Hc. rewrite H in Hc.
    apply (Hfix text fallback' Hc).
  - intros text fallback H6. unfold sanitizeColor.
    pose proof H6 as H6'. unfold isHex in H6'. apply andb_true_iff in H6'.
    destruct H6' as [Hl Hh].
    assert (Hfacts : allChars (fun c => negb (isWhiteSpace c)) text = true).
    { clear - Hh. induction text as [|c r IH]; [reflexivity|].
      cbn [allChars] in *. apply andb_true_iff in Hh. destruct Hh as [Hc Hr].
      rewrite (IH Hr), andb_true_r.
      destruct c as [[] [] [] [] [] [] [] []]; try discriminate Hc; reflexivity. }
    rewrite (trim_plain _ Hfacts).
    destruct text as [|c r]; [discriminate Hl|]. cbn [isEmpty orb].
    cbn [allChars] in Hh. apply andb_true_iff in Hh. destruct Hh as [Hc _].
    assert (E1 : String.prefix "#" (String c r) = false).
    { cbn [String.prefix]. destruct (ascii_dec "#" c) as [<-|]; [discriminate Hc | reflexivity]. }
    assert (E2 : String.prefix "rgb" (String c r) = false).
    { cbn [String.prefix]. destruct (ascii_dec "r" c) as [<-|]; [discriminate Hc | reflexivity]. }
    now rewrite E1, E2, H6.
Qed.

(** X12 at a concrete input: the result for a colour name is returned as
    it is when sanitized again. *)
Lemma sanitizeColor_fixpoint_witness :
  sanitizeColor (JStr "Orange") "FFFFFF" = ColorText "FFA500"
  /\ sanitizeColor (JStr "FFA500") "000000" = ColorText "FFA500".
Proof.
  split; [reflexivity|].
  exact (proj1 (proj2 sanitizeColor_fixpoint) (JStr "Orange") "FFFFFF" "000000"
               "FFA500" eq_refl eq_refl).
Defined.

(** ** The chart and the table it is derived from *)

Lemma normalizeNumber_text (v : JsVal) :
  normalizeNumber v = normalizeNumber (JStr (toString (coalesce v (JStr "")))).
Proof.
  destruct v; try reflexivity.
Qed.

Lemma mapiM_nth {A B : Type} (f : A -> nat -> Result B) :
  forall l i ys j x,
    mapiM f i l = Ok ys -> nth_error l j = Some x ->
    exists y, nth_error ys j = Some y /\ f x (i + j) = Ok y.
Proof.
  induction l as [|a r IH]; intros i ys j x H Hj; [now destruct j|].
  simpl in H. destruct (f a i) as [y0|] eqn:E0; [|discriminate]. cbn [bind] in H.
  destruct (mapiM f (S i) r) as [ys'|] eqn:E; [|discriminate]. cbn [bind] in H.
  injection H as <-. destruct j as [|j].
  - injection Hj as <-. exists y0. rewrite Nat.add_0_r. now split.
  - cbn [nth_error] in Hj. destruct (IH (S i) ys' j x E Hj) as (y & Hy & Hf).
    exists y. split; [exact Hy|]. now rewrite Nat.add_succ_r.
Qed.

Lemma findValueColumn_bounds (tableData : list JsVal) :
  forall rest i c,
    findValueColumn tableData rest i = Ok (Some c) -> i <= c < i + List.length rest.
Proof.
  induction rest as [|h r IH]; intros i c H; simpl in H; [discriminate|].
  destruct (someM _ tableData) as [[|]|]; try discriminate; cbn [bind] in H.
  - injection H as <-. cbn [List.length]. lia.
  - apply IH in H. cbn [List.length]. lia.
Qed.

(** The cell of the table slide under the header of index [j] is the text
    of the value the chart reads in that column. *)
Lemma cell_of_row (headers : list string) (row : JsVal) (cells : list string)
  (j : nat) (v : JsVal) :
  mapiM (fun header idx => getColumnValueText row (Some header) idx) 0 headers
  = Ok cells ->
  j < List.length headers ->
  getColumnValue row (nth_error headers j) j = Ok v ->
  nth j cells "" = toString (coalesce v (JStr "")).
Proof.
  intros Hcells Hj Hv.
  destruct (nth_error headers j) as [h|] eqn:Eh;
    [|apply nth_error_None in Eh; lia].
  destruct (mapiM_nth _ _ _ _ _ _ Hcells Eh) as (y & Hy & Hf).
  cbn [Nat.add] in Hf. rewrite getColumnValueText_raw, Hv in Hf. cbn [bind] in Hf.
  injection Hf as <-. now apply nth_error_nth.
Qed.

Lemma chartItems_of_cells (headers : list string) (c : nat) :
  0 < List.length headers -> c < List.length headers ->
  forall tableData rows raw,
    mapM (fun row =>
            mapiM (fun header idx => getColumnValueText row (Some header) idx)
                  0 headers) tableData = Ok rows ->
    mapM (fun row =>
            l <- getColumnValue row (nth_error headers 0) 0 ;;
            v <- getColumnValue row (nth_error headers c) c ;;
            Ok {| item_label := toString (coalesce l (JStr ""));
                  item_value := normalizeNumber v |}) tableData = Ok raw ->
    raw = map (pointOfCells c) rows.
Proof.
  intros H0 Hc. induction tableData as [|row r IH]; intros rows raw Hrows Hraw;
    cbn [mapM] in Hrows, Hraw.
  - injection Hrows as <-. now injection Hraw as <-.
  - destruct (mapiM _ 0 headers) as [cells|] eqn:Ecells; [|discriminate].
    cbn [bind] in Hrows.
    destruct (mapM _ r) as [rows'|] eqn:Erows in Hrows; [|discriminate].
    cbn [bind] in Hrows. injection Hrows as <-.
    destruct (getColumnValue row (nth_error headers 0) 0) as [l|] eqn:El;
      [|discriminate].
    cbn [bind] in Hraw.
    destruct (getColumnValue row (nth_error headers c) c) as [v|] eqn:Ev;
      [|discriminate].
    cbn [bind] in Hraw.
    destruct (mapM _ r) as [raw'|] eqn:Eraw in Hraw; [|discriminate].
    cbn [bind] in Hraw. injection Hraw as <-.
    cbn [map]. f_equal; [|now apply IH].
    unfold pointOfCells.
    rewrite (cell_of_row headers row cells 0 l Ecells H0 El).
    rewrite (cell_of_row headers row cells c v Ecells Hc Ev).
    now rewrite <- normalizeNumber_text.
Qed.

(** X13.  The chart shows what the table shows.  When a table field gives
    a table slide and a chart slide, the chart can be read off the cells of
    the table slide alone: for some column of index at least one, its data
    points are, in row order, the pairs made of the first cell of a row
    and of the number its cell in that column normalizes to, the pairs
    that [createChartFromTable] filters out being dropped. *)
Theorem chart_reads_table (section : FormSection) (sectionData : JsVal)
  (slides : list ResolvedSlide) (field : FormField) (fieldIndex : nat)
  (out : list ResolvedSlide) :
  tableFieldSlides section sectionData slides field fieldIndex = Ok out ->
  out = slides
  \/ exists rows chart pages,
       out = (slides ++ tableSlide section field fieldIndex (headersOf field) rows
                     :: optionToList chart ++ pages)%list
       /\ Forall (fun s => slide_layout s = Layout_photoGrid) pages
       /\ forall c,
            chart = Some c ->
            exists valueColumn,
              1 <= valueColumn < List.length (headersOf field)
              /\ let points :=
                   filter keepChartItem (map (pointOfCells valueColumn) rows) in
                 slide_data c
                 = ChartData (chartTypeFor (map item_value points))
                             (map item_label points) (map item_value points).
Proof.
  intros H. apply tableFieldSlides_shape in H.
  destruct H as [->|(tableData & rows & chart & photos & _ & _ & Hrows & Hc & _ & ->)];
    [now left|].
  right. exists rows, chart, (pagesOf (tablePhotoSlide section field fieldIndex) photos).
  split; [reflexivity|]. split; [apply photoPages_layout|].
  intros c ->. unfold createChartFromTable in Hc. unfold headersOf in *.
  destruct (field_columns field) as [headers|]; [|discriminate].
  destruct (List.length headers <? 2) eqn:Elen; [discriminate|].
  apply Nat.ltb_ge in Elen.
  destruct (findValueColumn _ _ _) as [[valueCol|]|] eqn:Ev; try discriminate.
  cbn [bind] in Hc. apply findValueColumn_bounds in Ev.
  assert (Hlen : List.length (skipn 1 headers) = List.length headers - 1)
    by apply length_skipn.
  unfold chartItems in Hc.
  destruct (mapM _ tableData) as [raw|] eqn:Hraw in Hc; [|discriminate].
  cbn [bind] in Hc.
  rewrite (chartItems_of_cells headers valueCol ltac:(lia) ltac:(lia) _ _ _ Hrows Hraw)
    in Hc.
  destruct (_ || _); [discriminate|]. injection Hc as <-.
  exists valueCol. split; [lia | reflexivity].
Qed.

(** X13 at a concrete input: the chart of the offerings table. *)
Lemma chart_reads_table_witness :
  exists rows chart pages,
    tableFieldSlides offeringsSection (JObj [("offerings", JArr fiveOfferings)])
                     [] offeringsField 0
    = Ok ([] ++ tableSlide offeringsSection offeringsField 0
                           (headersOf offeringsField) rows
             :: optionToList chart ++ pages)%list
    /\ Forall (fun s => slide_layout s = Layout_photoGrid) pages.
Proof.
  edestruct (chart_reads_table offeringsSection
               (JObj [("offerings", JArr fiveOfferings)]) [] offeringsField 0)
    as [Hout|(rows & chart & pages & Hout & Hpages & _)];
    [vm_compute; reflexivity | discriminate Hout |].
  exists rows, chart, pages.
  split; [rewrite <- Hout; vm_compute; reflexivity | exact Hpages].
Defined.

(** ** Chart derivation, and where its slides go *)

Lemma plainRow_notNullish (row : JsVal) : plainRow row = true -> isNullish row = false.
Proof. destruct row; simpl; congruence. Qed.

Lemma plainRows_notNullish (tableData : list JsVal) :
  Forall (fun row => plainRow row = true) tableData ->
  Forall (fun row => isNullish row = false) tableData.
Proof. apply Forall_impl. exact plainRow_notNullish. Qed.

Lemma forEachM_appends {A : Type}
  (f : list ResolvedSlide -> A -> nat -> Result (list ResolvedSlide)) :
  (forall acc x i acc', f acc x i = Ok acc' -> exists r, acc' = (acc ++ r)%list) ->
  forall l i acc out,
    forEachM f i l acc = Ok out -> exists r, out = (acc ++ r)%list.
Proof.
  intros Hf l i acc out H.
  refine (forEachM_invariant (fun a => exists r, a = (acc ++ r)%list) f _ l i acc out _ H).
  - intros a x j a' [r ->] Hstep. destruct (Hf _ _ _ _ Hstep) as [r' ->].
    exists (r ++ r')%list. now rewrite app_assoc.
  - exists []. now rewrite app_nil_r.
Qed.

Lemma concat_nth {A : Type} (ls : list (list A)) :
  forall j l, nth_error ls j = Some l ->
              exists before after, List.concat ls = (before ++ l ++ after)%list.
Proof.
  induction ls as [|x r IH]; intros j l H; [now destruct j|].
  destruct j as [|j]; cbn [nth_error] in H.
  - injection H as <-. exists [], (List.concat r). reflexivity.
  - destruct (IH j l H) as (b & a & E). exists (x ++ b)%list, a.
    cbn [List.concat]. now rewrite E, app_assoc.
Qed.

(** C6 (as amended).  Take a table field with at least two declared
    columns whose stored table is a non-empty list of plain rows.  The
    two-column table slide is always emitted, with the declared headers
    and one line of resolved cells per row.  When no column after the
    first holds a number in any row, no chart slide follows it.  Otherwise
    let [c] be the first such column and let the pairs be the
    (first-column text, number in column [c]) pairs of the rows, in stored
    order, without those whose label is empty, whose value is not a
    number, or whose label is "total", "net surplus / (deficit)" or "grand
    total" in any case: when no pair remains or every remaining value is
    zero, no chart slide follows the table slide; otherwise the chart
    slide comes immediately after it, with the remaining labels and
    values, as a pie chart for at most five pairs and a bar chart for
    more.  The photo pages of the rows come last.  A table field that
    stores no row, or something that is not a list, gets no slide at all.
    The slides of the table fields of a section are the first slides of
    that section, and the slides of a section other than [header] and
    [signatures] are part of the deck.  Five data points give a pie, six a
    bar, and an all-zero column gives no chart. *)
Theorem chartDerivation :
  (forall section sectionData slides field fieldIndex headers tableData,
     field_columns field = Some headers ->
     2 <= List.length headers ->
     get sectionData (field_id field) = JArr tableData ->
     tableData <> [] ->
     Forall (fun row => plainRow row = true) tableData ->
     exists rows photoPages,
       let table := tableSlide section field fieldIndex headers rows in
       let out := tableFieldSlides section sectionData slides field fieldIndex in
       slide_layout table = Layout_twoColumn
       /\ slide_data table = TableData headers rows
       /\ Forall2 (fun row cells =>
                     mapiM (fun header idx => getColumnValueText row (Some header) idx)
                           0 headers = Ok cells) tableData rows
       /\ Forall (fun s => slide_layout s = Layout_photoGrid) photoPages
       /\ (exists rest, out = Ok (slides ++ table :: rest)%list)
       /\ ((forall c, 1 <= c < List.length headers -> nonNumericAt headers tableData c) ->
             out = Ok (slides ++ table :: photoPages)%list)
       /\ (forall c,
             1 <= c < List.length headers ->
             numericAt headers tableData c ->
             (forall j, 1 <= j < c -> nonNumericAt headers tableData j) ->
             exists raw,
               let pairs := filter keepChartItem raw in
               Forall2 (pairOfRow headers c) tableData raw
               /\ (forall p, In p pairs <-> In p raw /\ chartable p)
               /\ ((pairs = [] \/ forall p, In p pairs -> isZero (item_value p) = true) ->
                     out = Ok (slides ++ table :: photoPages)%list)
               /\ ((exists p, In p pairs /\ isZero (item_value p) = false) ->
                     exists chart,
                       out = Ok (slides ++ table :: chart :: photoPages)%list
                       /\ slide_layout chart = Layout_chartFull
                       /\ slide_data chart
                          = ChartData (if List.length pairs <=? 5 then pie else bar)
                                      (map item_label pairs) (map item_value pairs)))) /\
  (forall section sectionData slides field fieldIndex,
     (forall tableData,
        get sectionData (field_id field) = JArr tableData -> tableData = []) ->
     tableFieldSlides section sectionData slides field fieldIndex = Ok slides) /\
  (forall formData section sectionIndex out,
     createSlidesForSection formData section sectionIndex = Ok out ->
     exists tableSlides rest,
       forEachM (tableFieldSlides section (sectionDataOf formData section)) 0
                (filter (hasType TABLE) (section_fields section)) []
       = Ok tableSlides
       /\ out = (tableSlides ++ rest)%list) /\
  (forall template formData deck sectionIndex section,
     resolve template formData = Ok deck ->
     nth_error (template_sections template) sectionIndex = Some section ->
     isReserved section = false ->
     exists sectionSlides before after,
       createSlidesForSection formData section sectionIndex = Ok sectionSlides
       /\ deck = (before ++ sectionSlides ++ after)%list) /\
  (exists table chart,
     tableFieldSlides offeringsSection (JObj [("offerings", JArr fiveOfferings)])
                      [] offeringsField 0 = Ok [table; chart]
     /\ chartTypesOf [table; chart] = [None; Some pie]) /\
  (exists table chart,
     tableFieldSlides offeringsSection (JObj [("offerings", JArr sixOfferings)])
                      [] offeringsField 0 = Ok [table; chart]
     /\ chartTypesOf [table; chart] = [None; Some bar]) /\
  (exists table,
     tableFieldSlides offeringsSection (JObj [("offerings", JArr zeroOfferings)])
                      [] offeringsField 0 = Ok [table]
     /\ slide_layout table = Layout_twoColumn).
Proof.
  split; [|split; [|split; [|split; [|split; [|split]]]]].
  5: { do 2 eexists. split; [vm_compute; reflexivity | reflexivity]. }
  5: { do 2 eexists. split; [vm_compute; reflexivity | reflexivity]. }
  5: { eexists. split; [vm_compute; reflexivity | reflexivity]. }
  2: { intros section sectionData slides field fieldIndex Hempty.
       unfold tableFieldSlides.
       destruct (get sectionData (field_id field)) as [| | | | |tableData|];
         try reflexivity.
       now rewrite (Hempty tableData eq_refl). }
  2: { intros formData section sectionIndex out. unfold createSlidesForSection.
       fold (sectionDataOf formData section).
       destruct (forEachM (tableFieldSlides _ _) 0 _ []) as [s1|]; [|discriminate].
       cbn [bind].
       destruct (forEachM (bulletFieldSlides _ _) 0 _ s1) as [s2|] eqn:E2;
         [|discriminate].
       cbn [bind].
       destruct (forEachM (photoFieldSlides _ _) 0 _ s2) as [s3|] eqn:E3;
         [|discriminate].
       cbn [bind]. intros H. injection H as <-.
       apply forEachM_appends in E2.
       2: { intros acc f j acc'. unfold bulletFieldSlides.
            destruct (get _ _); try (intros H; injection H as <-; exists [];
                                     now rewrite app_nil_r).
            destruct (_ =? 0); intros H; injection H as <-;
              [exists []; now rewrite app_nil_r | eexists; reflexivity]. }
       rewrite forEachM_photoFieldSlides in E3. injection E3 as <-.
       destruct E2 as [r2 ->]. exists s1.
       unfold textSummarySlides.
       destruct (0 <? _); [destruct (0 <? _)|];
         rewrite <- ?app_assoc; eexists; split; reflexivity. }
  2: { intros template formData deck j section Hdeck Hnth Hres.
       destruct (createTitleSlide_some template formData) as (t & Ht & _).
       rewrite (resolve_shape template formData t Ht) in Hdeck.
       destruct (mapiM _ _ _) as [ps|] eqn:Eps; [|discriminate]. cbn [bind] in Hdeck.
       destruct (createSummarySlide template formData) as [summary|]; [|discriminate].
       cbn [bind] in Hdeck. injection Hdeck as <-.
       destruct (mapiM_nth _ _ _ _ _ _ Eps Hnth) as (ss & Hss & Hc).
       unfold sectionContribution in Hc. rewrite Hres in Hc. cbn [Nat.add] in Hc.
       destruct (concat_nth _ _ _ Hss) as (b & a & E).
       exists ss, (t :: b)%list, (a ++ optionToList summary)%list.
       split; [exact Hc|]. rewrite E. cbn [app]. now rewrite <- !app_assoc. }
  intros section sectionData slides field fieldIndex headers tableData
         Hcol Hlen Hget Hne Hplain.
  pose proof (plainRows_notNullish _ Hplain) as Hrows.
  assert (Hheaders : headersOf field = headers) by (unfold headersOf; now rewrite Hcol).
  destruct (tableRows_total headers tableData Hrows) as (rows & Hrowsv & Hcells).
  destruct (tablePhotosOf_total tableData Hrows) as [photos Hphotos].
  exists rows, (pagesOf (tablePhotoSlide section field fieldIndex) photos).
  cbv zeta. split; [reflexivity|]. split; [reflexivity|]. split; [exact Hcells|].
  split; [apply photoPages_layout|].
  destruct (findValueColumn_spec headers tableData Hrows (skipn 1 headers) 1)
    as (vc & Hvc & Hspec); [intros j; apply nth_error_skipn1|].
  assert (Hrest : 1 + List.length (skipn 1 headers) = List.length headers)
    by (rewrite length_skipn; lia).
  rewrite Hrest in Hspec.
  pose proof (createChartFromTable_steps field tableData section fieldIndex
                headers vc Hcol Hlen Hvc) as Hchart.
  assert (Hsteps : forall chart,
             createChartFromTable field tableData section fieldIndex = Ok chart ->
             tableFieldSlides section sectionData slides field fieldIndex
             = Ok (slides ++ tableSlide section field fieldIndex headers rows
                   :: optionToList chart
                   ++ pagesOf (tablePhotoSlide section field fieldIndex) photos)%list).
  { intros chart Hc. rewrite <- Hheaders.
    apply tableFieldSlides_steps with (tableData := tableData); try assumption.
    now rewrite Hheaders. }
  split.
  { destruct (createChartFromTable_total field tableData section fieldIndex Hrows)
      as [chart0 Hchart0].
    eexists. apply (Hsteps chart0 Hchart0). }
  split.
  - intros Hnone. destruct vc as [c|].
    + destruct Hspec as (Hc & Hnum & _). exfalso.
      exact (numeric_not_nonNumeric _ _ _ Hnum (Hnone c Hc)).
    + now rewrite (Hsteps None Hchart).
  - intros c Hc Hnum Hbefore. destruct vc as [c'|].
    2: { exfalso. exact (numeric_not_nonNumeric _ _ _ Hnum (Hspec c Hc)). }
    destruct Hspec as (Hc' & Hnum' & Hbefore').
    assert (c' = c).
    { destruct (Nat.lt_trichotomy c' c) as [H|[H|H]]; [|exact H|]; exfalso.
      - apply (numeric_not_nonNumeric _ _ _ Hnum'). apply Hbefore. lia.
      - apply (numeric_not_nonNumeric _ _ _ Hnum). apply Hbefore'. lia. }
    subst c'.
    destruct (nth_error headers 0) as [h0|] eqn:E0;
      [|apply nth_error_None in E0; lia].
    destruct (nth_error headers c) as [hc|] eqn:Ec;
      [|apply nth_error_None in Ec; lia].
    destruct (chartItems_spec headers tableData c h0 hc Hrows E0 Ec) as (raw & HF & Hitems).
    exists raw. cbv zeta. split; [exact HF|]. split.
    { intros p. rewrite filter_In, keepChartItem_chartable. tauto. }
    specialize (Hchart _ Hitems). split.
    + intros Hz.
      assert (Hg : (List.length (filter keepChartItem raw) =? 0)
                   || forallb (fun item => isZero (item_value item))
                              (filter keepChartItem raw) = true).
      { destruct Hz as [->|Hz]; [reflexivity|].
        apply orb_true_iff. right. apply forallb_forall. exact Hz. }
      rewrite Hg in Hchart. now rewrite (Hsteps None Hchart).
    + intros (p & Hp & Hnz).
      assert (Hg : (List.length (filter keepChartItem raw) =? 0)
                   || forallb (fun item => isZero (item_value item))
                              (filter keepChartItem raw) = false).
      { apply orb_false_iff. split.
        - apply Nat.eqb_neq. intros Hl. apply length_zero_iff_nil in Hl.
          rewrite Hl in Hp. destruct Hp.
        - destruct (forallb _ _) eqn:Ef; [|reflexivity].
          rewrite forallb_forall in Ef. rewrite (Ef p Hp) in Hnz. discriminate. }
      rewrite Hg in Hchart.
      exists (chartSlide field section fieldIndex (filter keepChartItem raw)).
      split; [now rewrite (Hsteps _ Hchart)|]. split; [reflexivity|].
      unfold chartSlide, chartTypeFor. cbn [slide_data]. rewrite length_map.
      f_equal.
      destruct (Nat.ltb_spec 5 (List.length (filter keepChartItem raw))),
               (Nat.leb_spec (List.length (filter keepChartItem raw)) 5);
        try reflexivity; lia.
Qed.

(** C6 at a concrete table: five chartable offerings and a total row. *)
Lemma chartDerivation_witness :
  exists rows photoPages,
    Forall (fun s => slide_layout s = Layout_photoGrid) photoPages
    /\ slide_layout (tableSlide offeringsSection offeringsField 0 ["Item"; "Amount"] rows)
       = Layout_twoColumn.
Proof.
  destruct (proj1 chartDerivation offeringsSection
                  (JObj [("offerings", JArr fiveOfferings)]) [] offeringsField 0
                  ["Item"; "Amount"] fiveOfferings eq_refl)
    as (rows & photoPages & H1 & _ & _ & H2 & _).
  - simpl. lia.
  - reflexivity.
  - discriminate.
  - repeat constructor.
  - exists rows, photoPages. split; [exact H2 | exact H1].
Defined.

(** C6, an input on which the claim as stated fails: a table field with
    two declared columns whose stored table has no row has no numeric
    column and no pair, and the resolver emits no table slide for it. *)
Lemma chartDerivation_counterexample :
  field_columns offeringsField = Some ["Item"; "Amount"]
  /\ (forall c, nonNumericAt ["Item"; "Amount"] [] c)
  /\ tableFieldSlides offeringsSection (JObj [("offerings", JArr [])])
                      [] offeringsField 0 = Ok []
  /\ exists titleSlide,
       resolve offeringsTemplate [("finance", JObj [("offerings", JArr [])])]
       = Ok [titleSlide]
       /\ slide_layout titleSlide = Layout_title.
Proof.
  split; [reflexivity|]. split; [intros c row []|]. split; [reflexivity|].
  eexists. split; [vm_compute; reflexivity | reflexivity].
Qed.

(** ** Determinism *)









